(** * pdf-merger-pro: page-range parsing, merging and splitting

    A shallow embedding of the page-selection logic of
    [pdf_merger.py], [pdf_splitter.py] and [pdf_modifier.py], and the
    properties that the specification states about it.

    Python values are modelled as follows.
    - [int] is [Z] (unbounded).
    - [str] is [string]; one [ascii] stands for one code point below 256.
    - [list] of [int] is [list Z]; [set] of [int] is [gset Z].
    - [dict] from [str] to [str] is [gmap string string].
    - an exception is a value of an inductive type; a function that may
      raise returns a [result]. *)

From Stdlib Require Import ZArith String Ascii List Bool Lia Sorted Permutation.
From stdpp Require Import base option list sorting gmap strings pretty.

Local Open Scope string_scope.
Local Open Scope list_scope.
Local Open Scope Z_scope.

(** ** Results of computations that may raise *)

Inductive result (E A : Type) : Type :=
| Ok (a : A)
| Raise (e : E).
Arguments Ok {E A} a.
Arguments Raise {E A} e.

Definition is_ok {E A} (r : result E A) : bool :=
  match r with Ok _ => true | Raise _ => false end.

(** ** Python built-ins used by the three modules *)

Module Py.

(** [str.isspace] on one code point below 256: TAB..CR, FS..US, SPACE,
    NEL (0x85) and NBSP (0xA0). *)
Definition isspace (c : ascii) : bool :=
  let n := nat_of_ascii c in
  ((9 <=? n) && (n <=? 13) || (28 <=? n) && (n <=? 32)
   || (n =? 133) || (n =? 160))%nat.

(** [str.isdigit] restricted to the decimal digits [int] accepts. *)
Definition isdigit (c : ascii) : bool :=
  let n := nat_of_ascii c in ((48 <=? n) && (n <=? 57))%nat.

Definition digit_value (c : ascii) : Z := Z.of_nat (nat_of_ascii c) - 48.

Definition is_empty (s : string) : bool :=
  match s with EmptyString => true | String _ _ => false end.

(** [s.lstrip()], [s.rstrip()] and [s.strip()] with no argument. *)
Fixpoint lstrip (s : string) : string :=
  match s with
  | EmptyString => EmptyString
  | String c s' => if isspace c then lstrip s' else s
  end.

Fixpoint rstrip (s : string) : string :=
  match s with
  | EmptyString => EmptyString
  | String c s' =>
      let r := rstrip s' in
      if isspace c && is_empty r then EmptyString else String c r
  end.

Definition strip (s : string) : string := rstrip (lstrip s).

(** [s.lower()]: A..Z and the Latin-1 capitals (0xC0..0xDE but 0xD7)
    move up by 32. *)
Definition lower_char (c : ascii) : ascii :=
  let n := nat_of_ascii c in
  if ((65 <=? n) && (n <=? 90)
      || (192 <=? n) && (n <=? 222) && negb (n =? 215))%nat
  then ascii_of_nat (n + 32) else c.

Fixpoint lower (s : string) : string :=
  match s with
  | EmptyString => EmptyString
  | String c s' => String (lower_char c) (lower s')
  end.

(** [sep in s] for a one-character [sep]. *)
Fixpoint contains (sep : ascii) (s : string) : bool :=
  match s with
  | EmptyString => false
  | String c s' => Ascii.eqb c sep || contains sep s'
  end.

(** [s.split(sep)] for a one-character [sep]: never the empty list. *)
Fixpoint split (sep : ascii) (s : string) : list string :=
  match s with
  | EmptyString => [EmptyString]
  | String c s' =>
      if Ascii.eqb c sep then EmptyString :: split sep s'
      else match split sep s' with
           | w :: ws => String c w :: ws
           | [] => [String c EmptyString]
           end
  end.

(** [s.endswith(suffix)]. *)
Fixpoint endswith (s suffix : string) : bool :=
  String.eqb s suffix ||
  match s with
  | EmptyString => false
  | String _ s' => endswith s' suffix
  end.

(** The digits of a decimal literal after its first digit: digits, with
    single underscores allowed between two digits. *)
Fixpoint int_digits (acc : Z) (s : string) : option Z :=
  match s with
  | EmptyString => Some acc
  | String c s' =>
      if isdigit c then int_digits (10 * acc + digit_value c) s'
      else if Ascii.eqb c "_" then
        match s' with
        | String d s'' =>
            if isdigit d then int_digits (10 * acc + digit_value d) s''
            else None
        | EmptyString => None
        end
      else None
  end.

(** The default of [sys.get_int_max_str_digits()]: [int] raises
    [ValueError] on a literal with more digits. *)
Definition int_max_str_digits : Z := 4300.

Fixpoint count_digits (s : string) : Z :=
  match s with
  | EmptyString => 0
  | String c s' => (if isdigit c then 1 else 0) + count_digits s'
  end.

Definition int_unsigned (s : string) : option Z :=
  match s with
  | String d s' =>
      if isdigit d && (count_digits s <=? int_max_str_digits)
      then int_digits (digit_value d) s'
      else None
  | EmptyString => None
  end.

(** [int(s)] in base 10: surrounding whitespace, an optional sign, then
    the digits.  [None] stands for [ValueError]. *)
Definition int (s : string) : option Z :=
  match strip s with
  | EmptyString => None
  | String c r as t =>
      if Ascii.eqb c "+" then int_unsigned r
      else if Ascii.eqb c "-" then Z.opp <$> int_unsigned r
      else int_unsigned t
  end.

(** [s.replace(old, new)] for one-character [old] and [new]. *)
Fixpoint replace (old new : ascii) (s : string) : string :=
  match s with
  | EmptyString => EmptyString
  | String c s' =>
      String (if Ascii.eqb c old then new else c) (replace old new s')
  end.

(** [os.path.basename(p)] (POSIX): what follows the last slash. *)
Definition basename (p : string) : string :=
  List.last (split "/" p) EmptyString.

(** [os.path.splitext(p)[0]] for a [p] without slash: [p] up to its last
    dot, when a character other than a dot comes before that dot. *)
Fixpoint all_dots (cs : list ascii) : bool :=
  match cs with
  | [] => true
  | c :: cs' => Ascii.eqb c "." && all_dots cs'
  end.

Fixpoint drop_to_dot (cs : list ascii) : option (list ascii) :=
  match cs with
  | [] => None
  | c :: cs' => if Ascii.eqb c "." then Some cs' else drop_to_dot cs'
  end.

Definition splitext_root (p : string) : string :=
  match drop_to_dot (rev (list_ascii_of_string p)) with
  | Some before =>
      if all_dots before then p else string_of_list_ascii (rev before)
  | None => p
  end.

(** [os.path.join(a, b)] (POSIX). *)
Definition join (a b : string) : string :=
  match b with
  | String "/" _ => b
  | _ => if is_empty a || endswith a "/" then a +:+ b
         else a +:+ "/" +:+ b
  end.

(** [str(n)] for an [int]. *)
Definition str (n : Z) : string := pretty n.

(** [list(range(a, b))]. *)
Definition range (a b : Z) : list Z :=
  map (fun i => a + Z.of_nat i) (seq 0 (Z.to_nat (b - a))).

(** [sorted(list(set(pages)))]. *)
Definition sorted_set (pages : list Z) : list Z :=
  merge_sort Z.le (elements (list_to_set pages : gset Z)).

End Py.

(** Exceptions raised by Python itself or by [pypdf].  The code fixes
    the class of the first two.  The other two come from the outside
    world and stand for a place of failure rather than for a class:
    [PdfReadError] is whatever [PdfReader(path)] or [len(reader.pages)]
    raises on a file that cannot be opened or read as a PDF
    ([PdfReadError], [OSError], ...), and [OSError] whatever creating a
    directory, opening an output file or [writer.write] raises. *)
Inductive PyExc : Type :=
| ValueError
| IndexError
| OSError
| PdfReadError.

#[global] Instance result_ret {E} : MRet (result E) := fun _ a => Ok a.
#[global] Instance result_bind {E} : MBind (result E) :=
  fun _ _ f r => match r with Ok a => f a | Raise e => Raise e end.

(** A progress notification [(current, total, message)]; the message
    type is fixed by each module. *)
Record ProgressEvent (Msg : Type) : Type :=
  { current : Z; total : Z; message : Msg }.
Arguments Build_ProgressEvent {Msg} _ _ _.
Arguments current {Msg} _.
Arguments total {Msg} _.
Arguments message {Msg} _.

(** A page of a source document: the document's path and the 0-based
    index of the page in it. *)
Definition page : Type := string * Z.

(** What the program sees of the file system and of [pypdf]. *)
Record World : Type :=
  { path_exists : string -> bool;
      (* os.path.exists(path) *)
    pdf_pages : string -> option nat;
      (* len(PdfReader(path).pages), None when opening raises *)
    writable : string -> bool
      (* creating the directories, opening the file and writing it all
         succeed; when one of them fails the file may still have been
         created or truncated, see [failed_writes] *) }.

(** [reader.pages[i]] on a document of [n] pages: a negative index
    counts from the end, anything outside raises [IndexError]. *)
Definition pages_getitem (file_path : string) (n i : Z) : result PyExc page :=
  let j := if i <? 0 then n + i else i in
  if (j <? 0) || (n <=? j) then Raise IndexError else Ok (file_path, j).

(** ** Stateful computations that may raise

    [M S E A]: from a state, a result or an exception, and the state
    reached (what was done before an exception stays done). *)

Definition M (S E A : Type) : Type := S -> result E A * S.

Section Monad.
Context {S E : Type}.

Definition ret {A} (a : A) : M S E A := fun s => (Ok a, s).

Definition bind {A B} (m : M S E A) (k : A -> M S E B) : M S E B :=
  fun s =>
    match m s with
    | (Ok a, s') => k a s'
    | (Raise e, s') => (Raise e, s')
    end.

Definition raise {A} (e : E) : M S E A := fun s => (Raise e, s).

Definition lift {A} (r : result E A) : M S E A := fun s => (r, s).

Definition modify (f : S -> S) : M S E unit := fun s => (Ok tt, f s).

(** [try: m  except Exception as e: h e]. *)
Definition try_except {A} (m : M S E A) (h : E -> M S E A) : M S E A :=
  fun s =>
    match m s with
    | (Ok a, s') => (Ok a, s')
    | (Raise e, s') => h e s'
    end.

(** [for i, x in enumerate(l): body i x], counting from [i]. *)
Fixpoint for_enumerate {A} (i : Z) (l : list A) (body : Z -> A -> M S E unit)
  : M S E unit :=
  match l with
  | [] => ret tt
  | x :: l' => bind (body i x) (fun _ => for_enumerate (i + 1) l' body)
  end.
End Monad.

Notation "'let*' x := m 'in' k" := (bind m (fun x => k))
  (at level 10, x name, m at level 100, k at level 200).
Notation "m ;; k" := (bind m (fun _ => k))
  (at level 100, k at level 200, right associativity).

(** [len(l)] as an [int]. *)
Definition len {A} (l : list A) : Z := Z.of_nat (length l).

(** ** pdf_merger.py *)

Module PDFMerger.

(** [PDFMergerError(message)], one constructor per message. *)
Inductive PDFMergerError : Type :=
| No_input_files
    (* "No input files provided" *)
| At_least_2_required
    (* "At least 2 PDF files are required for merging" *)
| File_not_found (file_path : string)
| Not_a_PDF_file (file_path : string)
| PDF_file_is_empty (file_path : string)
| Invalid_or_corrupted (file_path : string) (cause : exn)
| Invalid_page_range_format (range_str : string)
| Failed_to_merge (cause : exn)
with exn : Type :=
| Builtin (e : PyExc)
| Custom (e : PDFMergerError).

Definition int_or_raise (s : string) : result exn Z :=
  match Py.int s with
  | Some v => Ok v
  | None => Raise (Builtin ValueError)
  end.

(** One iteration of [for part in parts]: the new value of [pages].
    The lists of this model have no size limit: on a range of [2^63]
    entries or more [pages.extend] raises [OverflowError], which is not
    a [ValueError], where this function returns the list.  The merger
    tests no bound, so a short expression can ask for such a range; the
    format error of the merger is proved for terms that a list can hold
    ([listable]), and nothing is said of which error a merge wraps when
    it reads such an expression. *)
Definition parse_part (pages : list Z) (part : string) : result exn (list Z) :=
  let part := Py.strip part in
  if Py.contains "-" part then
    match Py.split "-" part with
    | [start; end_] =>
        start ← int_or_raise (Py.strip start);
        let start := start - 1 in
        end_ ← int_or_raise (Py.strip end_);
        let end_ := end_ - 1 in
        Ok (pages ++ Py.range start (end_ + 1))
    | _ => Raise (Builtin ValueError)
    end
  else
    v ← int_or_raise (Py.strip part);
    Ok (pages ++ [v - 1]).

Fixpoint parse_parts (pages : list Z) (parts : list string)
  : result exn (list Z) :=
  match parts with
  | [] => Ok pages
  | part :: parts' =>
      pages' ← parse_part pages part;
      parse_parts pages' parts'
  end.

Definition parse_page_range (range_str : string) (total_pages : Z)
  : result exn (list Z) :=
  if Py.is_empty range_str
     || String.eqb (Py.lower (Py.strip range_str)) "all"
  then Ok (Py.range 0 total_pages)
  else
    let parts := Py.split "," range_str in
    match parse_parts [] parts with
    | Ok pages => Ok (Py.sorted_set pages)
    | Raise (Builtin ValueError) =>
        Raise (Custom (Invalid_page_range_format range_str))
    | Raise e => Raise e
    end.

(** The messages passed to the progress callback. *)
Inductive Message : Type :=
| Validating_PDF_files
    (* "Validating PDF files..." *)
| Validated (name : string)
    (* "Validated: {basename}" *)
| Merging_PDF_files
    (* "Merging PDF files..." *)
| Added_pages (count : Z) (name : string)
    (* "Added {count} pages from {basename}" *)
| Writing_merged_PDF
    (* "Writing merged PDF..." *)
| Successfully_merged (files : Z) (pages : Z).
    (* "Successfully merged {files} files ({pages} pages)" *)

(** The [PDFMerger] object and what it has done to the outside world. *)
Record state : Type :=
  { progress_callback : bool;
      (* is a callback registered *)
    calls : list (ProgressEvent Message);
      (* the calls the callback received, oldest first *)
    writer : option (list page);
      (* self.writer: the pages added so far *)
    files : list (string * list page);
      (* the files written, oldest first *)
    failed_writes : list string
      (* the output paths whose writing failed, oldest first: such a
         file may have been created or truncated, and left empty or
         partial *) }.

Definition init (callback : bool) : state :=
  {| progress_callback := callback; calls := []; writer := None; files := [];
     failed_writes := [] |}.

Section Operations.
Variable w : World.

Definition _update_progress (current total : Z) (message : Message)
  : M state exn unit :=
  modify (fun s =>
    if progress_callback s
    then {| progress_callback := progress_callback s;
            calls := calls s ++ [Build_ProgressEvent current total message];
            writer := writer s;
            files := files s;
            failed_writes := failed_writes s |}
    else s).

(** [PdfReader(file_path)], as its page count; [PdfReadError] stands
    for whatever it raises on a file that it cannot read. *)
Definition PdfReader (file_path : string) : M state exn Z :=
  match pdf_pages w file_path with
  | Some n => ret (Z.of_nat n)
  | None => raise (Builtin PdfReadError)
  end.

Definition validate_pdf (file_path : string) : M state exn bool :=
  if negb (path_exists w file_path)
  then raise (Custom (File_not_found file_path))
  else if negb (Py.endswith (Py.lower file_path) ".pdf")
  then raise (Custom (Not_a_PDF_file file_path))
  else
    try_except
      (let* num_pages := PdfReader file_path in
       if num_pages =? 0
       then raise (Custom (PDF_file_is_empty file_path))
       else ret true)
      (fun e => raise (Custom (Invalid_or_corrupted file_path e))).

(** [self.writer = PdfWriter()] and [self.writer.add_page(p)]. *)
Definition new_writer : M state exn unit :=
  modify (fun s =>
    {| progress_callback := progress_callback s; calls := calls s;
       writer := Some []; files := files s;
       failed_writes := failed_writes s |}).

Definition add_page (p : page) : M state exn unit :=
  modify (fun s =>
    {| progress_callback := progress_callback s; calls := calls s;
       writer := (fun ps => ps ++ [p]) <$> writer s; files := files s;
       failed_writes := failed_writes s |}).

(** Creating the output directory, opening [output_file] with ['wb']
    and [self.writer.write(output)].  When one of the three fails the
    file is not written, but it may have been created or truncated
    before the failure: the path is recorded in [failed_writes]. *)
Definition write_output (output_file : string) : M state exn unit :=
  if writable w output_file
  then modify (fun s =>
    {| progress_callback := progress_callback s; calls := calls s;
       writer := writer s;
       files := files s ++ [(output_file, default [] (writer s))];
       failed_writes := failed_writes s |})
  else
    modify (fun s =>
      {| progress_callback := progress_callback s; calls := calls s;
         writer := writer s; files := files s;
         failed_writes := failed_writes s ++ [output_file] |}) ;;
    raise (Builtin OSError).

(** [for page_num in pages_to_add: ...]; returns [total_pages]. *)
Fixpoint add_pages (file_path : string) (num_pages total_pages : Z)
    (pages_to_add : list Z) : M state exn Z :=
  match pages_to_add with
  | [] => ret total_pages
  | page_num :: rest =>
      let* p := lift (match pages_getitem file_path num_pages page_num with
                      | Ok p => Ok p
                      | Raise e => Raise (Builtin e)
                      end) in
      add_page p ;;
      add_pages file_path num_pages (total_pages + 1) rest
  end.

(** The pages chosen for [file_path]. *)
Definition pages_for (page_ranges : option (gmap string string))
    (file_path : string) (num_pages : Z) : M state exn (list Z) :=
  match page_ranges with
  | Some d =>
      if negb (bool_decide (d = ∅)) then
        match d !! file_path with
        | Some range_str => lift (parse_page_range range_str num_pages)
        | None => ret (Py.range 0 num_pages)
        end
      else ret (Py.range 0 num_pages)
  | None => ret (Py.range 0 num_pages)
  end.

(** The second [for i, file_path in enumerate(input_files)] loop,
    from index [i]; returns [total_pages]. *)
Fixpoint merge_loop (page_ranges : option (gmap string string))
    (n i total_pages : Z) (input_files : list string) : M state exn Z :=
  match input_files with
  | [] => ret total_pages
  | file_path :: rest =>
      let* num_pages := PdfReader file_path in
      let* pages_to_add := pages_for page_ranges file_path num_pages in
      let* total_pages :=
        add_pages file_path num_pages total_pages pages_to_add in
      _update_progress (i + 1) n
        (Added_pages (len pages_to_add) (Py.basename file_path)) ;;
      merge_loop page_ranges n (i + 1) total_pages rest
  end.

Definition merge_pdfs (input_files : list string) (output_file : string)
    (page_ranges : option (gmap string string)) : M state exn bool :=
  let n := len input_files in
  if bool_decide (input_files = [])
  then raise (Custom No_input_files)
  else if n <? 2
  then raise (Custom At_least_2_required)
  else
    _update_progress 0 n Validating_PDF_files ;;
    for_enumerate 0 input_files (fun i file_path =>
      validate_pdf file_path ;;
      _update_progress (i + 1) n (Validated (Py.basename file_path))) ;;
    new_writer ;;
    _update_progress 0 n Merging_PDF_files ;;
    try_except
      (let* total_pages := merge_loop page_ranges n 0 0 input_files in
       _update_progress n n Writing_merged_PDF ;;
       write_output output_file ;;
       _update_progress n n (Successfully_merged n total_pages) ;;
       ret true)
      (fun e => raise (Custom (Failed_to_merge e))).
End Operations.

End PDFMerger.

(** ** pdf_splitter.py *)

Module PDFSplitter.

(** [PDFSplitterError(message)], one constructor per message of
    [parse_page_range], [split_by_page_count] and [split_by_ranges]. *)
Inductive PDFSplitterError : Type :=
| Invalid_page_range (part : string) (total_pages : Z)
    (* "Invalid page range: {part}. Pages must be between 1 and
       {total_pages}" *)
| Invalid_page_number (number : Z) (total_pages : Z)
    (* "Invalid page number: {int(part)}. Must be between 1 and
       {total_pages}" *)
| Invalid_page_range_format (range_str : string)
    (* "Invalid page range format: {range_str}" *)
| File_not_found (input_file : string)
    (* "File not found: {input_file}" *)
| Pages_per_file_too_small
    (* "Pages per file must be at least 1" *)
| No_page_ranges_provided
    (* "No page ranges provided" *)
| Failed_to_split (cause : exn)
    (* "Failed to split PDF: {str(e)}" *)
with exn : Type :=
| Builtin (e : PyExc)
| Custom (e : PDFSplitterError).

Definition int_or_raise (s : string) : result exn Z :=
  match Py.int s with
  | Some v => Ok v
  | None => Raise (Builtin ValueError)
  end.

(** One iteration of [for part in parts]: the new value of [pages]. *)
Definition parse_part (total_pages : Z) (pages : list Z) (part : string)
  : result exn (list Z) :=
  let part := Py.strip part in
  if Py.contains "-" part then
    match Py.split "-" part with
    | [start; end_] =>
        start ← int_or_raise (Py.strip start);
        let start := start - 1 in
        end_ ← int_or_raise (Py.strip end_);
        let end_ := end_ - 1 in
        if (start <? 0) || (total_pages <=? end_) || (end_ <? start)
        then Raise (Custom (Invalid_page_range part total_pages))
        else Ok (pages ++ Py.range start (end_ + 1))
    | _ => Raise (Builtin ValueError)
    end
  else
    v ← int_or_raise (Py.strip part);
    let page := v - 1 in
    if (page <? 0) || (total_pages <=? page)
    then Raise (Custom (Invalid_page_number v total_pages))
    else Ok (pages ++ [page]).

Fixpoint parse_parts (total_pages : Z) (pages : list Z) (parts : list string)
  : result exn (list Z) :=
  match parts with
  | [] => Ok pages
  | part :: parts' =>
      pages' ← parse_part total_pages pages part;
      parse_parts total_pages pages' parts'
  end.

Definition parse_page_range (range_str : string) (total_pages : Z)
  : result exn (list Z) :=
  if Py.is_empty range_str
     || String.eqb (Py.lower (Py.strip range_str)) "all"
  then Ok (Py.range 0 total_pages)
  else
    let parts := Py.split "," range_str in
    match parse_parts total_pages [] parts with
    | Ok pages => Ok (Py.sorted_set pages)
    | Raise (Builtin ValueError) =>
        Raise (Custom (Invalid_page_range_format range_str))
    | Raise e => Raise e
    end.

(** The messages passed to the progress callback by the two split
    operations. *)
Inductive Message : Type :=
| Splitting_PDF
    (* "Splitting PDF..." *)
| Created (name : string)
    (* "Created {basename(output_file)}" *)
| Successfully_split_into (num_files : Z)
    (* "Successfully split into {num_files} files" *)
| Splitting_PDF_by_ranges
    (* "Splitting PDF by ranges..." *)
| Created_file_for_pages (range_str : string)
    (* "Created file for pages {range_str}" *)
| Successfully_created (count : Z).
    (* "Successfully created {count} files" *)

(** The [PDFSplitter] object and what it has done to the outside world. *)
Record state : Type :=
  { progress_callback : bool;
      (* is a callback registered *)
    calls : list (ProgressEvent Message);
      (* the calls the callback received, oldest first *)
    files : list (string * list page);
      (* the files written, oldest first *)
    failed_writes : list string
      (* the output paths whose writing failed, oldest first: such a
         file may have been created or truncated, and left empty or
         partial *) }.

Definition init (callback : bool) : state :=
  {| progress_callback := callback; calls := []; files := [];
     failed_writes := [] |}.

Section Operations.
Variable w : World.

Definition _update_progress (current total : Z) (message : Message)
  : M state exn unit :=
  modify (fun s =>
    if progress_callback s
    then {| progress_callback := progress_callback s;
            calls := calls s ++ [Build_ProgressEvent current total message];
            files := files s;
            failed_writes := failed_writes s |}
    else s).

(** [PdfReader(input_file)], as its page count; [PdfReadError] stands
    for whatever it raises on a file that it cannot read. *)
Definition PdfReader (input_file : string) : M state exn Z :=
  match pdf_pages w input_file with
  | Some n => ret (Z.of_nat n)
  | None => raise (Builtin PdfReadError)
  end.

(** [if not os.path.exists(output_dir): os.makedirs(output_dir)]. *)
Definition makedirs (output_dir : string) : M state exn unit :=
  if path_exists w output_dir || writable w output_dir
  then ret tt
  else raise (Builtin OSError).

(** [writer = PdfWriter()] followed by
    [for page_num in pages: writer.add_page(reader.pages[page_num])]:
    the pages of the writer. *)
Fixpoint add_pages (input_file : string) (total_pages : Z)
    (writer : list page) (pages : list Z) : result exn (list page) :=
  match pages with
  | [] => Ok writer
  | page_num :: rest =>
      match pages_getitem input_file total_pages page_num with
      | Ok p => add_pages input_file total_pages (writer ++ [p]) rest
      | Raise e => Raise (Builtin e)
      end
  end.

(** [with open(output_file, 'wb') as output: writer.write(output)].
    When opening or writing fails the file is not written, but it may
    have been created or truncated before the failure: the path is
    recorded in [failed_writes]. *)
Definition write_output (output_file : string) (writer : list page)
  : M state exn unit :=
  if writable w output_file
  then modify (fun s =>
    {| progress_callback := progress_callback s; calls := calls s;
       files := files s ++ [(output_file, writer)];
       failed_writes := failed_writes s |})
  else
    modify (fun s =>
      {| progress_callback := progress_callback s; calls := calls s;
         files := files s;
         failed_writes := failed_writes s ++ [output_file] |}) ;;
    raise (Builtin OSError).

(** [for file_num in range(num_files)]; returns [output_files]. *)
Fixpoint page_count_loop (input_file : string) (pages_per_file : Z)
    (output_dir : string) (total_pages num_files : Z) (base_name : string)
    (output_files : list string) (file_nums : list Z)
  : M state exn (list string) :=
  match file_nums with
  | [] => ret output_files
  | file_num :: rest =>
      let start_page := file_num * pages_per_file in
      let end_page := Z.min (start_page + pages_per_file) total_pages in
      let* writer :=
        lift (add_pages input_file total_pages []
                (Py.range start_page end_page)) in
      let output_file :=
        Py.join output_dir
          (base_name +:+ "_part" +:+ Py.str (file_num + 1) +:+ ".pdf") in
      write_output output_file writer ;;
      let output_files := output_files ++ [output_file] in
      _update_progress (file_num + 1) num_files
        (Created (Py.basename output_file)) ;;
      page_count_loop input_file pages_per_file output_dir total_pages
        num_files base_name output_files rest
  end.

Definition split_by_page_count (input_file : string) (pages_per_file : Z)
    (output_dir : string) : M state exn (list string) :=
  if negb (path_exists w input_file)
  then raise (Custom (File_not_found input_file))
  else if pages_per_file <? 1
  then raise (Custom Pages_per_file_too_small)
  else
    try_except
      (let* total_pages := PdfReader input_file in
       makedirs output_dir ;;
       let num_files := (total_pages + pages_per_file - 1) / pages_per_file in
       let base_name := Py.splitext_root (Py.basename input_file) in
       _update_progress 0 num_files Splitting_PDF ;;
       let* output_files :=
         page_count_loop input_file pages_per_file output_dir total_pages
           num_files base_name [] (Py.range 0 num_files) in
       _update_progress num_files num_files
         (Successfully_split_into num_files) ;;
       ret output_files)
      (fun e => raise (Custom (Failed_to_split e))).

(** [for i, range_str in enumerate(ranges)], from index [i]; [n] is
    [len(ranges)]; returns [output_files]. *)
Fixpoint ranges_loop (input_file output_dir : string) (total_pages n : Z)
    (base_name : string) (output_files : list string) (i : Z)
    (ranges : list string) : M state exn (list string) :=
  match ranges with
  | [] => ret output_files
  | range_str :: rest =>
      let* pages := lift (parse_page_range range_str total_pages) in
      if bool_decide (pages = [])
      then (* continue *)
        ranges_loop input_file output_dir total_pages n base_name
          output_files (i + 1) rest
      else
        let* writer := lift (add_pages input_file total_pages [] pages) in
        let output_file :=
          Py.join output_dir
            (base_name +:+ "_pages" +:+ Py.replace "," "_" range_str
               +:+ ".pdf") in
        write_output output_file writer ;;
        let output_files := output_files ++ [output_file] in
        _update_progress (i + 1) n (Created_file_for_pages range_str) ;;
        ranges_loop input_file output_dir total_pages n base_name
          output_files (i + 1) rest
  end.

Definition split_by_ranges (input_file : string) (ranges : list string)
    (output_dir : string) : M state exn (list string) :=
  if negb (path_exists w input_file)
  then raise (Custom (File_not_found input_file))
  else if bool_decide (ranges = [])
  then raise (Custom No_page_ranges_provided)
  else
    try_except
      (let* total_pages := PdfReader input_file in
       makedirs output_dir ;;
       let base_name := Py.splitext_root (Py.basename input_file) in
       let output_files := [] in
       _update_progress 0 (len ranges) Splitting_PDF_by_ranges ;;
       let* output_files :=
         ranges_loop input_file output_dir total_pages (len ranges)
           base_name output_files 0 ranges in
       _update_progress (len ranges) (len ranges)
         (Successfully_created (len output_files)) ;;
       ret output_files)
      (fun e => raise (Custom (Failed_to_split e))).
End Operations.

End PDFSplitter.

(** ** pdf_modifier.py: parse_page_range *)

Module PDFModifier.

(** [PDFModifierError(message)], one constructor per message of
    [parse_page_range]. *)
Inductive PDFModifierError : Type :=
| Invalid_page_range (part : string) (total_pages : Z)
    (* "Invalid page range: {part}. Pages must be between 1 and
       {total_pages}" *)
| Invalid_page_number (number : Z) (total_pages : Z)
    (* "Invalid page number: {int(part)}. Must be between 1 and
       {total_pages}" *)
| Invalid_page_range_format (range_str : string)
    (* "Invalid page range format: {range_str}" *)
with exn : Type :=
| Builtin (e : PyExc)
| Custom (e : PDFModifierError).

Definition int_or_raise (s : string) : result exn Z :=
  match Py.int s with
  | Some v => Ok v
  | None => Raise (Builtin ValueError)
  end.

(** One iteration of [for part in parts]: the new value of [pages]. *)
Definition parse_part (total_pages : Z) (pages : list Z) (part : string)
  : result exn (list Z) :=
  let part := Py.strip part in
  if Py.contains "-" part then
    match Py.split "-" part with
    | [start; end_] =>
        start ← int_or_raise (Py.strip start);
        let start := start - 1 in
        end_ ← int_or_raise (Py.strip end_);
        let end_ := end_ - 1 in
        if (start <? 0) || (total_pages <=? end_) || (end_ <? start)
        then Raise (Custom (Invalid_page_range part total_pages))
        else Ok (pages ++ Py.range start (end_ + 1))
    | _ => Raise (Builtin ValueError)
    end
  else
    v ← int_or_raise (Py.strip part);
    let page := v - 1 in
    if (page <? 0) || (total_pages <=? page)
    then Raise (Custom (Invalid_page_number v total_pages))
    else Ok (pages ++ [page]).

Fixpoint parse_parts (total_pages : Z) (pages : list Z) (parts : list string)
  : result exn (list Z) :=
  match parts with
  | [] => Ok pages
  | part :: parts' =>
      pages' ← parse_part total_pages pages part;
      parse_parts total_pages pages' parts'
  end.

Definition parse_page_range (range_str : string) (total_pages : Z)
  : result exn (list Z) :=
  if Py.is_empty range_str
     || String.eqb (Py.lower (Py.strip range_str)) "all"
  then Ok (Py.range 0 total_pages)
  else
    let parts := Py.split "," range_str in
    match parse_parts total_pages [] parts with
    | Ok pages => Ok (Py.sorted_set pages)
    | Raise (Builtin ValueError) =>
        Raise (Custom (Invalid_page_range_format range_str))
    | Raise e => Raise e
    end.

End PDFModifier.

(** ** pdf_splitter.py: extract_pages *)

Module ExtractPages.

(** [PDFSplitterError(message)] as [extract_pages] meets it: its own
    messages, and those of [parse_page_range]. *)
Inductive PDFSplitterError : Type :=
| File_not_found (input_file : string)
    (* "File not found: {input_file}" *)
| No_pages_to_extract
    (* "No pages to extract" *)
| Failed_to_extract (cause : exn)
    (* "Failed to extract pages: {str(e)}" *)
| Of_parser (e : PDFSplitter.PDFSplitterError)
with exn : Type :=
| Builtin (e : PyExc)
| Custom (e : PDFSplitterError).

Definition of_parser (e : PDFSplitter.exn) : exn :=
  match e with
  | PDFSplitter.Builtin b => Builtin b
  | PDFSplitter.Custom m => Custom (Of_parser m)
  end.

Inductive Message : Type :=
| Extracting_pages
    (* "Extracting pages..." *)
| Extracted_page (number : Z)
    (* "Extracted page {page_num + 1}" *)
| Successfully_extracted (count : Z).
    (* "Successfully extracted {count} pages" *)

Record state : Type :=
  { progress_callback : bool;
      (* is a callback registered *)
    calls : list (ProgressEvent Message);
      (* the calls the callback received, oldest first *)
    files : list (string * list page);
      (* the files written, oldest first *)
    failed_writes : list string
      (* the output paths whose writing failed, oldest first: such a
         file may have been created or truncated, and left empty or
         partial *) }.

Definition init (callback : bool) : state :=
  {| progress_callback := callback; calls := []; files := [];
     failed_writes := [] |}.

Section Operations.
Variable w : World.

Definition _update_progress (current total : Z) (message : Message)
  : M state exn unit :=
  modify (fun s =>
    if progress_callback s
    then {| progress_callback := progress_callback s;
            calls := calls s ++ [Build_ProgressEvent current total message];
            files := files s;
            failed_writes := failed_writes s |}
    else s).

Definition PdfReader (input_file : string) : M state exn Z :=
  match pdf_pages w input_file with
  | Some n => ret (Z.of_nat n)
  | None => raise (Builtin PdfReadError)
  end.

Definition parse_page_range (range_str : string) (total_pages : Z)
  : M state exn (list Z) :=
  lift (match PDFSplitter.parse_page_range range_str total_pages with
        | Ok pages => Ok pages
        | Raise e => Raise (of_parser e)
        end).

(** [with open(output_file, 'wb') as output: writer.write(output)].
    When opening or writing fails the file is not written, but it may
    have been created or truncated before the failure: the path is
    recorded in [failed_writes]. *)
Definition write_output (output_file : string) (writer : list page)
  : M state exn unit :=
  if writable w output_file
  then modify (fun s =>
    {| progress_callback := progress_callback s; calls := calls s;
       files := files s ++ [(output_file, writer)];
       failed_writes := failed_writes s |})
  else
    modify (fun s =>
      {| progress_callback := progress_callback s; calls := calls s;
         files := files s;
         failed_writes := failed_writes s ++ [output_file] |}) ;;
    raise (Builtin OSError).

(** [for i, page_num in enumerate(pages_to_extract)], from index [i];
    [n] is [len(pages_to_extract)]; returns the pages of the writer. *)
Fixpoint extract_loop (input_file : string) (total_pages n i : Z)
    (writer : list page) (pages : list Z) : M state exn (list page) :=
  match pages with
  | [] => ret writer
  | page_num :: rest =>
      let* p := lift (match pages_getitem input_file total_pages page_num with
                      | Ok p => Ok p
                      | Raise e => Raise (Builtin e)
                      end) in
      let writer := writer ++ [p] in
      _update_progress (i + 1) n (Extracted_page (page_num + 1)) ;;
      extract_loop input_file total_pages n (i + 1) writer rest
  end.

Definition extract_pages (input_file page_range output_file : string)
  : M state exn bool :=
  if negb (path_exists w input_file)
  then raise (Custom (File_not_found input_file))
  else
    try_except
      (let* total_pages := PdfReader input_file in
       let* pages_to_extract := parse_page_range page_range total_pages in
       if bool_decide (pages_to_extract = [])
       then raise (Custom No_pages_to_extract)
       else
         let n := len pages_to_extract in
         _update_progress 0 n Extracting_pages ;;
         let* writer :=
           extract_loop input_file total_pages n 0 [] pages_to_extract in
         write_output output_file writer ;;
         _update_progress n n (Successfully_extracted n) ;;
         ret true)
      (fun e => raise (Custom (Failed_to_extract e))).
End Operations.

End ExtractPages.

(** ** pdf_modifier.py: rotate_pages *)

Module RotatePages.

(** [PDFModifierError(message)] as [rotate_pages] meets it: its own
    messages, and those of [parse_page_range]. *)
Inductive PDFModifierError : Type :=
| Rotation_must_be_90_180_270
    (* "Rotation must be 90, 180, or 270 degrees" *)
| File_not_found (input_file : string)
    (* "File not found: {input_file}" *)
| Failed_to_rotate (cause : exn)
    (* "Failed to rotate pages: {str(e)}" *)
| Of_parser (e : PDFModifier.PDFModifierError)
with exn : Type :=
| Builtin (e : PyExc)
| Custom (e : PDFModifierError).

Definition of_parser (e : PDFModifier.exn) : exn :=
  match e with
  | PDFModifier.Builtin b => Builtin b
  | PDFModifier.Custom m => Custom (Of_parser m)
  end.

Inductive Message : Type :=
| Rotating_pages
    (* "Rotating pages..." *)
| Rotated_page (number rotation : Z)
    (* "Rotated page {page_num + 1} by {rotation} degrees" *)
| Kept_page (number : Z)
    (* "Kept page {page_num + 1} unchanged" *)
| Successfully_rotated (count : Z).
    (* "Successfully rotated {count} pages" *)

(** A page as the writer receives it: the page read, and the angle
    that [page.rotate] added to its rotation, 0 when it was not called. *)
Definition written_page : Type := page * Z.

Record state : Type :=
  { progress_callback : bool;
      (* is a callback registered *)
    calls : list (ProgressEvent Message);
      (* the calls the callback received, oldest first *)
    files : list (string * list written_page);
      (* the files written, oldest first *)
    failed_writes : list string
      (* the output paths whose writing failed, oldest first: such a
         file may have been created or truncated, and left empty or
         partial *) }.

Definition init (callback : bool) : state :=
  {| progress_callback := callback; calls := []; files := [];
     failed_writes := [] |}.

Section Operations.
Variable w : World.

Definition _update_progress (current total : Z) (message : Message)
  : M state exn unit :=
  modify (fun s =>
    if progress_callback s
    then {| progress_callback := progress_callback s;
            calls := calls s ++ [Build_ProgressEvent current total message];
            files := files s;
            failed_writes := failed_writes s |}
    else s).

Definition PdfReader (input_file : string) : M state exn Z :=
  match pdf_pages w input_file with
  | Some n => ret (Z.of_nat n)
  | None => raise (Builtin PdfReadError)
  end.

Definition parse_page_range (range_str : string) (total_pages : Z)
  : M state exn (list Z) :=
  lift (match PDFModifier.parse_page_range range_str total_pages with
        | Ok pages => Ok pages
        | Raise e => Raise (of_parser e)
        end).

(** [with open(output_file, 'wb') as output: writer.write(output)],
    with the same record of a failed write. *)
Definition write_output (output_file : string) (writer : list written_page)
  : M state exn unit :=
  if writable w output_file
  then modify (fun s =>
    {| progress_callback := progress_callback s; calls := calls s;
       files := files s ++ [(output_file, writer)];
       failed_writes := failed_writes s |})
  else
    modify (fun s =>
      {| progress_callback := progress_callback s; calls := calls s;
         files := files s;
         failed_writes := failed_writes s ++ [output_file] |}) ;;
    raise (Builtin OSError).

(** [for page_num in range(total_pages)]; returns the pages of the
    writer. *)
Fixpoint rotate_loop (input_file : string) (total_pages rotation : Z)
    (pages_to_rotate : gset Z) (writer : list written_page)
    (page_nums : list Z) : M state exn (list written_page) :=
  match page_nums with
  | [] => ret writer
  | page_num :: rest =>
      let* p := lift (match pages_getitem input_file total_pages page_num with
                      | Ok p => Ok p
                      | Raise e => Raise (Builtin e)
                      end) in
      let* p' :=
        if bool_decide (page_num ∈ pages_to_rotate)
        then
          _update_progress (page_num + 1) total_pages
            (Rotated_page (page_num + 1) rotation) ;;
          ret (p, rotation)
        else
          _update_progress (page_num + 1) total_pages
            (Kept_page (page_num + 1)) ;;
          ret (p, 0) in
      rotate_loop input_file total_pages rotation pages_to_rotate
        (writer ++ [p']) rest
  end.

Definition rotate_pages (input_file page_range : string) (rotation : Z)
    (output_file : string) : M state exn bool :=
  if negb (bool_decide (rotation ∈ [90; 180; 270; -90; -180; -270]))
  then raise (Custom Rotation_must_be_90_180_270)
  else if negb (path_exists w input_file)
  then raise (Custom (File_not_found input_file))
  else
    try_except
      (let* total_pages := PdfReader input_file in
       let* pages := parse_page_range page_range total_pages in
       let pages_to_rotate : gset Z := list_to_set pages in
       _update_progress 0 total_pages Rotating_pages ;;
       let* writer :=
         rotate_loop input_file total_pages rotation pages_to_rotate []
           (Py.range 0 total_pages) in
       write_output output_file writer ;;
       _update_progress total_pages total_pages
         (Successfully_rotated (Z.of_nat (size pages_to_rotate))) ;;
       ret true)
      (fun e => raise (Custom (Failed_to_rotate e))).
End Operations.

End RotatePages.

(** ** cli.py: the page ranges of the merge and split commands *)

Module Cli.

(** [s.split(sep, 1)] for a one-character [sep] found in [s]: what comes
    before the first [sep], and what follows it. *)
Fixpoint split1 (sep : ascii) (s : string) : option (string * string) :=
  match s with
  | EmptyString => None
  | String c s' =>
      if Ascii.eqb c sep then Some (EmptyString, s')
      else match split1 sep s' with
           | Some (a, b) => Some (String c a, b)
           | None => None
           end
  end.

(** [for filepath in args.files: if ...: ...; break]: the file a name
    stands for. *)
Definition matching_file (files : list string) (filename : string)
  : option string :=
  find (fun filepath =>
          String.eqb (Py.basename filepath) filename
          || String.eqb filepath filename) files.

(** [for spec in args.pages.split(',')] of the file-specific form. *)
Fixpoint specific_ranges (files : list string) (specs : list string)
    (page_ranges : gmap string string) : gmap string string :=
  match specs with
  | [] => page_ranges
  | spec :: rest =>
      specific_ranges files rest
        (if Py.contains ":" spec then
           match split1 ":" spec with
           | Some (filename, range_str) =>
               match matching_file files filename with
               | Some filepath => <[filepath := range_str]> page_ranges
               | None => page_ranges
               end
           | None => page_ranges
           end
         else page_ranges)
  end.

(** [for i, filepath in enumerate(args.files)] of the simple form, from
    index [i]. *)
Fixpoint simple_ranges (ranges : list string) (i : nat) (files : list string)
    (page_ranges : gmap string string) : gmap string string :=
  match files with
  | [] => page_ranges
  | filepath :: rest =>
      simple_ranges ranges (S i) rest
        (match nth_error ranges i with
         | Some r => <[filepath := Py.strip r]> page_ranges
         | None => <[filepath := "all"]> page_ranges
         end)
  end.

(** The dictionary [page_ranges] that [merge_command] builds from
    [args.pages] and [args.files]. *)
Definition merge_page_ranges (pages : option string) (files : list string)
  : gmap string string :=
  match pages with
  | None => ∅
  | Some pages =>
      if Py.is_empty pages then ∅
      else if Py.contains ":" pages
      then specific_ranges files (Py.split "," pages) ∅
      else simple_ranges (Py.split "," pages) 0 files ∅
  end.

(** [page_ranges if page_ranges else None], the argument passed to
    [merge_pdfs]. *)
Definition page_ranges_argument (page_ranges : gmap string string)
  : option (gmap string string) :=
  if bool_decide (page_ranges = ∅) then None else Some page_ranges.

(** [[r.strip() for r in args.by_ranges.split(',')]], the list
    [split_command] passes to [split_by_ranges]. *)
Definition split_ranges (by_ranges : string) : list string :=
  map Py.strip (Py.split "," by_ranges).

End Cli.

(** ** Vocabulary of the specification *)

(** The terms of an expression: its comma-separated pieces, trimmed. *)
Definition terms (expression : string) : list string :=
  map Py.strip (Py.split "," expression).

(** The expressions for which the parsers return every page without
    looking at terms. *)
Definition selects_all (expression : string) : bool :=
  Py.is_empty expression
  || String.eqb (Py.lower (Py.strip expression)) "all".

(** The specification's wording of the same test: empty after trimming,
    or equal to [all] whatever the case. *)
Definition spec_selects_all (expression : string) : bool :=
  Py.is_empty (Py.strip expression)
  || String.eqb (Py.lower (Py.strip expression)) "all".

(** The shape of a trimmed term: one 1-based number, one dash-separated
    pair of 1-based numbers, or neither. *)
Inductive shape : Type :=
| Single (number : Z)
| Pair (first last : Z)
| Malformed.

Definition shape_of (term : string) : shape :=
  if Py.contains "-" term then
    match Py.split "-" term with
    | [a; b] =>
        match Py.int a, Py.int b with
        | Some va, Some vb => Pair va vb
        | _, _ => Malformed
        end
    | _ => Malformed
    end
  else
    match Py.int term with
    | Some v => Single v
    | None => Malformed
    end.

Definition malformed (sh : shape) : bool :=
  match sh with Malformed => true | _ => false end.

(** Some page number of the term lies outside [1..total_pages], or the
    pair is inverted. *)
Definition out_of_bounds (total_pages : Z) (sh : shape) : bool :=
  match sh with
  | Single v => (v <? 1) || (total_pages <? v)
  | Pair a b =>
      (a <? 1) || (total_pages <? a) || (b <? 1) || (total_pages <? b)
      || (b <? a)
  | Malformed => false
  end.

(** Neither malformed nor out of bounds. *)
Definition valid (total_pages : Z) (sh : shape) : bool :=
  negb (malformed sh) && negb (out_of_bounds total_pages sh).

(** The 0-based indices a term stands for. *)
Definition indices_of (sh : shape) : list Z :=
  match sh with
  | Single v => [v - 1]
  | Pair a b => Py.range (a - 1) b
  | Malformed => []
  end.



(** The error taxonomy of the specification, and the place of each
    module's messages in it. *)
Inductive ErrorKind : Type :=
| RangeFormatError
| RangeBoundsError
| InsufficientSourcesError
| InvalidChunkSizeError
| EmptyRangeListError.

Definition merger_kind (e : PDFMerger.exn) : option ErrorKind :=
  match e with
  | PDFMerger.Custom (PDFMerger.Invalid_page_range_format _) =>
      Some RangeFormatError
  | PDFMerger.Custom PDFMerger.No_input_files
  | PDFMerger.Custom PDFMerger.At_least_2_required =>
      Some InsufficientSourcesError
  | _ => None
  end.

Definition splitter_kind (e : PDFSplitter.exn) : option ErrorKind :=
  match e with
  | PDFSplitter.Custom (PDFSplitter.Invalid_page_range_format _) =>
      Some RangeFormatError
  | PDFSplitter.Custom (PDFSplitter.Invalid_page_range _ _)
  | PDFSplitter.Custom (PDFSplitter.Invalid_page_number _ _) =>
      Some RangeBoundsError
  | PDFSplitter.Custom PDFSplitter.Pages_per_file_too_small =>
      Some InvalidChunkSizeError
  | PDFSplitter.Custom PDFSplitter.No_page_ranges_provided =>
      Some EmptyRangeListError
  | _ => None
  end.

Definition modifier_kind (e : PDFModifier.exn) : option ErrorKind :=
  match e with
  | PDFModifier.Custom (PDFModifier.Invalid_page_range_format _) =>
      Some RangeFormatError
  | PDFModifier.Custom (PDFModifier.Invalid_page_range _ _)
  | PDFModifier.Custom (PDFModifier.Invalid_page_number _ _) =>
      Some RangeBoundsError
  | _ => None
  end.

(** The kind of the exception a computation ended with, if it did. *)
Definition raised_kind {E A} (kind : E -> option ErrorKind) (r : result E A)
  : option ErrorKind :=
  match r with Ok _ => None | Raise e => kind e end.

(** [[0; 1; ...; n-1]]. *)
Definition upto (n : Z) : list Z := map Z.of_nat (seq 0 (Z.to_nat n)).

(** The indices of a list of untrimmed parts, in the order read. *)
Definition indices_of_parts (parts : list string) : list Z :=
  concat (map (fun p => indices_of (shape_of (Py.strip p))) parts).

Definition valid_part (N : Z) (p : string) : Prop :=
  valid N (shape_of (Py.strip p)) = true.

Definition no_leading_space (s : string) : Prop :=
  match s with
  | EmptyString => True
  | String c _ => Py.isspace c = false
  end.

(** The [(current, total)] part of a progress notification. *)
Definition counts {Msg} (ev : ProgressEvent Msg) : Z * Z :=
  (current ev, total ev).

(** The expression of a source in a merge: its entry in [page_ranges],
    [all] without one. *)
Definition expression_of (page_ranges : option (gmap string string))
    (file_path : string) : string :=
  match page_ranges with
  | Some d => default "all" (d !! file_path)
  | None => "all"
  end.

(** The indices a merge resolves for a source, none if the source does
    not open or its expression does not parse. *)
Definition resolved (w : World) (page_ranges : option (gmap string string))
    (file_path : string) : list Z :=
  match pdf_pages w file_path with
  | Some n =>
      match PDFMerger.parse_page_range
              (expression_of page_ranges file_path) (Z.of_nat n) with
      | Ok l => l
      | Raise _ => []
      end
  | None => []
  end.

(** The pages of the sources in the order given, each source giving its
    resolved indices in their order. *)
Definition merge_plan (w : World) (page_ranges : option (gmap string string))
    (input_files : list string) : list page :=
  concat (map (fun f => map (pair f) (resolved w page_ranges f)) input_files).

(** A source that passes validation and whose expression resolves to
    indices of its own pages. *)
Definition source_ok (w : World) (page_ranges : option (gmap string string))
    (file_path : string) : Prop :=
  path_exists w file_path = true
  /\ Py.endswith (Py.lower file_path) ".pdf" = true
  /\ exists n l,
       pdf_pages w file_path = Some n /\ n <> 0%nat
       /\ PDFMerger.parse_page_range
            (expression_of page_ranges file_path) (Z.of_nat n) = Ok l
       /\ Forall (fun i => 0 <= i < Z.of_nat n) l.

(** The counts of one notification per source of a run of [n] sources,
    from the source after the [i]-th: [(i+1, n)], [(i+2, n)], ... *)
Definition one_per_source (n i : Z) (sources : list string) : list (Z * Z) :=
  map (fun k => (k, n)) (Py.range (i + 1) (i + 1 + len sources)).

(** The indices a split resolves for an expression, none if it does not
    parse. *)
Definition split_resolved (total_pages : Z) (expression : string) : list Z :=
  match PDFSplitter.parse_page_range expression total_pages with
  | Ok l => l
  | Raise _ => []
  end.

(** The pages [indices] of the document [input_file]. *)
Definition pages_of (input_file : string) (indices : list Z) : list page :=
  map (pair input_file) indices.

(** The indices of chunk [f] when [N] pages are cut every
    [pages_per_file] pages. *)
Definition chunk (pages_per_file N f : Z) : list Z :=
  Py.range (f * pages_per_file) (Z.min ((f + 1) * pages_per_file) N).

(** [f] applied to the exception of a computation that raised. *)
Definition map_raise {E F A} (f : E -> F) (r : result E A) : result F A :=
  match r with Ok a => Ok a | Raise e => Raise (f e) end.

(** An exception of the modifier's parser, as the splitter's parser
    words it: the same message with the same data. *)
Definition modifier_as_splitter (e : PDFModifier.exn) : PDFSplitter.exn :=
  match e with
  | PDFModifier.Builtin b => PDFSplitter.Builtin b
  | PDFModifier.Custom (PDFModifier.Invalid_page_range part n) =>
      PDFSplitter.Custom (PDFSplitter.Invalid_page_range part n)
  | PDFModifier.Custom (PDFModifier.Invalid_page_number v n) =>
      PDFSplitter.Custom (PDFSplitter.Invalid_page_number v n)
  | PDFModifier.Custom (PDFModifier.Invalid_page_range_format r) =>
      PDFSplitter.Custom (PDFSplitter.Invalid_page_range_format r)
  end.

(** A source that [validate_pdf] lets through: it exists, its name ends
    in [.pdf] whatever the case, it opens and has at least one page. *)
Definition passes_validation (w : World) (file_path : string) : bool :=
  path_exists w file_path
  && Py.endswith (Py.lower file_path) ".pdf"
  && match pdf_pages w file_path with
     | Some n => negb (Nat.eqb n 0)
     | None => false
     end.

(** A message of [validate_pdf] about [file_path]. *)
Definition validation_message (file_path : string)
    (m : PDFMerger.PDFMergerError) : Prop :=
  m = PDFMerger.File_not_found file_path
  \/ m = PDFMerger.Not_a_PDF_file file_path
  \/ exists cause, m = PDFMerger.Invalid_or_corrupted file_path cause.

(** Every run of [m] takes a state to a state related to it by [P]. *)
Definition preserves {S E A} (P : S -> S -> Prop) (m : M S E A) : Prop :=
  forall s r s', m s = (r, s') -> P s s'.

(** An index that [reader.pages] accepts for a document of [n] pages. *)
Definition readable_index (n i : Z) : bool := (- n <=? i) && (i <? n).

(** A step that attempts no write leaves the record of the failed
    writes as it was. *)
Definition merger_attempts_none (s s' : PDFMerger.state) : Prop :=
  PDFMerger.failed_writes s' = PDFMerger.failed_writes s.

(** What the steps of a merge before the file is written keep: the
    files written, the callback, and a writer once there is one. *)
Definition merger_frame (s s' : PDFMerger.state) : Prop :=
  PDFMerger.files s' = PDFMerger.files s
  /\ PDFMerger.progress_callback s' = PDFMerger.progress_callback s
  /\ (is_Some (PDFMerger.writer s) -> is_Some (PDFMerger.writer s')).

(** A source that passes validation and whose expression resolves, in
    the merger, to indices that [reader.pages] accepts. *)
Definition source_reads (w : World)
    (page_ranges : option (gmap string string)) (file_path : string)
  : Prop :=
  passes_validation w file_path = true
  /\ exists n l,
       pdf_pages w file_path = Some n
       /\ PDFMerger.parse_page_range
            (expression_of page_ranges file_path) (Z.of_nat n) = Ok l
       /\ Forall (fun i => readable_index (Z.of_nat n) i = true) l.

(** The pages a merge reads: index [i] of a source of [n] pages stands
    for page [i mod n], so that a negative index counts from the end. *)
Definition pages_read (w : World) (page_ranges : option (gmap string string))
    (file_path : string) : list page :=
  match pdf_pages w file_path with
  | Some n =>
      map (fun i => (file_path, i mod Z.of_nat n))
        (resolved w page_ranges file_path)
  | None => []
  end.

Definition merge_reads (w : World) (page_ranges : option (gmap string string))
    (input_files : list string) : list page :=
  concat (map (pages_read w page_ranges) input_files).

(** The pages [rotate_pages] hands to its writer for a source of
    [total_pages] pages: every page in order, those of [selection] with
    [rotation] added to their rotation, the others with nothing added. *)
Definition rotated_pages (input_file : string) (total_pages rotation : Z)
    (selection : list Z) (page_nums : list Z)
  : list RotatePages.written_page :=
  map (fun i => ((input_file, i),
                 if bool_decide (i ∈ selection) then rotation else 0))
    page_nums.

(** The angles [rotate_pages] accepts. *)
Definition allowed_rotation (rotation : Z) : bool :=
  bool_decide (rotation ∈ [90; 180; 270; -90; -180; -270]).

(** What both loops of [merge_command] keep true of [page_ranges]: its
    keys are files of the command, its values hold no comma. *)
Definition cli_entries_ok (files : list string) (d : gmap string string)
  : Prop :=
  forall f r, d !! f = Some r -> f ∈ files /\ Py.contains "," r = false.

(** Where an entry of the file-specific form comes from: a piece
    [name:range] of [pieces] whose name stands for the file. *)
Definition cli_entries_named (files pieces : list string)
    (d : gmap string string) : Prop :=
  forall f r, d !! f = Some r ->
  exists spec name,
    spec ∈ pieces /\ Cli.split1 ":" spec = Some (name, r)
    /\ Cli.matching_file files name = Some f.

(** ** Worlds used in the examples *)

Definition demo_world : World :=
  {| path_exists := fun _ => true;
     pdf_pages := fun p => if String.eqb p "a.pdf" then Some 3%nat
                           else if String.eqb p "b.pdf" then Some 2%nat
                           else Some 10%nat;
     writable := fun _ => true |}.

Definition demo7 : World :=
  {| path_exists := fun _ => true;
     pdf_pages := fun p => Some 7%nat;
     writable := fun _ => true |}.

Definition demo_blank : World :=
  {| path_exists := fun _ => true;
     pdf_pages := fun p => Some 0%nat;
     writable := fun _ => true |}.

(** The sources of [demo_world], and nowhere to write. *)
Definition demo_read_only : World :=
  {| path_exists := path_exists demo_world;
     pdf_pages := pdf_pages demo_world;
     writable := fun _ => false |}.

(** ** Examples *)

Example ex_merger_1 : PDFMerger.parse_page_range "1-2,4,2-3" 5 = Ok [0; 1; 2; 3].
Proof. vm_compute. reflexivity. Qed.
Example ex_merger_2 : PDFMerger.parse_page_range "9" 5 = Ok [8].
Proof. vm_compute. reflexivity. Qed.
Example ex_merger_3 : PDFMerger.parse_page_range "4-2" 5 = Ok [].
Proof. vm_compute. reflexivity. Qed.
Example ex_splitter_1 : PDFSplitter.parse_page_range "1-2,4,2-3" 5 = Ok [0; 1; 2; 3].
Proof. vm_compute. reflexivity. Qed.
Example ex_splitter_2 :
  PDFSplitter.parse_page_range "0-3" 5
  = Raise (PDFSplitter.Custom (PDFSplitter.Invalid_page_range "0-3" 5)).
Proof. vm_compute. reflexivity. Qed.
Example ex_splitter_3 :
  PDFSplitter.parse_page_range "x-2" 5
  = Raise (PDFSplitter.Custom (PDFSplitter.Invalid_page_range_format "x-2")).
Proof. vm_compute. reflexivity. Qed.
Example ex_splitter_4 :
  PDFSplitter.parse_page_range "1-2-3" 5
  = Raise (PDFSplitter.Custom (PDFSplitter.Invalid_page_range_format "1-2-3")).
Proof. vm_compute. reflexivity. Qed.
Example ex_splitter_5 :
  PDFSplitter.parse_page_range " " 5
  = Raise (PDFSplitter.Custom (PDFSplitter.Invalid_page_range_format " ")).
Proof. vm_compute. reflexivity. Qed.
Example ex_splitter_6 : PDFSplitter.parse_page_range " aLL " 3 = Ok [0; 1; 2].
Proof. vm_compute. reflexivity. Qed.
Example ex_splitter_7 :
  PDFSplitter.parse_page_range "9,x" 5
  = Raise (PDFSplitter.Custom (PDFSplitter.Invalid_page_number 9 5)).
Proof. vm_compute. reflexivity. Qed.
Example ex_strip : Py.strip "  1 - 2 " = "1 - 2". Proof. reflexivity. Qed.
Example ex_split : Py.split "," "1-2,,4" = ["1-2"; EmptyString; "4"]. Proof. reflexivity. Qed.
Example ex_int1 : Py.int " +1_0 " = Some 10. Proof. reflexivity. Qed.
Example ex_int2 : Py.int "1__0" = None. Proof. reflexivity. Qed.
Example ex_int3 : Py.int "007" = Some 7. Proof. reflexivity. Qed.
Example ex_int4 : Py.int "-3" = Some (-3). Proof. reflexivity. Qed.
Example ex_int5 : Py.int "x" = None. Proof. reflexivity. Qed.
Example ex_range : Py.range 2 5 = [2; 3; 4]. Proof. reflexivity. Qed.
Example ex_range_empty : Py.range 3 2 = []. Proof. reflexivity. Qed.
Example ex_sorted_set : Py.sorted_set [3; 1; 3; 2; 1] = [1; 2; 3].
Proof. vm_compute. reflexivity. Qed.
Example ex_lower : Py.lower "AlL" = "all". Proof. reflexivity. Qed.
Example ex_endswith : Py.endswith "a.pdf" ".pdf" = true. Proof. reflexivity. Qed.
Example ex_merge :
  let '(r, s) := PDFMerger.merge_pdfs demo_world ["a.pdf"; "b.pdf"] "out.pdf"
                   (Some {[ "b.pdf" := "1" ]}) (PDFMerger.init true) in
  r = Ok true /\ PDFMerger.writer s = Some [("a.pdf", 0); ("a.pdf", 1); ("a.pdf", 2); ("b.pdf", 0)]
  /\ map current (PDFMerger.calls s) = [0; 1; 2; 0; 1; 2; 2; 2].
Proof. vm_compute. auto. Qed.
Example ex_split_count :
  let '(r, s) := PDFSplitter.split_by_page_count demo7 "dir/doc.v2.pdf" 3 "out"
                   (PDFSplitter.init true) in
  r = Ok ["out/doc.v2_part1.pdf"; "out/doc.v2_part2.pdf"; "out/doc.v2_part3.pdf"]
  /\ map (fun f => map snd (snd f)) (PDFSplitter.files s) = [[0;1;2];[3;4;5];[6]]
  /\ map current (PDFSplitter.calls s) = [0; 1; 2; 3; 3].
Proof. vm_compute. auto. Qed.
Example ex_split_ranges :
  let '(r, s) := PDFSplitter.split_by_ranges demo_world "doc.pdf" ["1-5"; "3-7"] "out"
                   (PDFSplitter.init true) in
  r = Ok ["out/doc_pages1-5.pdf"; "out/doc_pages3-7.pdf"]
  /\ map (fun f => map snd (snd f)) (PDFSplitter.files s) = [[0;1;2;3;4];[2;3;4;5;6]].
Proof. vm_compute. auto. Qed.

(** ** Facts about the built-ins *)

Section BuiltinFacts.

Lemma elem_of_range (a b x : Z) : x ∈ Py.range a b <-> a <= x < b.
Proof.
  unfold Py.range. rewrite list_elem_of_In, in_map_iff. split.
  - intros (i & <- & Hi). apply in_seq in Hi. lia.
  - intros Hx. exists (Z.to_nat (x - a)). split; [lia|].
    apply in_seq. lia.
Qed.

Lemma range_seq_sorted (a : Z) (n k : nat) :
  StronglySorted Z.lt (map (fun i => a + Z.of_nat i) (seq k n)).
Proof.
  revert k. induction n as [|n IH]; intros k; simpl; constructor.
  - apply IH.
  - apply Forall_forall. intros x Hx.
    apply list_elem_of_In, in_map_iff in Hx. destruct Hx as (i & <- & Hi).
    apply in_seq in Hi. lia.
Qed.

Lemma range_sorted (a b : Z) : StronglySorted Z.lt (Py.range a b).
Proof. apply range_seq_sorted. Qed.

Lemma range_0_upto (n : Z) : Py.range 0 n = upto n.
Proof.
  unfold Py.range, upto. rewrite Z.sub_0_r. apply map_ext. intros i. lia.
Qed.

Lemma length_upto (n : Z) : 0 <= n -> len (upto n) = n.
Proof.
  intros Hn. unfold len, upto. rewrite length_map, length_seq. lia.
Qed.

Lemma elem_of_sorted_set (l : list Z) (x : Z) : x ∈ Py.sorted_set l <-> x ∈ l.
Proof.
  unfold Py.sorted_set. rewrite merge_sort_Permutation.
  rewrite elem_of_elements. apply elem_of_list_to_set.
Qed.

Lemma le_sorted_NoDup_lt (l : list Z) :
  StronglySorted Z.le l -> NoDup l -> StronglySorted Z.lt l.
Proof.
  induction 1 as [|x l Hl IH Hx]; intros Hnd; constructor.
  - apply IH. by apply NoDup_cons in Hnd as [_ ?].
  - apply NoDup_cons in Hnd as [Hnotin _].
    rewrite Forall_forall in Hx |- *. intros y Hy.
    specialize (Hx y Hy). assert (x <> y) by (intros Heq; subst; contradiction). lia.
Qed.

Lemma sorted_set_sorted (l : list Z) : StronglySorted Z.lt (Py.sorted_set l).
Proof.
  unfold Py.sorted_set. apply le_sorted_NoDup_lt.
  - apply StronglySorted_merge_sort; apply _.
  - rewrite merge_sort_Permutation. apply NoDup_elements.
Qed.

Lemma lt_sorted_NoDup (l : list Z) : StronglySorted Z.lt l -> NoDup l.
Proof.
  induction 1 as [|x l Hl IH Hx]; constructor; [|done].
  intros Hin. rewrite Forall_forall in Hx. specialize (Hx x Hin). lia.
Qed.

(** Trimming twice is trimming once, so [int] sees the same text
    whether or not its argument was trimmed first. *)
Lemma rstrip_rstrip (s : string) : Py.rstrip (Py.rstrip s) = Py.rstrip s.
Proof.
  induction s as [|c s IH]; [done|]. simpl.
  destruct (Py.isspace c && Py.is_empty (Py.rstrip s)) eqn:E; [done|].
  simpl. by rewrite IH, E.
Qed.

Lemma lstrip_no_leading_space (s : string) : no_leading_space (Py.lstrip s).
Proof.
  induction s as [|c s IH]; simpl; [done|].
  destruct (Py.isspace c) eqn:E; [done|]. simpl. done.
Qed.

Lemma rstrip_no_leading_space (s : string) :
  no_leading_space s -> no_leading_space (Py.rstrip s).
Proof.
  destruct s as [|c s]; simpl; [done|]. intros H. rewrite H. simpl. done.
Qed.

Lemma lstrip_id (s : string) : no_leading_space s -> Py.lstrip s = s.
Proof. destruct s as [|c s]; simpl; [done|]. by intros ->. Qed.

Lemma strip_strip (s : string) : Py.strip (Py.strip s) = Py.strip s.
Proof.
  unfold Py.strip.
  rewrite (lstrip_id (Py.rstrip _)).
  - apply rstrip_rstrip.
  - apply rstrip_no_leading_space, lstrip_no_leading_space.
Qed.

Lemma int_strip (s : string) : Py.int (Py.strip s) = Py.int s.
Proof. unfold Py.int. by rewrite strip_strip. Qed.

End BuiltinFacts.

(** ** The parsers, term by term *)

Section ParserFacts.

Lemma bounds_test_pair (N a b : Z) :
  ((a - 1 <? 0) || (N <=? b - 1) || (b - 1 <? a - 1))
  = out_of_bounds N (Pair a b).
Proof.
  unfold out_of_bounds.
  destruct (a - 1 <? 0) eqn:E1, (N <=? b - 1) eqn:E2,
    (b - 1 <? a - 1) eqn:E3, (a <? 1) eqn:E4, (N <? a) eqn:E5,
    (b <? 1) eqn:E6, (N <? b) eqn:E7, (b <? a) eqn:E8;
    simpl; try reflexivity; lia.
Qed.

Lemma bounds_test_single (N v : Z) :
  ((v - 1 <? 0) || (N <=? v - 1)) = out_of_bounds N (Single v).
Proof.
  unfold out_of_bounds.
  destruct (v - 1 <? 0) eqn:E1, (N <=? v - 1) eqn:E2,
    (v <? 1) eqn:E4, (N <? v) eqn:E5; simpl; try reflexivity; lia.
Qed.

(** What one iteration of the splitter's loop does, by the shape of
    its term. *)
Lemma splitter_parse_part (N : Z) (pages : list Z) (part : string) :
  PDFSplitter.parse_part N pages part =
  match shape_of (Py.strip part) with
  | Malformed => Raise (PDFSplitter.Builtin ValueError)
  | Single v as sh =>
      if out_of_bounds N sh
      then Raise (PDFSplitter.Custom (PDFSplitter.Invalid_page_number v N))
      else Ok (pages ++ indices_of sh)
  | Pair _ _ as sh =>
      if out_of_bounds N sh
      then Raise (PDFSplitter.Custom
                    (PDFSplitter.Invalid_page_range (Py.strip part) N))
      else Ok (pages ++ indices_of sh)
  end.
Proof.
  unfold PDFSplitter.parse_part, shape_of. cbv zeta.
  destruct (Py.contains "-" (Py.strip part)).
  - destruct (Py.split "-" (Py.strip part)) as [|a [|b [|c l]]]; try reflexivity.
    unfold PDFSplitter.int_or_raise. rewrite !int_strip.
    destruct (Py.int a) as [va|]; simpl; [|reflexivity].
    destruct (Py.int b) as [vb|]; simpl; [|reflexivity].
    rewrite bounds_test_pair. rewrite Z.sub_add. reflexivity.
  - unfold PDFSplitter.int_or_raise. rewrite !int_strip.
    destruct (Py.int part) as [v|]; simpl; [|reflexivity].
    rewrite bounds_test_single. reflexivity.
Qed.

Lemma modifier_parse_part (N : Z) (pages : list Z) (part : string) :
  PDFModifier.parse_part N pages part =
  match shape_of (Py.strip part) with
  | Malformed => Raise (PDFModifier.Builtin ValueError)
  | Single v as sh =>
      if out_of_bounds N sh
      then Raise (PDFModifier.Custom (PDFModifier.Invalid_page_number v N))
      else Ok (pages ++ indices_of sh)
  | Pair _ _ as sh =>
      if out_of_bounds N sh
      then Raise (PDFModifier.Custom
                    (PDFModifier.Invalid_page_range (Py.strip part) N))
      else Ok (pages ++ indices_of sh)
  end.
Proof.
  unfold PDFModifier.parse_part, shape_of. cbv zeta.
  destruct (Py.contains "-" (Py.strip part)).
  - destruct (Py.split "-" (Py.strip part)) as [|a [|b [|c l]]]; try reflexivity.
    unfold PDFModifier.int_or_raise. rewrite !int_strip.
    destruct (Py.int a) as [va|]; simpl; [|reflexivity].
    destruct (Py.int b) as [vb|]; simpl; [|reflexivity].
    rewrite bounds_test_pair. rewrite Z.sub_add. reflexivity.
  - unfold PDFModifier.int_or_raise. rewrite !int_strip.
    destruct (Py.int part) as [v|]; simpl; [|reflexivity].
    rewrite bounds_test_single. reflexivity.
Qed.

(** The merger's loop has no bounds test. *)
Lemma merger_parse_part (pages : list Z) (part : string) :
  PDFMerger.parse_part pages part =
  match shape_of (Py.strip part) with
  | Malformed => Raise (PDFMerger.Builtin ValueError)
  | sh => Ok (pages ++ indices_of sh)
  end.
Proof.
  unfold PDFMerger.parse_part, shape_of. cbv zeta.
  destruct (Py.contains "-" (Py.strip part)).
  - destruct (Py.split "-" (Py.strip part)) as [|a [|b [|c l]]]; try reflexivity.
    unfold PDFMerger.int_or_raise. rewrite !int_strip.
    destruct (Py.int a) as [va|]; simpl; [|reflexivity].
    destruct (Py.int b) as [vb|]; simpl; [|reflexivity].
    rewrite Z.sub_add. reflexivity.
  - unfold PDFMerger.int_or_raise. rewrite !int_strip.
    destruct (Py.int part) as [v|]; simpl; reflexivity.
Qed.

Lemma valid_cases (N : Z) (sh : shape) :
  valid N sh = true <-> malformed sh = false /\ out_of_bounds N sh = false.
Proof.
  unfold valid. rewrite andb_true_iff, !negb_true_iff. tauto.
Qed.


Lemma out_of_bounds_not_valid (N : Z) (sh : shape) :
  out_of_bounds N sh = true -> valid N sh = false.
Proof. unfold valid. intros ->. by rewrite andb_false_r. Qed.

Lemma out_of_bounds_not_malformed (N : Z) (sh : shape) :
  out_of_bounds N sh = true -> malformed sh = false.
Proof. by destruct sh. Qed.

(** The loop over a run of valid parts. *)
Ltac valid_run parse_part_eq :=
  let IH := fresh "IH" in
  intros parts; induction parts as [|p parts IH]; intros pages Hall;
  [ simpl; unfold indices_of_parts; simpl; by rewrite app_nil_r
  | apply Forall_cons in Hall as [Hp Hall]; simpl;
    rewrite parse_part_eq;
    unfold valid_part in Hp;
    destruct (shape_of (Py.strip p)) eqn:Hsh;
    apply valid_cases in Hp as [Hm Ho]; try discriminate Hm;
    simpl in Ho |- *; rewrite Ho; simpl; rewrite IH by done;
    unfold indices_of_parts; simpl; rewrite Hsh;
    by rewrite <- app_assoc ].

Lemma splitter_valid_run (N : Z) :
  forall parts pages, Forall (valid_part N) parts ->
  PDFSplitter.parse_parts N pages parts
  = Ok (pages ++ indices_of_parts parts).
Proof. valid_run splitter_parse_part. Qed.

Lemma modifier_valid_run (N : Z) :
  forall parts pages, Forall (valid_part N) parts ->
  PDFModifier.parse_parts N pages parts
  = Ok (pages ++ indices_of_parts parts).
Proof. valid_run modifier_parse_part. Qed.

(** The merger's loop only needs well-formed parts. *)
Lemma merger_wellformed_run :
  forall parts pages,
  Forall (fun p => malformed (shape_of (Py.strip p)) = false) parts ->
  PDFMerger.parse_parts pages parts = Ok (pages ++ indices_of_parts parts).
Proof.
  intros parts; induction parts as [|p parts IH]; intros pages Hall.
  - simpl. unfold indices_of_parts. simpl. by rewrite app_nil_r.
  - apply Forall_cons in Hall as [Hp Hall]. simpl.
    rewrite merger_parse_part. simpl in Hp.
    destruct (shape_of (Py.strip p)) eqn:Hsh; try discriminate Hp;
      simpl; rewrite IH by done; unfold indices_of_parts; simpl;
      rewrite Hsh; by rewrite <- app_assoc.
Qed.

(** The loops split at any point of the list of parts. *)
Lemma splitter_parts_app (N : Z) (l1 l2 : list string) :
  forall pages,
  PDFSplitter.parse_parts N pages (l1 ++ l2)
  = match PDFSplitter.parse_parts N pages l1 with
    | Ok pages' => PDFSplitter.parse_parts N pages' l2
    | Raise e => Raise e
    end.
Proof.
  induction l1 as [|p l1 IH]; intros pages; simpl; [done|].
  destruct (PDFSplitter.parse_part N pages p); simpl; [apply IH|done].
Qed.

Lemma modifier_parts_app (N : Z) (l1 l2 : list string) :
  forall pages,
  PDFModifier.parse_parts N pages (l1 ++ l2)
  = match PDFModifier.parse_parts N pages l1 with
    | Ok pages' => PDFModifier.parse_parts N pages' l2
    | Raise e => Raise e
    end.
Proof.
  induction l1 as [|p l1 IH]; intros pages; simpl; [done|].
  destruct (PDFModifier.parse_part N pages p); simpl; [apply IH|done].
Qed.

Lemma merger_parts_app (l1 l2 : list string) :
  forall pages,
  PDFMerger.parse_parts pages (l1 ++ l2)
  = match PDFMerger.parse_parts pages l1 with
    | Ok pages' => PDFMerger.parse_parts pages' l2
    | Raise e => Raise e
    end.
Proof.
  induction l1 as [|p l1 IH]; intros pages; simpl; [done|].
  destruct (PDFMerger.parse_part pages p); simpl; [apply IH|done].
Qed.

(** The first element of a list that fails a test. *)
Lemma first_failing {A} (P : A -> bool) (l : list A) :
  Exists (fun x => P x = false) l ->
  exists pre x post,
    l = pre ++ x :: post /\ Forall (fun u => P u = true) pre /\ P x = false.
Proof.
  induction l as [|y l IH]; intros Hex; [by apply Exists_nil in Hex|].
  destruct (P y) eqn:Hy.
  - apply Exists_cons in Hex as [Hex|Hex]; [congruence|].
    destruct (IH Hex) as (pre & x & post & -> & Hpre & Hx).
    exists (y :: pre), x, post. split; [done|]. split; [|done].
    by constructor.
  - exists [], y, l. by repeat split.
Qed.

(** A decomposition of the terms is one of the untrimmed parts. *)
Lemma terms_decompose (e : string) (pre' : list string) (t' : string)
    (post' : list string) :
  terms e = pre' ++ t' :: post' ->
  exists pre t post,
    Py.split "," e = pre ++ t :: post /\ pre' = map Py.strip pre
    /\ t' = Py.strip t.
Proof.
  unfold terms. intros H.
  apply map_eq_app in H as (pre & rest & Hsplit & Hpre & Hrest).
  apply map_eq_cons in Hrest as (t & post & -> & Ht & _).
  exists pre, t, post. by repeat split.
Qed.

Lemma valid_terms_parts (N : Z) (parts : list string) :
  Forall (fun u => valid N (shape_of u) = true) (map Py.strip parts) ->
  Forall (valid_part N) parts.
Proof. rewrite Forall_map. done. Qed.

(** The whole parsers, by the first part that is not valid. *)
Lemma splitter_first_invalid (e : string) (N : Z) (pre : list string)
    (t : string) (post : list string) :
  selects_all e = false ->
  Py.split "," e = pre ++ t :: post ->
  Forall (valid_part N) pre ->
  (malformed (shape_of (Py.strip t)) = true ->
   PDFSplitter.parse_page_range e N
   = Raise (PDFSplitter.Custom (PDFSplitter.Invalid_page_range_format e)))
  /\ (out_of_bounds N (shape_of (Py.strip t)) = true ->
      raised_kind splitter_kind (PDFSplitter.parse_page_range e N)
      = Some RangeBoundsError).
Proof.
  unfold PDFSplitter.parse_page_range, selects_all.
  intros Hall Hsplit Hpre. rewrite Hall. cbv zeta.
  rewrite Hsplit, splitter_parts_app, splitter_valid_run by done.
  simpl. rewrite splitter_parse_part.
  destruct (shape_of (Py.strip t)); split; intros H; try discriminate H;
    try reflexivity; simpl in H |- *; rewrite H; reflexivity.
Qed.

Lemma modifier_first_invalid (e : string) (N : Z) (pre : list string)
    (t : string) (post : list string) :
  selects_all e = false ->
  Py.split "," e = pre ++ t :: post ->
  Forall (valid_part N) pre ->
  (malformed (shape_of (Py.strip t)) = true ->
   PDFModifier.parse_page_range e N
   = Raise (PDFModifier.Custom (PDFModifier.Invalid_page_range_format e)))
  /\ (out_of_bounds N (shape_of (Py.strip t)) = true ->
      raised_kind modifier_kind (PDFModifier.parse_page_range e N)
      = Some RangeBoundsError).
Proof.
  unfold PDFModifier.parse_page_range, selects_all.
  intros Hall Hsplit Hpre. rewrite Hall. cbv zeta.
  rewrite Hsplit, modifier_parts_app, modifier_valid_run by done.
  simpl. rewrite modifier_parse_part.
  destruct (shape_of (Py.strip t)); split; intros H; try discriminate H;
    try reflexivity; simpl in H |- *; rewrite H; reflexivity.
Qed.

Lemma merger_first_malformed (e : string) (N : Z) (pre : list string)
    (t : string) (post : list string) :
  selects_all e = false ->
  Py.split "," e = pre ++ t :: post ->
  Forall (fun p => malformed (shape_of (Py.strip p)) = false) pre ->
  malformed (shape_of (Py.strip t)) = true ->
  PDFMerger.parse_page_range e N
  = Raise (PDFMerger.Custom (PDFMerger.Invalid_page_range_format e)).
Proof.
  unfold PDFMerger.parse_page_range, selects_all.
  intros Hall Hsplit Hpre Hm. rewrite Hall. cbv zeta.
  rewrite Hsplit, merger_parts_app, merger_wellformed_run by done.
  simpl. rewrite merger_parse_part.
  by destruct (shape_of (Py.strip t)).
Qed.

(** The whole parsers on expressions whose parts are all valid. *)
Lemma splitter_all_valid (e : string) (N : Z) :
  selects_all e = false ->
  Forall (valid_part N) (Py.split "," e) ->
  PDFSplitter.parse_page_range e N
  = Ok (Py.sorted_set (indices_of_parts (Py.split "," e))).
Proof.
  unfold PDFSplitter.parse_page_range, selects_all. intros -> Hall.
  cbv zeta. by rewrite splitter_valid_run.
Qed.

(** A successful strict parse means every part was valid. *)
Lemma splitter_ok_valid (e : string) (N : Z) (l : list Z) :
  selects_all e = false ->
  PDFSplitter.parse_page_range e N = Ok l ->
  Forall (valid_part N) (Py.split "," e).
Proof.
  intros Hall Hok.
  destruct (Forall_Exists_dec (valid_part N)
              (fun p => valid N (shape_of (Py.strip p)) = false)
              (fun p => sumbool_of_bool _) (Py.split "," e)) as [H|Hex];
    [done|].
  exfalso.
  apply (first_failing (fun p => valid N (shape_of (Py.strip p)))) in Hex
    as (pre & t & post & Hsplit & Hpre & Ht).
  destruct (splitter_first_invalid e N pre t post Hall Hsplit Hpre)
    as [Hm Ho].
  unfold valid in Ht. apply andb_false_iff in Ht as [Ht|Ht];
    apply negb_false_iff in Ht.
  - rewrite (Hm Ht) in Hok. discriminate.
  - specialize (Ho Ht). rewrite Hok in Ho. discriminate.
Qed.

(** Expressions of the [all] form have no well-formed term. *)
Lemma contains_lower (sep : ascii) (s : string) :
  Py.lower_char sep = sep ->
  Py.contains sep s = true -> Py.contains sep (Py.lower s) = true.
Proof.
  intros Hsep. induction s as [|c s IH]; simpl; [done|].
  intros H. apply orb_true_iff in H as [H|H].
  - apply Ascii.eqb_eq in H as ->. by rewrite Hsep, Ascii.eqb_refl.
  - rewrite IH by done. apply orb_true_r.
Qed.

Lemma contains_lstrip (sep : ascii) (s : string) :
  Py.isspace sep = false ->
  Py.contains sep (Py.lstrip s) = Py.contains sep s.
Proof.
  intros Hsep. induction s as [|c s IH]; simpl; [done|].
  destruct (Py.isspace c) eqn:Hc; [|done].
  rewrite IH. destruct (Ascii.eqb_spec c sep) as [->|]; [congruence|done].
Qed.

Lemma contains_rstrip (sep : ascii) (s : string) :
  Py.isspace sep = false ->
  Py.contains sep (Py.rstrip s) = Py.contains sep s.
Proof.
  intros Hsep. induction s as [|c s IH]; simpl; [done|].
  destruct (Py.isspace c && Py.is_empty (Py.rstrip s)) eqn:Hc.
  - apply andb_true_iff in Hc as [Hc Hr].
    destruct (Py.rstrip s); [|discriminate]. rewrite <- IH. simpl.
    destruct (Ascii.eqb_spec c sep) as [->|]; [congruence|done].
  - simpl. by rewrite IH.
Qed.

Lemma contains_strip (sep : ascii) (s : string) :
  Py.isspace sep = false ->
  Py.contains sep (Py.strip s) = Py.contains sep s.
Proof.
  intros Hsep. unfold Py.strip.
  by rewrite contains_rstrip, contains_lstrip.
Qed.

Lemma split_without_sep (sep : ascii) (s : string) :
  Py.contains sep s = false -> Py.split sep s = [s].
Proof.
  induction s as [|c s IH]; simpl; [done|].
  intros H. apply orb_false_iff in H as [Hc Hs].
  by rewrite Hc, IH.
Qed.

Lemma lower_char_a (c : ascii) :
  Py.lower_char c = "a"%char ->
  Ascii.eqb c "+" = false /\ Ascii.eqb c "-" = false
  /\ Py.isdigit c = false.
Proof.
  destruct c as [[] [] [] [] [] [] [] []]; intros H;
    try (vm_compute in H; discriminate H); by vm_compute.
Qed.

Lemma all_form_terms (e : string) :
  selects_all e = true ->
  Forall (fun t => malformed (shape_of t) = true) (terms e).
Proof.
  unfold selects_all. intros H. apply orb_true_iff in H as [H|H].
  - destruct e; [|discriminate]. repeat constructor.
  - apply String.eqb_eq in H.
    assert (Hsep : forall sep, Py.lower_char sep = sep ->
              Py.contains sep "all" = false ->
              Py.contains sep (Py.strip e) = false).
    { intros sep H1 H2. destruct (Py.contains sep (Py.strip e)) eqn:E;
        [|done]. apply (contains_lower sep) in E; [|done]. congruence. }
    assert (Hcomma : Py.contains "," e = false).
    { rewrite <- (contains_strip "," e) by done. by apply Hsep. }
    unfold terms. rewrite (split_without_sep _ _ Hcomma). simpl.
    repeat constructor. unfold shape_of.
    rewrite (Hsep "-"%char) by done.
    unfold Py.int. rewrite strip_strip.
    destruct (Py.strip e) as [|c r]; [done|].
    simpl in H. injection H as Hc _.
    apply lower_char_a in Hc as (-> & -> & Hd).
    unfold Py.int_unsigned. by rewrite Hd.
Qed.

Lemma modifier_all_valid (e : string) (N : Z) :
  selects_all e = false ->
  Forall (valid_part N) (Py.split "," e) ->
  PDFModifier.parse_page_range e N
  = Ok (Py.sorted_set (indices_of_parts (Py.split "," e))).
Proof.
  unfold PDFModifier.parse_page_range, selects_all. intros -> Hall.
  cbv zeta. by rewrite modifier_valid_run.
Qed.

Lemma merger_all_valid (e : string) (N : Z) :
  selects_all e = false ->
  Forall (valid_part N) (Py.split "," e) ->
  PDFMerger.parse_page_range e N
  = Ok (Py.sorted_set (indices_of_parts (Py.split "," e))).
Proof.
  unfold PDFMerger.parse_page_range, selects_all. intros -> Hall.
  cbv zeta. rewrite merger_wellformed_run; [done|].
  eapply Forall_impl; [exact Hall|]. intros p Hp.
  by apply valid_cases in Hp as [? _].
Qed.

Lemma elem_of_indices_of_parts (parts : list string) (x : Z) :
  x ∈ indices_of_parts parts
  <-> exists t, t ∈ map Py.strip parts /\ x ∈ indices_of (shape_of t).
Proof.
  unfold indices_of_parts. split.
  - intros H. apply list_elem_of_In, in_concat in H as (l & Hl & Hx).
    apply in_map_iff in Hl as (p & <- & Hp).
    exists (Py.strip p). split; apply list_elem_of_In; [|done].
    by apply in_map.
  - intros (t & Ht & Hx). apply list_elem_of_In in Ht, Hx.
    apply in_map_iff in Ht as (p & <- & Hp).
    apply list_elem_of_In, in_concat.
    exists (indices_of (shape_of (Py.strip p))). split; [|done].
    apply in_map_iff. by exists p.
Qed.

(** With a term that is not valid, the strict parsers end with one of
    the two range errors, and the merger never ends well on a
    malformed term. *)
Lemma strict_invalid_raises (e : string) (N : Z) :
  selects_all e = false ->
  Exists (fun t => valid N (shape_of t) = false) (terms e) ->
  (raised_kind splitter_kind (PDFSplitter.parse_page_range e N)
     = Some RangeFormatError
   \/ raised_kind splitter_kind (PDFSplitter.parse_page_range e N)
     = Some RangeBoundsError)
  /\ (raised_kind modifier_kind (PDFModifier.parse_page_range e N)
     = Some RangeFormatError
   \/ raised_kind modifier_kind (PDFModifier.parse_page_range e N)
     = Some RangeBoundsError).
Proof.
  intros Hall Hex.
  apply (first_failing (fun t => valid N (shape_of t))) in Hex
    as (pre' & t' & post' & Hterms & Hpre & Ht).
  apply terms_decompose in Hterms as (pre & t & post & Hsplit & -> & ->).
  apply valid_terms_parts in Hpre.
  destruct (splitter_first_invalid e N pre t post Hall Hsplit Hpre)
    as [Hm1 Ho1].
  destruct (modifier_first_invalid e N pre t post Hall Hsplit Hpre)
    as [Hm2 Ho2].
  unfold valid in Ht. apply andb_false_iff in Ht as [Ht|Ht];
    apply negb_false_iff in Ht.
  - rewrite (Hm1 Ht), (Hm2 Ht). split; by left.
  - split; right; auto.
Qed.

Lemma merger_malformed_raises (e : string) (N : Z) :
  selects_all e = false ->
  Exists (fun t => malformed (shape_of t) = true) (terms e) ->
  PDFMerger.parse_page_range e N
  = Raise (PDFMerger.Custom (PDFMerger.Invalid_page_range_format e)).
Proof.
  intros Hall Hex.
  assert (Hex' : Exists (fun t => negb (malformed (shape_of t)) = false)
                   (terms e)).
  { eapply Exists_impl; [exact Hex|]. intros t Ht. simpl in Ht. by rewrite Ht. }
  apply (first_failing (fun t => negb (malformed (shape_of t)))) in Hex'
    as (pre' & t' & post' & Hterms & Hpre & Ht).
  apply terms_decompose in Hterms as (pre & t & post & Hsplit & -> & ->).
  apply negb_false_iff in Ht.
  apply (merger_first_malformed e N pre t post); try done.
  apply Forall_map in Hpre. eapply Forall_impl; [exact Hpre|].
  intros p Hp. simpl in Hp. by apply negb_true_iff in Hp.
Qed.

(** A list returned by a parser came out of [range] or of
    [sorted(set(...))]. *)
Lemma parsers_sorted (e : string) (N : Z) (l : list Z) :
  PDFMerger.parse_page_range e N = Ok l
  \/ PDFSplitter.parse_page_range e N = Ok l
  \/ PDFModifier.parse_page_range e N = Ok l ->
  StronglySorted Z.lt l.
Proof.
  intros H.
  unfold PDFMerger.parse_page_range, PDFSplitter.parse_page_range,
    PDFModifier.parse_page_range in H.
  destruct (Py.is_empty e || String.eqb (Py.lower (Py.strip e)) "all").
  - destruct H as [H|[H|H]]; injection H as <-; apply range_sorted.
  - cbv zeta in H. destruct H as [H|[H|H]].
    + destruct (PDFMerger.parse_parts [] (Py.split "," e)) as [pages|[[]|]];
        try discriminate H. injection H as <-. apply sorted_set_sorted.
    + destruct (PDFSplitter.parse_parts N [] (Py.split "," e))
        as [pages|[[]|]]; try discriminate H.
      injection H as <-. apply sorted_set_sorted.
    + destruct (PDFModifier.parse_parts N [] (Py.split "," e))
        as [pages|[[]|]]; try discriminate H.
      injection H as <-. apply sorted_set_sorted.
Qed.

End ParserFacts.

(** ** Claims about the parsers *)

(** C1, as the code has it.  In [pdf_splitter.py] and [pdf_modifier.py],
    for every expression and page count: an expression with a term that
    is out of range or inverted never parses; and the parse ends with a
    bounds error when that term is the first one that is not valid, the
    terms being checked from left to right. *)
Theorem strict_parsers_reject_out_of_bounds (e : string) (N : Z) :
  (Exists (fun t => out_of_bounds N (shape_of t) = true) (terms e) ->
   is_ok (PDFSplitter.parse_page_range e N) = false
   /\ is_ok (PDFModifier.parse_page_range e N) = false)
  /\ (forall pre t post,
       terms e = pre ++ t :: post ->
       Forall (fun u => valid N (shape_of u) = true) pre ->
       out_of_bounds N (shape_of t) = true ->
       raised_kind splitter_kind (PDFSplitter.parse_page_range e N)
       = Some RangeBoundsError
       /\ raised_kind modifier_kind (PDFModifier.parse_page_range e N)
          = Some RangeBoundsError).
Proof.
  destruct (selects_all e) eqn:Hall.
  - pose proof (all_form_terms e Hall) as Hmal. split.
    + intros Hex. exfalso. apply Exists_exists in Hex as (t & Ht & Ho).
      rewrite Forall_forall in Hmal. specialize (Hmal t Ht).
      apply out_of_bounds_not_malformed in Ho. congruence.
    + intros pre t post Hterms _ Ho. exfalso.
      rewrite Forall_forall in Hmal.
      assert (Ht : t ∈ terms e) by (rewrite Hterms; set_solver).
      specialize (Hmal t Ht).
      apply out_of_bounds_not_malformed in Ho. congruence.
  - split.
    + intros Hex.
      destruct (strict_invalid_raises e N Hall) as [H1 H2].
      { eapply Exists_impl; [exact Hex|]. intros t Ht. simpl in Ht.
        by apply out_of_bounds_not_valid. }
      split.
      * destruct (PDFSplitter.parse_page_range e N); [|done].
        simpl in H1. by destruct H1.
      * destruct (PDFModifier.parse_page_range e N); [|done].
        simpl in H2. by destruct H2.
    + intros pre' t' post' Hterms Hpre Ho.
      apply terms_decompose in Hterms as (pre & t & post & Hsplit & -> & ->).
      apply valid_terms_parts in Hpre. split.
      * by apply (splitter_first_invalid e N pre t post).
      * by apply (modifier_first_invalid e N pre t post).
Qed.

Lemma strict_parsers_reject_out_of_bounds_witness :
  is_ok (PDFSplitter.parse_page_range "1-2,9" 5) = false
  /\ raised_kind modifier_kind (PDFModifier.parse_page_range "1-2, 4-3" 5)
     = Some RangeBoundsError.
Proof.
  split.
  - apply (proj1 (strict_parsers_reject_out_of_bounds "1-2,9" 5)).
    apply Exists_cons_tl, Exists_cons_hd. reflexivity.
  - apply (proj2 (strict_parsers_reject_out_of_bounds "1-2, 4-3" 5)
             ["1-2"] "4-3" []).
    + reflexivity.
    + repeat constructor.
    + reflexivity.
Defined.

(** C1 as stated fails: a page number above the page count, after a
    malformed term, gives the format error. *)
Lemma bounds_error_not_for_every_out_of_range_term :
  "9" ∈ terms "x,9"
  /\ out_of_bounds 5 (shape_of "9") = true
  /\ PDFSplitter.parse_page_range "x,9" 5
     = Raise (PDFSplitter.Custom (PDFSplitter.Invalid_page_range_format "x,9"))
  /\ raised_kind splitter_kind (PDFSplitter.parse_page_range "x,9" 5)
     <> Some RangeBoundsError.
Proof.
  split; [|split; [|split]].
  - apply list_elem_of_In. vm_compute. auto.
  - reflexivity.
  - vm_compute. reflexivity.
  - vm_compute. discriminate.
Qed.

(** The merger's parser tests no bound at all. *)
Example merger_parser_accepts_out_of_range :
  PDFMerger.parse_page_range "9" 5 = Ok [8]
  /\ PDFMerger.parse_page_range "0" 5 = Ok [-1]
  /\ PDFMerger.parse_page_range "4-2" 5 = Ok [].
Proof. repeat split; vm_compute; reflexivity. Qed.

(** C3, as the code has it.  For every page count [N >= 0], an
    expression that is the empty string, or that after trimming is equal
    to [all] whatever the case, parses to [[0; 1; ...; N-1]] in the three
    modules. *)
Theorem all_form_selects_every_page (e : string) (N : Z) :
  0 <= N ->
  e = EmptyString \/ Py.lower (Py.strip e) = "all" ->
  PDFMerger.parse_page_range e N = Ok (upto N)
  /\ PDFSplitter.parse_page_range e N = Ok (upto N)
  /\ PDFModifier.parse_page_range e N = Ok (upto N)
  /\ len (upto N) = N.
Proof.
  intros HN He.
  assert (Hall : Py.is_empty e
                 || String.eqb (Py.lower (Py.strip e)) "all" = true).
  { destruct He as [->|He]; [done|]. rewrite He. apply orb_true_r. }
  unfold PDFMerger.parse_page_range, PDFSplitter.parse_page_range,
    PDFModifier.parse_page_range.
  rewrite Hall, range_0_upto. repeat split. by apply length_upto.
Qed.

Lemma all_form_selects_every_page_witness :
  PDFSplitter.parse_page_range "  All " 4 = Ok [0; 1; 2; 3].
Proof.
  apply (all_form_selects_every_page "  All " 4); [lia|].
  right. reflexivity.
Defined.

(** C3 as stated fails: an expression made of one space is empty after
    trimming, and the three parsers reject it. *)
Lemma blank_expression_is_rejected :
  spec_selects_all " " = true
  /\ PDFMerger.parse_page_range " " 3
     = Raise (PDFMerger.Custom (PDFMerger.Invalid_page_range_format " "))
  /\ PDFSplitter.parse_page_range " " 3
     = Raise (PDFSplitter.Custom (PDFSplitter.Invalid_page_range_format " "))
  /\ PDFModifier.parse_page_range " " 3
     = Raise (PDFModifier.Custom (PDFModifier.Invalid_page_range_format " ")).
Proof. repeat split; vm_compute; reflexivity. Qed.

(** C7.  Whatever the expression and the page count, a list of indices
    returned by any of the three parsers is strictly ascending, hence
    without duplicates; and an expression whose terms are all valid is
    never rejected, however its terms repeat or overlap: the three
    parsers return the same list, which holds exactly the indices of the
    terms. *)
Theorem parsed_indices_strictly_ascending (e : string) (N : Z) :
  (forall l,
     PDFMerger.parse_page_range e N = Ok l
     \/ PDFSplitter.parse_page_range e N = Ok l
     \/ PDFModifier.parse_page_range e N = Ok l ->
     StronglySorted Z.lt l /\ NoDup l)
  /\ (selects_all e = false ->
      Forall (fun t => valid N (shape_of t) = true) (terms e) ->
      exists l,
        PDFMerger.parse_page_range e N = Ok l
        /\ PDFSplitter.parse_page_range e N = Ok l
        /\ PDFModifier.parse_page_range e N = Ok l
        /\ forall x, x ∈ l <->
             exists t, t ∈ terms e /\ x ∈ indices_of (shape_of t)).
Proof.
  split.
  - intros l H. pose proof (parsers_sorted e N l H) as Hs.
    split; [done|by apply lt_sorted_NoDup].
  - intros Hall Hvalid. apply valid_terms_parts in Hvalid.
    exists (Py.sorted_set (indices_of_parts (Py.split "," e))).
    rewrite merger_all_valid, splitter_all_valid, modifier_all_valid by done.
    split; [done|]. split; [done|]. split; [done|].
    intros x. rewrite elem_of_sorted_set. apply elem_of_indices_of_parts.
Qed.

Lemma parsed_indices_strictly_ascending_witness :
  StronglySorted Z.lt [0; 1; 2; 3]
  /\ exists l, PDFSplitter.parse_page_range "1-2,4,2-3" 5 = Ok l
               /\ forall x, x ∈ l <->
                    exists t, t ∈ terms "1-2,4,2-3"
                              /\ x ∈ indices_of (shape_of t).
Proof.
  split.
  - apply (proj1 (parsed_indices_strictly_ascending "1-2,4,2-3" 5)).
    right. left. vm_compute. reflexivity.
  - destruct (proj2 (parsed_indices_strictly_ascending "1-2,4,2-3" 5))
      as (l & _ & Hl & _ & Hx).
    + reflexivity.
    + repeat constructor.
    + exists l. split; [exact Hl | exact Hx].
Defined.





(** ** Running stateful computations *)

Lemma bind_ok_inv {S E A B} (m : M S E A) (k : A -> M S E B) s b s' :
  bind m k s = (Ok b, s') ->
  exists a s1, m s = (Ok a, s1) /\ k a s1 = (Ok b, s').
Proof. unfold bind. destruct (m s) as [[a|e] s1]; [eauto|discriminate]. Qed.

Lemma bind_run {S E A B} (m : M S E A) (k : A -> M S E B) s a s1 :
  m s = (Ok a, s1) -> bind m k s = k a s1.
Proof. unfold bind. by intros ->. Qed.

Lemma try_except_ok_inv {S E A} (m : M S E A) (f : E -> E) s a s' :
  try_except m (fun e => raise (f e)) s = (Ok a, s') -> m s = (Ok a, s').
Proof.
  unfold try_except, raise. destruct (m s) as [[x|e] s1]; [done|discriminate].
Qed.

Lemma try_except_run {S E A} (m : M S E A) (h : E -> M S E A) s a s' :
  m s = (Ok a, s') -> try_except m h s = (Ok a, s').
Proof. unfold try_except. by intros ->. Qed.

Lemma range_cons (a b : Z) : a < b -> Py.range a b = a :: Py.range (a + 1) b.
Proof.
  intros Hab. unfold Py.range.
  replace (Z.to_nat (b - a)) with (S (Z.to_nat (b - (a + 1)))) by lia.
  simpl. f_equal; [lia|]. rewrite <- seq_shift, map_map.
  apply map_ext. intros i. lia.
Qed.

Lemma range_nil (a b : Z) : b <= a -> Py.range a b = [].
Proof. intros Hab. unfold Py.range. by replace (Z.to_nat (b - a)) with 0%nat by lia. Qed.

Lemma len_cons {A} (x : A) (l : list A) : len (x :: l) = 1 + len l.
Proof. unfold len. simpl. lia. Qed.

Lemma len_nonneg {A} (l : list A) : 0 <= len l.
Proof. unfold len. lia. Qed.

(** ** The merge, step by step *)

Section MergerFacts.
Import PDFMerger.
Variable w : World.
Variable page_ranges : option (gmap string string).

Lemma merger_progress_run (c t : Z) (m : Message) (s : state) :
  exists s',
    _update_progress c t m s = (Ok tt, s')
    /\ progress_callback s' = progress_callback s
    /\ calls s' = calls s ++ (if progress_callback s
                              then [Build_ProgressEvent c t m] else [])
    /\ writer s' = writer s /\ files s' = files s.
Proof.
  eexists. split; [reflexivity|].
  destruct s as [[] cs wr fs]; simpl; rewrite ?app_nil_r; done.
Qed.

Lemma validate_pdf_frame (f : string) (s s' : state) r :
  validate_pdf w f s = (r, s') -> s' = s.
Proof.
  unfold validate_pdf, try_except, bind, PdfReader, raise, ret.
  destruct (negb (path_exists w f)); [by intros [= _ <-]|].
  destruct (negb (Py.endswith (Py.lower f) ".pdf")); [by intros [= _ <-]|].
  destruct (pdf_pages w f) as [n|]; [|by intros [= _ <-]].
  destruct (Z.of_nat n =? 0); by intros [= _ <-].
Qed.

Lemma validate_pdf_ok (f : string) (s : state) :
  source_ok w page_ranges f -> validate_pdf w f s = (Ok true, s).
Proof.
  intros (Hex & Hpdf & n & l & Hn & Hn0 & _).
  unfold validate_pdf, try_except, bind, PdfReader, raise, ret.
  rewrite Hex, Hpdf, Hn. simpl.
  destruct (Z.of_nat n =? 0) eqn:E; [lia|done].
Qed.

Lemma add_pages_frame (f : string) (n : Z) (l : list Z) :
  forall tp s r s',
  add_pages f n tp l s = (r, s') ->
  progress_callback s' = progress_callback s
  /\ calls s' = calls s /\ files s' = files s.
Proof.
  induction l as [|i l IH]; intros tp s r s'; simpl.
  - by intros [= _ <-].
  - unfold bind, lift, add_page, modify.
    destruct (pages_getitem f n i) as [p|e]; [|by intros [= _ <-]].
    intros H. apply IH in H. simpl in H. done.
Qed.

Lemma pages_getitem_in_range (f : string) (n i : Z) :
  0 <= i < n -> pages_getitem f n i = Ok (f, i).
Proof.
  intros Hi. unfold pages_getitem.
  destruct (i <? 0) eqn:E1; [lia|].
  destruct ((i <? 0) || (n <=? i)) eqn:E2; [lia|done].
Qed.

Lemma add_pages_ok (f : string) (n : Z) (l : list Z) :
  Forall (fun i => 0 <= i < n) l ->
  forall tp s, exists s',
    add_pages f n tp l s = (Ok (tp + len l), s')
    /\ writer s' = (fun ps => ps ++ map (pair f) l) <$> writer s
    /\ progress_callback s' = progress_callback s
    /\ calls s' = calls s /\ files s' = files s.
Proof.
  induction 1 as [|i l Hi Hl IH]; intros tp s.
  - exists s. simpl. unfold ret, len. simpl. rewrite Z.add_0_r.
    repeat split. destruct (writer s); simpl; by rewrite ?app_nil_r.
  - simpl. unfold bind, lift.
    rewrite pages_getitem_in_range by done.
    unfold add_page, modify.
    destruct (IH (tp + 1)
      {| progress_callback := progress_callback s; calls := calls s;
         writer := (fun ps => ps ++ [(f, i)]) <$> writer s;
         files := files s;
       failed_writes := failed_writes s |}) as (s' & Hrun & Hw & Hcb & Hc & Hf).
    exists s'. simpl in *. split.
    { rewrite len_cons.
      replace (tp + (1 + len l)) with (tp + 1 + len l) by lia. exact Hrun. }
    repeat split; try done.
    rewrite Hw. destruct (writer s); simpl; [|done].
    by rewrite <- app_assoc.
Qed.

Lemma parse_all (n : Z) :
  parse_page_range "all" n = Ok (Py.range 0 n).
Proof. reflexivity. Qed.

Lemma pages_for_run (f : string) (n : Z) (s : state) :
  pages_for page_ranges f n s
  = (parse_page_range (expression_of page_ranges f) n, s).
Proof.
  unfold pages_for, expression_of, lift, ret.
  destruct page_ranges as [d|]; [|by rewrite parse_all].
  destruct (negb (bool_decide (d = ∅))) eqn:E.
  - destruct (d !! f); simpl; [done|by rewrite parse_all].
  - apply negb_false_iff, bool_decide_eq_true in E. subst d.
    rewrite lookup_empty. simpl. by rewrite parse_all.
Qed.

Lemma resolved_ok (f : string) (n : nat) (l : list Z) :
  pdf_pages w f = Some n ->
  parse_page_range (expression_of page_ranges f) (Z.of_nat n) = Ok l ->
  resolved w page_ranges f = l.
Proof. unfold resolved. by intros -> ->. Qed.

End MergerFacts.

Section MergerLoops.
Import PDFMerger.
Variable w : World.
Variable page_ranges : option (gmap string string).
Variable n : Z.

Lemma one_per_source_cons (i : Z) (f : string) (fs : list string) :
  one_per_source n i (f :: fs) = (i + 1, n) :: one_per_source n (i + 1) fs.
Proof.
  unfold one_per_source. rewrite len_cons.
  rewrite range_cons by (pose proof (len_nonneg fs); lia). simpl.
  do 3 f_equal. lia.
Qed.

Lemma one_per_source_nil (i : Z) : one_per_source n i [] = [].
Proof. unfold one_per_source. by rewrite range_nil by (unfold len; simpl; lia). Qed.

(** The validation loop. *)
Lemma validate_loop_inv (fs : list string) :
  forall i s u s',
  for_enumerate i fs (fun i file_path =>
    validate_pdf w file_path ;;
    _update_progress (i + 1) n (Validated (Py.basename file_path))) s
  = (Ok u, s') ->
  progress_callback s = true ->
  progress_callback s' = true
  /\ exists evs, calls s' = calls s ++ evs
                 /\ map counts evs = one_per_source n i fs.
Proof.
  induction fs as [|f fs IH]; intros i s u s' Hrun Hcb.
  - injection Hrun as _ <-. split; [done|]. exists [].
    by rewrite app_nil_r, one_per_source_nil.
  - simpl in Hrun.
    apply bind_ok_inv in Hrun as ([] & s1 & Hbody & Hrest).
    apply bind_ok_inv in Hbody as (b & s0 & Hval & Hup).
    apply validate_pdf_frame in Hval as ->.
    destruct (merger_progress_run (i + 1) n (Validated (Py.basename f)) s)
      as (s2 & Hup' & Hcb2 & Hc2 & _).
    rewrite Hup' in Hup. injection Hup as <-.
    rewrite Hcb in Hcb2, Hc2.
    destruct (IH _ _ _ _ Hrest Hcb2) as (Hcb' & evs & Hc & Hm).
    split; [done|]. eexists (_ :: evs). split.
    + rewrite Hc, Hc2, <- app_assoc. reflexivity.
    + rewrite one_per_source_cons. simpl. by rewrite Hm.
Qed.

Lemma validate_loop_ok (fs : list string) :
  Forall (source_ok w page_ranges) fs ->
  forall i s, exists s',
    for_enumerate i fs (fun i file_path =>
      validate_pdf w file_path ;;
      _update_progress (i + 1) n (Validated (Py.basename file_path))) s
    = (Ok tt, s')
    /\ progress_callback s' = progress_callback s
    /\ writer s' = writer s /\ files s' = files s.
Proof.
  induction 1 as [|f fs Hf Hfs IH]; intros i s.
  - by exists s.
  - simpl.
    destruct (merger_progress_run (i + 1) n (Validated (Py.basename f)) s)
      as (s2 & Hup & Hcb2 & _ & Hw2 & Hf2).
    destruct (IH (i + 1) s2) as (s' & Hrun & Hcb & Hw & Hfl).
    exists s'. split.
    + erewrite bind_run; [exact Hrun|].
      erewrite bind_run; [exact Hup|]. by apply (validate_pdf_ok w page_ranges).
    + by rewrite Hcb, Hw, Hfl.
Qed.

(** The merging loop. *)
Lemma merge_loop_inv (fs : list string) :
  forall i tp s tp' s',
  merge_loop w page_ranges n i tp fs s = (Ok tp', s') ->
  progress_callback s = true ->
  progress_callback s' = true
  /\ exists evs, calls s' = calls s ++ evs
                 /\ map counts evs = one_per_source n i fs.
Proof.
  induction fs as [|f fs IH]; intros i tp s tp' s' Hrun Hcb.
  - injection Hrun as _ <-. split; [done|]. exists [].
    by rewrite app_nil_r, one_per_source_nil.
  - simpl in Hrun.
    apply bind_ok_inv in Hrun as (num_pages & s1 & Hreader & Hrun).
    assert (s1 = s) as ->.
    { unfold PdfReader in Hreader. destruct (pdf_pages w f);
        by injection Hreader as _ <-. }
    apply bind_ok_inv in Hrun as (pages & s1 & Hpages & Hrun).
    rewrite pages_for_run in Hpages. injection Hpages as _ <-.
    apply bind_ok_inv in Hrun as (tp1 & s1 & Hadd & Hrun).
    apply add_pages_frame in Hadd as (Hcb1 & Hc1 & _).
    apply bind_ok_inv in Hrun as ([] & s2 & Hup & Hrun).
    destruct (merger_progress_run (i + 1) n
                (Added_pages (len pages) (Py.basename f)) s1)
      as (s2' & Hup' & Hcb2 & Hc2 & _).
    rewrite Hup' in Hup. injection Hup as <-.
    rewrite Hcb1, Hcb in Hcb2, Hc2.
    destruct (IH _ _ _ _ _ Hrun Hcb2) as (Hcb' & evs & Hc & Hm).
    split; [done|]. eexists (_ :: evs). split.
    + rewrite Hc, Hc2, Hc1, <- app_assoc. reflexivity.
    + rewrite one_per_source_cons. simpl. by rewrite Hm.
Qed.

Lemma merge_loop_ok (fs : list string) :
  Forall (source_ok w page_ranges) fs ->
  forall i tp s, exists tp' s',
    merge_loop w page_ranges n i tp fs s = (Ok tp', s')
    /\ writer s' = (fun ps => ps ++ merge_plan w page_ranges fs) <$> writer s
    /\ progress_callback s' = progress_callback s
    /\ files s' = files s.
Proof.
  induction 1 as [|f fs Hf Hfs IH]; intros i tp s.
  - exists tp, s. simpl. unfold ret. repeat split.
    unfold merge_plan. simpl. destruct (writer s); simpl; by rewrite ?app_nil_r.
  - destruct Hf as (_ & _ & k & l & Hk & _ & Hparse & Hrange).
    destruct (add_pages_ok f (Z.of_nat k) l Hrange tp s)
      as (s1 & Hadd & Hw1 & Hcb1 & _ & Hf1).
    destruct (merger_progress_run (i + 1) n
                (Added_pages (len l) (Py.basename f)) s1)
      as (s2 & Hup & Hcb2 & _ & Hw2 & Hf2).
    destruct (IH (i + 1) (tp + len l) s2) as (tp' & s' & Hrun & Hw & Hcb & Hfl).
    exists tp', s'. split.
    + simpl. unfold bind at 1, PdfReader. rewrite Hk. unfold ret.
      unfold bind at 1. rewrite pages_for_run, Hparse.
      erewrite bind_run; [|exact Hadd].
      erewrite bind_run; [|exact Hup]. exact Hrun.
    + rewrite Hw, Hw2, Hw1, Hcb, Hcb2, Hcb1, Hfl, Hf2, Hf1.
      repeat split. unfold merge_plan. simpl.
      rewrite (resolved_ok w page_ranges f k l Hk Hparse).
      destruct (writer s); simpl; [|done]. by rewrite <- app_assoc.
Qed.

End MergerLoops.

(** ** Claims about the merge *)

(** C9.  With fewer than two sources, none included, [merge_pdfs] ends
    with an insufficient-sources error and leaves the state as it was:
    no notification was sent, no page was chosen, nothing was written. *)
Theorem merge_needs_two_sources (w : World) (input_files : list string)
    (output_file : string) (page_ranges : option (gmap string string))
    (s : PDFMerger.state) :
  (length input_files < 2)%nat ->
  exists e,
    PDFMerger.merge_pdfs w input_files output_file page_ranges s
    = (Raise e, s)
    /\ merger_kind e = Some InsufficientSourcesError.
Proof.
  intros Hlen. destruct input_files as [|f [|g fs]]; simpl in Hlen; [| |lia].
  - by exists (PDFMerger.Custom PDFMerger.No_input_files).
  - by exists (PDFMerger.Custom PDFMerger.At_least_2_required).
Qed.

Lemma merge_needs_two_sources_witness :
  exists e,
    PDFMerger.merge_pdfs demo_world ["a.pdf"] "out.pdf" None
      (PDFMerger.init true)
    = (Raise e, PDFMerger.init true)
    /\ merger_kind e = Some InsufficientSourcesError.
Proof.
  apply (merge_needs_two_sources demo_world ["a.pdf"] "out.pdf" None).
  simpl. lia.
Defined.

(** C2, as the code has it.  A merge over [n] sources that ends well,
    with a callback registered, sends [2n + 4] notifications, all with
    [total = n]: one with [current = 0] and one per source validated
    ([current = 1..n]); then one with [current = 0] and one per source
    merged, [current] being the number of sources merged so far
    ([1..n]); then two with [current = n], before and after the file is
    written. *)
Theorem merge_progress_sequence (w : World) (input_files : list string)
    (output_file : string) (page_ranges : option (gmap string string))
    (s s' : PDFMerger.state) (b : bool) :
  PDFMerger.progress_callback s = true ->
  PDFMerger.merge_pdfs w input_files output_file page_ranges s = (Ok b, s') ->
  let n := len input_files in
  2 <= n
  /\ exists evs,
       PDFMerger.calls s' = PDFMerger.calls s ++ evs
       /\ map counts evs
          = [(0, n)] ++ map (fun k => (k, n)) (Py.range 1 (1 + n))
            ++ [(0, n)] ++ map (fun k => (k, n)) (Py.range 1 (1 + n))
            ++ [(n, n); (n, n)]
       /\ len evs = 2 * n + 4.
Proof.
  intros Hcb Hrun n. unfold PDFMerger.merge_pdfs in Hrun. fold n in Hrun.
  destruct (bool_decide (input_files = [])); [discriminate Hrun|].
  destruct (n <? 2) eqn:Hn; [discriminate Hrun|].
  split; [lia|].
  apply bind_ok_inv in Hrun as ([] & s1 & Hup1 & Hrun).
  destruct (merger_progress_run 0 n PDFMerger.Validating_PDF_files s)
    as (s1' & Hup1' & Hcb1 & Hc1 & _).
  rewrite Hup1' in Hup1. injection Hup1 as <-. rewrite Hcb in Hcb1, Hc1.
  apply bind_ok_inv in Hrun as ([] & s2 & Hval & Hrun).
  apply validate_loop_inv in Hval as (Hcb2 & evs2 & Hc2 & Hm2); [|done].
  apply bind_ok_inv in Hrun as ([] & s3 & Hnew & Hrun).
  injection Hnew as <-.
  apply bind_ok_inv in Hrun as ([] & s4 & Hup4 & Hrun).
  match type of Hup4 with ?m ?st = _ =>
    destruct (merger_progress_run 0 n PDFMerger.Merging_PDF_files st)
      as (s4' & Hup4' & Hcb4 & Hc4 & _) end.
  rewrite Hup4' in Hup4. injection Hup4 as <-. simpl in Hcb4, Hc4.
  rewrite Hcb2 in Hcb4, Hc4.
  apply try_except_ok_inv in Hrun.
  apply bind_ok_inv in Hrun as (tp & s5 & Hloop & Hrun).
  apply merge_loop_inv in Hloop as (Hcb5 & evs5 & Hc5 & Hm5); [|done].
  apply bind_ok_inv in Hrun as ([] & s6 & Hup6 & Hrun).
  destruct (merger_progress_run n n PDFMerger.Writing_merged_PDF s5)
    as (s6' & Hup6' & Hcb6 & Hc6 & _).
  rewrite Hup6' in Hup6. injection Hup6 as <-. rewrite Hcb5 in Hcb6, Hc6.
  apply bind_ok_inv in Hrun as ([] & s7 & Hwrite & Hrun).
  assert (Hs7 : PDFMerger.progress_callback s7 = true
                /\ PDFMerger.calls s7 = PDFMerger.calls s6').
  { unfold PDFMerger.write_output in Hwrite.
    destruct (writable w output_file); [|discriminate Hwrite].
    injection Hwrite as <-. done. }
  destruct Hs7 as [Hcb7 Hc7].
  apply bind_ok_inv in Hrun as ([] & s8 & Hup8 & Hrun).
  destruct (merger_progress_run n n (PDFMerger.Successfully_merged n tp) s7)
    as (s8' & Hup8' & Hcb8 & Hc8 & _).
  rewrite Hup8' in Hup8. injection Hup8 as <-. rewrite Hcb7 in Hcb8, Hc8.
  injection Hrun as _ <-.
  eexists. split.
  - rewrite Hc8, Hc7, Hc6, Hc5, Hc4, Hc2, Hc1.
    rewrite <- !app_assoc. reflexivity.
  - assert (Hops : one_per_source n 0 input_files
                   = map (fun k => (k, n)) (Py.range 1 (1 + n))) by done.
    rewrite Hops in Hm2, Hm5. split.
    + rewrite !map_app, Hm2, Hm5. reflexivity.
    + unfold len. rewrite !length_app.
      rewrite <- (length_map counts evs2), <- (length_map counts evs5).
      rewrite Hm2, Hm5, !length_map. unfold Py.range.
      rewrite !length_map, !length_seq. simpl. lia.
Qed.

Lemma merge_progress_sequence_witness :
  exists evs,
    PDFMerger.calls
      (snd (PDFMerger.merge_pdfs demo_world ["a.pdf"; "b.pdf"] "out.pdf"
              (Some {[ "b.pdf" := "1" ]}) (PDFMerger.init true)))
    = evs
    /\ map counts evs
       = [(0, 2); (1, 2); (2, 2); (0, 2); (1, 2); (2, 2); (2, 2); (2, 2)].
Proof.
  destruct (merge_progress_sequence demo_world ["a.pdf"; "b.pdf"] "out.pdf"
              (Some {[ "b.pdf" := "1" ]}) (PDFMerger.init true)
              (snd (PDFMerger.merge_pdfs demo_world ["a.pdf"; "b.pdf"]
                      "out.pdf" (Some {[ "b.pdf" := "1" ]})
                      (PDFMerger.init true)))
              true eq_refl)
    as (_ & evs & Hcalls & Hcounts & _).
  - vm_compute. reflexivity.
  - exists evs. split; [exact Hcalls | exact Hcounts].
Defined.

(** C2 as stated fails: a merge of two sources sends eight
    notifications, and [current] goes back to 0 when merging starts. *)
Lemma merge_of_two_sends_eight_notifications :
  let run := PDFMerger.merge_pdfs demo_world ["a.pdf"; "b.pdf"] "out.pdf"
               None (PDFMerger.init true) in
  fst run = Ok true
  /\ map counts (PDFMerger.calls (snd run))
     = [(0, 2); (1, 2); (2, 2); (0, 2); (1, 2); (2, 2); (2, 2); (2, 2)]
  /\ length (PDFMerger.calls (snd run)) <> 3%nat.
Proof. vm_compute. repeat split. discriminate. Qed.

(** C4, as the code has it.  For at least two sources that pass
    validation (the file exists, its name ends in [.pdf], it opens with
    at least one page) and whose
    expressions (an absent one standing for [all]) resolve to indices of
    their own pages, and an output that can be written, [merge_pdfs]
    ends well; the pages added to the
    writer, and written to the output file, are the pages of the sources
    in the order given, each source giving its resolved indices in
    ascending order. *)
Theorem merge_plan_is_concatenation (w : World) (input_files : list string)
    (output_file : string) (page_ranges : option (gmap string string))
    (s : PDFMerger.state) :
  2 <= len input_files ->
  Forall (source_ok w page_ranges) input_files ->
  writable w output_file = true ->
  exists s',
    PDFMerger.merge_pdfs w input_files output_file page_ranges s
    = (Ok true, s')
    /\ PDFMerger.writer s' = Some (merge_plan w page_ranges input_files)
    /\ PDFMerger.files s'
       = PDFMerger.files s
         ++ [(output_file, merge_plan w page_ranges input_files)]
    /\ Forall (fun f => StronglySorted Z.lt (resolved w page_ranges f))
         input_files.
Proof.
  intros Hlen Hok Hwr. set (n := len input_files).
  destruct (merger_progress_run 0 n PDFMerger.Validating_PDF_files s)
    as (s1 & Hup1 & _ & _ & _ & Hf1).
  destruct (validate_loop_ok w page_ranges n input_files Hok 0 s1)
    as (s2 & Hval & _ & _ & Hf2).
  set (s3 := {| PDFMerger.progress_callback := PDFMerger.progress_callback s2;
                PDFMerger.calls := PDFMerger.calls s2;
                PDFMerger.writer := Some [];
                PDFMerger.files := PDFMerger.files s2;
       PDFMerger.failed_writes := PDFMerger.failed_writes s2 |}).
  destruct (merger_progress_run 0 n PDFMerger.Merging_PDF_files s3)
    as (s4 & Hup4 & _ & _ & Hw4 & Hf4).
  destruct (merge_loop_ok w page_ranges n input_files Hok 0 0 s4)
    as (tp & s5 & Hloop & Hw5 & _ & Hf5).
  destruct (merger_progress_run n n PDFMerger.Writing_merged_PDF s5)
    as (s6 & Hup6 & _ & _ & Hw6 & Hf6).
  set (s7 := {| PDFMerger.progress_callback := PDFMerger.progress_callback s6;
                PDFMerger.calls := PDFMerger.calls s6;
                PDFMerger.writer := PDFMerger.writer s6;
                PDFMerger.files :=
                  PDFMerger.files s6
                  ++ [(output_file, default [] (PDFMerger.writer s6))];
       PDFMerger.failed_writes := PDFMerger.failed_writes s6 |}).
  destruct (merger_progress_run n n (PDFMerger.Successfully_merged n tp) s7)
    as (s8 & Hup8 & _ & _ & Hw8 & Hf8).
  assert (Hw : PDFMerger.writer s6
               = Some (merge_plan w page_ranges input_files)).
  { rewrite Hw6, Hw5, Hw4. reflexivity. }
  exists s8. split; [|split; [|split]].
  - unfold PDFMerger.merge_pdfs. fold n.
    destruct (bool_decide (input_files = [])) eqn:E.
    { apply bool_decide_eq_true in E. subst input_files.
      unfold n, len in Hlen. simpl in Hlen. lia. }
    destruct (n <? 2) eqn:E2; [lia|].
    erewrite bind_run; [|exact Hup1].
    erewrite bind_run; [|exact Hval].
    erewrite bind_run; [|reflexivity].
    erewrite bind_run; [|exact Hup4].
    apply try_except_run.
    erewrite bind_run; [|exact Hloop].
    erewrite bind_run; [|exact Hup6].
    erewrite bind_run;
      [|unfold PDFMerger.write_output; rewrite Hwr; reflexivity].
    erewrite bind_run; [|exact Hup8]. reflexivity.
  - rewrite Hw8. exact Hw.
  - rewrite Hf8. unfold s7. simpl. rewrite Hw. simpl.
    rewrite Hf6, Hf5, Hf4. unfold s3. simpl. by rewrite Hf2, Hf1.
  - eapply Forall_impl; [exact Hok|]. intros f (_ & _ & k & l & Hk & _ & Hp & _).
    rewrite (resolved_ok w page_ranges f k l Hk Hp).
    apply (parsers_sorted (expression_of page_ranges f) (Z.of_nat k)).
    by left.
Qed.

Lemma merge_plan_is_concatenation_witness :
  exists s',
    PDFMerger.merge_pdfs demo_world ["a.pdf"; "b.pdf"] "out.pdf"
      (Some {[ "b.pdf" := "1" ]}) (PDFMerger.init false)
    = (Ok true, s')
    /\ PDFMerger.writer s'
       = Some [("a.pdf", 0); ("a.pdf", 1); ("a.pdf", 2); ("b.pdf", 0)].
Proof.
  destruct (merge_plan_is_concatenation demo_world ["a.pdf"; "b.pdf"]
              "out.pdf" (Some {[ "b.pdf" := "1" ]}) (PDFMerger.init false))
    as (s' & Hrun & Hw & _).
  - unfold len. simpl. lia.
  - constructor; [|constructor; [|constructor]].
    + split; [reflexivity|]. split; [reflexivity|].
      exists 3%nat, [0; 1; 2]. split; [reflexivity|]. split; [lia|].
      split; [vm_compute; reflexivity|]. repeat constructor; lia.
    + split; [reflexivity|]. split; [reflexivity|].
      exists 2%nat, [0]. split; [reflexivity|]. split; [lia|].
      split; [vm_compute; reflexivity|]. repeat constructor; lia.
  - reflexivity.
  - exists s'. split; [exact Hrun | exact Hw].
Defined.

(** C4 as stated fails: valid range expressions do not make a merge
    end well.  A source whose name does not end in [.pdf], and a source
    that opens without pages, are refused by [validate_pdf] before any
    page is read, whatever their expressions: no plan is written. *)
Lemma merge_of_valid_expressions_can_fail :
  pdf_pages demo_world "a.pdf" = Some 3%nat
  /\ pdf_pages demo_world "scan" = Some 10%nat
  /\ Forall (fun t => valid 3 (shape_of t) = true) (terms "1-2")
  /\ Forall (fun t => valid 10 (shape_of t) = true) (terms "1")
  /\ PDFMerger.merge_pdfs demo_world ["a.pdf"; "scan"] "out.pdf"
       (Some {[ "a.pdf" := "1-2"; "scan" := "1" ]}) (PDFMerger.init false)
     = (Raise (PDFMerger.Custom (PDFMerger.Not_a_PDF_file "scan")),
        PDFMerger.init false)
  /\ pdf_pages demo_blank "a.pdf" = Some 0%nat
  /\ selects_all "all" = true
  /\ PDFMerger.merge_pdfs demo_blank ["a.pdf"; "b.pdf"] "out.pdf"
       (Some {[ "a.pdf" := "all"; "b.pdf" := "all" ]}) (PDFMerger.init false)
     = (Raise (PDFMerger.Custom
                 (PDFMerger.Invalid_or_corrupted "a.pdf"
                    (PDFMerger.Custom (PDFMerger.PDF_file_is_empty "a.pdf")))),
        PDFMerger.init false).
Proof.
  split; [reflexivity|]. split; [reflexivity|].
  split; [repeat constructor|]. split; [repeat constructor|].
  split; [vm_compute; reflexivity|]. split; [reflexivity|].
  split; [reflexivity|]. vm_compute. reflexivity.
Qed.

(** Where the merger's missing bounds test shows: page "0" of a source
    selects its last page, and an inverted pair selects nothing. *)
Example merge_of_page_zero :
  let run := PDFMerger.merge_pdfs demo_world ["a.pdf"; "b.pdf"] "out.pdf"
               (Some {[ "a.pdf" := "0"; "b.pdf" := "2-1" ]})
               (PDFMerger.init false) in
  fst run = Ok true /\ PDFMerger.writer (snd run) = Some [("a.pdf", 2)].
Proof. vm_compute. split; reflexivity. Qed.

(** ** The splits, step by step *)

Section SplitterFacts.
Import PDFSplitter.
Variable w : World.
Variable input_file output_dir : string.
Hypothesis all_writable : forall p, writable w p = true.

Lemma splitter_progress_run (c t : Z) (m : Message) (s : state) :
  exists s',
    _update_progress c t m s = (Ok tt, s')
    /\ progress_callback s' = progress_callback s
    /\ files s' = files s.
Proof.
  eexists. split; [reflexivity|]. destruct s as [[] cs fs]; simpl; done.
Qed.

Lemma splitter_add_pages_ok (N : Z) (l : list Z) :
  Forall (fun i => 0 <= i < N) l ->
  forall writer,
    add_pages input_file N writer l = Ok (writer ++ pages_of input_file l).
Proof.
  induction 1 as [|i l Hi Hl IH]; intros writer; simpl.
  - by rewrite app_nil_r.
  - rewrite pages_getitem_in_range by done. rewrite IH.
    by rewrite <- app_assoc.
Qed.

Lemma write_output_run (output_file : string) (writer : list page)
    (s : state) :
  write_output w output_file writer s
  = (Ok tt, {| progress_callback := progress_callback s; calls := calls s;
               files := files s ++ [(output_file, writer)];
       failed_writes := failed_writes s |}).
Proof. unfold write_output. by rewrite all_writable. Qed.

Lemma chunk_in_range (pages_per_file N f : Z) :
  1 <= pages_per_file -> 0 <= f ->
  Forall (fun i => 0 <= i < N) (chunk pages_per_file N f).
Proof.
  intros Hp Hf. apply Forall_forall. intros x Hx.
  apply elem_of_range in Hx. nia.
Qed.

(** The loop of [split_by_page_count]. *)
Lemma page_count_loop_ok (pages_per_file N num_files : Z)
    (base_name : string) (file_nums : list Z) :
  1 <= pages_per_file ->
  Forall (fun f => 0 <= f) file_nums ->
  forall output_files s, exists output_files' s' new,
    page_count_loop w input_file pages_per_file output_dir N num_files
      base_name output_files file_nums s
    = (Ok output_files', s')
    /\ files s' = files s ++ new
    /\ map snd new
       = map (fun f => pages_of input_file (chunk pages_per_file N f))
           file_nums
    /\ len output_files' = len output_files + len file_nums.
Proof.
  intros Hp. induction 1 as [|f fs Hf Hfs IH]; intros output_files s.
  - exists output_files, s, []. simpl. unfold ret, len. simpl.
    rewrite app_nil_r. repeat split. lia.
  - simpl. unfold bind at 1, lift.
    replace (Py.range (f * pages_per_file)
               (Z.min (f * pages_per_file + pages_per_file) N))
      with (chunk pages_per_file N f)
      by (unfold chunk; do 2 f_equal; lia).
    rewrite splitter_add_pages_ok by (by apply chunk_in_range).
    unfold bind at 1. rewrite write_output_run.
    match goal with
    | |- context [bind (_update_progress ?c ?t ?m) _ ?st] =>
        destruct (splitter_progress_run c t m st) as (s2 & Hup & _ & Hf2)
    end.
    match goal with
    | |- context [page_count_loop _ _ _ _ _ _ _ ?outs fs] =>
        destruct (IH outs s2) as (outs' & s' & new & Hrun & Hfl & Hnew & Hlen)
    end.
    eexists outs', s', (_ :: new).
    split; [erewrite bind_run; [exact Hrun|exact Hup]|].
    rewrite Hfl, Hf2. simpl. split; [by rewrite <- app_assoc|].
    split; [by rewrite Hnew|].
    rewrite Hlen. unfold len. rewrite length_app. simpl. lia.
Qed.

Lemma makedirs_run (s : state) : makedirs w output_dir s = (Ok tt, s).
Proof. unfold makedirs. by rewrite all_writable, orb_true_r. Qed.

Lemma ceil_div (N p : Z) :
  0 <= N -> 1 <= p ->
  N <= (N + p - 1) / p * p < N + p /\ 0 <= (N + p - 1) / p.
Proof.
  intros HN Hp.
  pose proof (Z.div_mod (N + p - 1) p ltac:(lia)) as Hdm.
  pose proof (Z.mod_pos_bound (N + p - 1) p ltac:(lia)) as Hmod.
  split; [nia|]. apply Z.div_pos; lia.
Qed.

Lemma split_by_page_count_run (pages_per_file : Z) (N : nat) (s : state) :
  path_exists w input_file = true ->
  pdf_pages w input_file = Some N ->
  1 <= pages_per_file ->
  let k := (Z.of_nat N + pages_per_file - 1) / pages_per_file in
  exists output_files s' new,
    split_by_page_count w input_file pages_per_file output_dir s
    = (Ok output_files, s')
    /\ files s' = files s ++ new
    /\ map snd new
       = map (fun f => pages_of input_file
                         (chunk pages_per_file (Z.of_nat N) f))
           (Py.range 0 k)
    /\ len output_files = k.
Proof.
  intros Hex Hpages Hp k.
  destruct (ceil_div (Z.of_nat N) pages_per_file ltac:(lia) Hp) as [_ Hk].
  fold k in Hk.
  destruct (splitter_progress_run 0 k Splitting_PDF s) as (s1 & Hup1 & _ & Hf1).
  destruct (page_count_loop_ok pages_per_file (Z.of_nat N) k
              (Py.splitext_root (Py.basename input_file)) (Py.range 0 k) Hp)
    with (output_files := @nil string) (s := s1)
    as (outs & s2 & new & Hloop & Hf2 & Hnew & Hlen).
  { apply Forall_forall. intros f Hf. apply elem_of_range in Hf. lia. }
  destruct (splitter_progress_run k k (Successfully_split_into k) s2)
    as (s3 & Hup3 & _ & Hf3).
  exists outs, s3, new. split; [|split; [|split]].
  - unfold split_by_page_count. rewrite Hex. simpl.
    destruct (pages_per_file <? 1) eqn:E; [lia|].
    apply try_except_run. unfold bind at 1, PdfReader. rewrite Hpages.
    unfold ret. erewrite bind_run; [|apply makedirs_run].
    cbv zeta. fold k.
    erewrite bind_run; [|exact Hup1].
    erewrite bind_run; [|exact Hloop].
    erewrite bind_run; [|exact Hup3]. reflexivity.
  - by rewrite Hf3, Hf2, Hf1.
  - exact Hnew.
  - rewrite Hlen. unfold len, Py.range.
    rewrite length_map, length_seq. simpl. lia.
Qed.

End SplitterFacts.

Lemma valid_indices_in_range (N : Z) (sh : shape) (x : Z) :
  valid N sh = true -> x ∈ indices_of sh -> 0 <= x < N.
Proof.
  unfold valid. destruct sh as [v|a b|]; simpl; intros Hv Hx.
  - apply list_elem_of_In in Hx. destruct Hx as [<-|[]].
    destruct (v <? 1) eqn:E1, (N <? v) eqn:E2; simpl in Hv; try discriminate.
    lia.
  - apply elem_of_range in Hx.
    destruct (a <? 1) eqn:E1, (N <? a) eqn:E2, (b <? 1) eqn:E3,
      (N <? b) eqn:E4, (b <? a) eqn:E5; simpl in Hv; try discriminate.
    lia.
  - discriminate.
Qed.

(** The strict parser only returns indices of pages that exist. *)
Lemma splitter_parse_in_range (e : string) (N : Z) (l : list Z) :
  PDFSplitter.parse_page_range e N = Ok l -> Forall (fun i => 0 <= i < N) l.
Proof.
  intros H. apply Forall_forall. intros x Hx.
  destruct (selects_all e) eqn:Hall.
  - unfold PDFSplitter.parse_page_range in H. unfold selects_all in Hall.
    rewrite Hall in H. injection H as <-. apply elem_of_range in Hx. lia.
  - pose proof (splitter_ok_valid e N l Hall H) as Hvalid.
    rewrite splitter_all_valid in H by done. injection H as <-.
    apply elem_of_sorted_set, elem_of_indices_of_parts in Hx
      as (t & Ht & Hx).
    apply list_elem_of_In, in_map_iff in Ht as (p & <- & Hp).
    apply list_elem_of_In in Hp.
    rewrite Forall_forall in Hvalid. specialize (Hvalid p Hp).
    by apply (valid_indices_in_range N (shape_of (Py.strip p))).
Qed.

Section SplitByRanges.
Import PDFSplitter.
Variable w : World.
Variable input_file output_dir : string.
Hypothesis all_writable : forall p, writable w p = true.

(** The loop of [split_by_ranges]. *)
Lemma ranges_loop_ok (N n : Z) (base_name : string) (ranges : list string) :
  Forall (fun r => is_ok (parse_page_range r N) = true) ranges ->
  forall output_files i s, exists output_files' s' new,
    ranges_loop w input_file output_dir N n base_name output_files i ranges s
    = (Ok output_files', s')
    /\ files s' = files s ++ new
    /\ map snd new
       = map (pages_of input_file)
           (filter (fun l => l <> []) (map (split_resolved N) ranges))
    /\ len output_files' = len output_files + len new.
Proof.
  induction 1 as [|r rs Hr Hrs IH]; intros output_files i s.
  - exists output_files, s, []. simpl. unfold ret, len. simpl.
    rewrite app_nil_r. repeat split. lia.
  - simpl. unfold bind at 1, lift.
    destruct (parse_page_range r N) as [pages|] eqn:Hparse; [|discriminate].
    assert (Hres : split_resolved N r = pages)
      by (unfold split_resolved; by rewrite Hparse).
    rewrite Hres.
    destruct (bool_decide (pages = [])) eqn:Hempty.
    + apply bool_decide_eq_true in Hempty.
      destruct (IH output_files (i + 1) s)
        as (outs' & s' & new & Hrun & Hfl & Hnew & Hlen).
      exists outs', s', new. rewrite filter_cons_False by (intros ?; done).
      done.
    + apply bool_decide_eq_false in Hempty.
      rewrite filter_cons_True by done.
      unfold bind at 1, lift.
      rewrite (splitter_add_pages_ok input_file N pages)
        by (by apply (splitter_parse_in_range r)).
      unfold bind at 1. rewrite (write_output_run w all_writable).
      match goal with
      | |- context [bind (_update_progress ?c ?t ?m) _ ?st] =>
          destruct (splitter_progress_run c t m st) as (s2 & Hup & _ & Hf2)
      end.
      match goal with
      | |- context [ranges_loop _ _ _ _ _ _ ?outs _ rs] =>
          destruct (IH outs (i + 1) s2)
            as (outs' & s' & new & Hrun & Hfl & Hnew & Hlen)
      end.
      eexists outs', s', (_ :: new).
      split; [erewrite bind_run; [exact Hrun|exact Hup]|].
      rewrite Hfl, Hf2. simpl. split; [by rewrite <- app_assoc|].
      split; [by rewrite Hnew|].
      rewrite Hlen. unfold len. rewrite length_app. simpl. lia.
Qed.

Lemma split_by_ranges_run (N : nat) (ranges : list string) (s : state) :
  path_exists w input_file = true ->
  pdf_pages w input_file = Some N ->
  ranges <> [] ->
  Forall (fun r => is_ok (parse_page_range r (Z.of_nat N)) = true) ranges ->
  exists output_files s' new,
    split_by_ranges w input_file ranges output_dir s = (Ok output_files, s')
    /\ files s' = files s ++ new
    /\ map snd new
       = map (pages_of input_file)
           (filter (fun l => l <> [])
              (map (split_resolved (Z.of_nat N)) ranges))
    /\ len output_files = len new.
Proof.
  intros Hex Hpages Hne Hok.
  destruct (splitter_progress_run 0 (len ranges) Splitting_PDF_by_ranges s)
    as (s1 & Hup1 & _ & Hf1).
  destruct (ranges_loop_ok (Z.of_nat N) (len ranges)
              (Py.splitext_root (Py.basename input_file)) ranges Hok [] 0 s1)
    as (outs & s2 & new & Hloop & Hf2 & Hnew & Hlen).
  destruct (splitter_progress_run (len ranges) (len ranges)
              (Successfully_created (len outs)) s2)
    as (s3 & Hup3 & _ & Hf3).
  exists outs, s3, new. split; [|split; [|split]].
  - unfold split_by_ranges. rewrite Hex. simpl.
    destruct (bool_decide (ranges = [])) eqn:E;
      [by apply bool_decide_eq_true in E|].
    apply try_except_run. unfold bind at 1, PdfReader. rewrite Hpages.
    unfold ret.
    erewrite bind_run; [|apply (makedirs_run w output_dir all_writable)].
    cbv zeta.
    erewrite bind_run; [|exact Hup1].
    erewrite bind_run; [|exact Hloop].
    erewrite bind_run; [|exact Hup3]. reflexivity.
  - by rewrite Hf3, Hf2, Hf1.
  - exact Hnew.
  - rewrite Hlen. unfold len. simpl. lia.
Qed.

End SplitByRanges.

(** ** Claims about the splits *)

(** C5.  For a source of [N >= 0] pages and [pages_per_file >= 1],
    [split_by_page_count] writes [k] files, [k] being the ceiling of
    [N / pages_per_file]; file [f] of them, counting from 0, holds the
    pages of indices [f * pages_per_file] up to
    [min ((f + 1) * pages_per_file) N] excluded, in ascending order. *)
Theorem split_by_count_chunks (w : World) (input_file : string)
    (pages_per_file : Z) (output_dir : string) (N : nat)
    (s : PDFSplitter.state) :
  path_exists w input_file = true ->
  pdf_pages w input_file = Some N ->
  1 <= pages_per_file ->
  (forall p, writable w p = true) ->
  exists k output_files s' new,
    PDFSplitter.split_by_page_count w input_file pages_per_file output_dir s
    = (Ok output_files, s')
    /\ Z.of_nat N <= k * pages_per_file < Z.of_nat N + pages_per_file
    /\ PDFSplitter.files s' = PDFSplitter.files s ++ new
    /\ len new = k
    /\ len output_files = k
    /\ map snd new
       = map (fun f =>
                pages_of input_file
                  (Py.range (f * pages_per_file)
                     (Z.min ((f + 1) * pages_per_file) (Z.of_nat N))))
           (Py.range 0 k).
Proof.
  intros Hex Hpages Hp Hwr.
  destruct (split_by_page_count_run w input_file output_dir Hwr
              pages_per_file N s Hex Hpages Hp)
    as (outs & s' & new & Hrun & Hfl & Hnew & Hlen).
  destruct (ceil_div (Z.of_nat N) pages_per_file ltac:(lia) Hp) as [Hk Hk0].
  exists ((Z.of_nat N + pages_per_file - 1) / pages_per_file), outs, s', new.
  repeat split; try done; try lia.
  unfold len. rewrite <- (length_map snd new), Hnew, length_map.
  unfold Py.range. rewrite length_map, length_seq. lia.
Qed.

Lemma split_by_count_chunks_witness :
  exists output_files s' new,
    PDFSplitter.split_by_page_count demo7 "doc.pdf" 3 "out"
      (PDFSplitter.init false)
    = (Ok output_files, s')
    /\ PDFSplitter.files s' = new
    /\ len new = 3
    /\ map snd new
       = [pages_of "doc.pdf" [0; 1; 2]; pages_of "doc.pdf" [3; 4; 5];
          pages_of "doc.pdf" [6]].
Proof.
  destruct (split_by_count_chunks demo7 "doc.pdf" 3 "out" 7
              (PDFSplitter.init false))
    as (k & outs & s' & new & Hrun & Hk & Hfl & Hlen & _ & Hnew).
  - reflexivity.
  - reflexivity.
  - lia.
  - reflexivity.
  - assert (k = 3) as -> by lia.
    exists outs, s', new.
    split; [exact Hrun|]. split; [exact Hfl|]. split; [exact Hlen|exact Hnew].
Defined.

(** C6.  On an existing source, [split_by_ranges] ends with the
    empty-range-list error when given no expression, before anything
    else is done; given expressions that all parse, it ends well and
    writes, in the order of the expressions, one file per expression
    whose resolved indices are not empty, the others being passed
    over. *)
Theorem split_by_ranges_skips_empty (w : World) (input_file : string)
    (output_dir : string) (s : PDFSplitter.state) :
  path_exists w input_file = true ->
  (PDFSplitter.split_by_ranges w input_file [] output_dir s
   = (Raise (PDFSplitter.Custom PDFSplitter.No_page_ranges_provided), s)
   /\ splitter_kind (PDFSplitter.Custom PDFSplitter.No_page_ranges_provided)
      = Some EmptyRangeListError)
  /\ forall (N : nat) (ranges : list string),
       ranges <> [] ->
       pdf_pages w input_file = Some N ->
       (forall p, writable w p = true) ->
       Forall (fun r =>
                 is_ok (PDFSplitter.parse_page_range r (Z.of_nat N)) = true)
         ranges ->
       exists output_files s' new,
         PDFSplitter.split_by_ranges w input_file ranges output_dir s
         = (Ok output_files, s')
         /\ PDFSplitter.files s' = PDFSplitter.files s ++ new
         /\ map snd new
            = map (pages_of input_file)
                (filter (fun l => l <> [])
                   (map (split_resolved (Z.of_nat N)) ranges))
         /\ len output_files = len new.
Proof.
  intros Hex. split.
  - unfold PDFSplitter.split_by_ranges. rewrite Hex. done.
  - intros N ranges Hne Hpages Hwr Hok.
    by apply (split_by_ranges_run w input_file output_dir Hwr N ranges s).
Qed.

Lemma split_by_ranges_skips_empty_witness :
  PDFSplitter.split_by_ranges demo_world "doc.pdf" [] "out"
    (PDFSplitter.init true)
  = (Raise (PDFSplitter.Custom PDFSplitter.No_page_ranges_provided),
     PDFSplitter.init true)
  /\ (exists output_files s',
        PDFSplitter.split_by_ranges demo_blank "doc.pdf" ["all"; EmptyString]
          "out" (PDFSplitter.init false)
        = (Ok output_files, s')
        /\ PDFSplitter.files s' = [] /\ output_files = [])
  /\ (exists output_files s',
        PDFSplitter.split_by_ranges demo_world "doc.pdf" ["1-2"; "4,2"] "out"
          (PDFSplitter.init false)
        = (Ok output_files, s')
        /\ map snd (PDFSplitter.files s')
           = [pages_of "doc.pdf" [0; 1]; pages_of "doc.pdf" [1; 3]]).
Proof.
  split; [|split].
  - apply (split_by_ranges_skips_empty demo_world "doc.pdf" "out"
             (PDFSplitter.init true) eq_refl).
  - destruct (proj2 (split_by_ranges_skips_empty demo_blank "doc.pdf" "out"
                       (PDFSplitter.init false) eq_refl)
                0%nat ["all"; EmptyString])
      as (outs & s' & new & Hrun & Hfl & Hnew & Hlen).
    + discriminate.
    + reflexivity.
    + reflexivity.
    + repeat constructor.
    + destruct new as [|x new]; [|discriminate Hnew].
      destruct outs as [|o outs]; [|discriminate Hlen].
      exists [], s'. split; [exact Hrun|]. split; [exact Hfl|reflexivity].
  - destruct (proj2 (split_by_ranges_skips_empty demo_world "doc.pdf" "out"
                       (PDFSplitter.init false) eq_refl)
                10%nat ["1-2"; "4,2"])
      as (outs & s' & new & Hrun & Hfl & Hnew & _).
    + discriminate.
    + reflexivity.
    + reflexivity.
    + repeat constructor.
    + exists outs, s'. split; [exact Hrun|].
      simpl in Hfl. rewrite Hfl. exact Hnew.
Defined.

(** C10.  [split_by_ranges] resolves each expression on its own against
    the whole document and never compares the results: two expressions
    that parse to non-empty lists give two files holding exactly those
    lists, whether or not the lists meet.  With ["1-5"] and ["3-7"] over
    ten pages, the page of index 2 is in both files. *)
Theorem split_by_ranges_not_a_partition :
  (forall (w : World) (input_file output_dir : string)
          (s : PDFSplitter.state) (N : nat) (e1 e2 : string)
          (l1 l2 : list Z),
     path_exists w input_file = true ->
     pdf_pages w input_file = Some N ->
     (forall p, writable w p = true) ->
     PDFSplitter.parse_page_range e1 (Z.of_nat N) = Ok l1 ->
     PDFSplitter.parse_page_range e2 (Z.of_nat N) = Ok l2 ->
     l1 <> [] -> l2 <> [] ->
     exists output_files s' new,
       PDFSplitter.split_by_ranges w input_file [e1; e2] output_dir s
       = (Ok output_files, s')
       /\ PDFSplitter.files s' = PDFSplitter.files s ++ new
       /\ map snd new = [pages_of input_file l1; pages_of input_file l2])
  /\ exists plan1 plan2,
       map snd (PDFSplitter.files
                  (snd (PDFSplitter.split_by_ranges demo_world "doc.pdf"
                          ["1-5"; "3-7"] "out" (PDFSplitter.init false))))
       = [plan1; plan2]
       /\ ("doc.pdf", 2) ∈ plan1 /\ ("doc.pdf", 2) ∈ plan2.
Proof.
  split.
  - intros w input_file output_dir s N e1 e2 l1 l2 Hex Hpages Hwr H1 H2 Hn1 Hn2.
    destruct (split_by_ranges_run w input_file output_dir Hwr N [e1; e2] s
                Hex Hpages)
      as (outs & s' & new & Hrun & Hfl & Hnew & _).
    + discriminate.
    + repeat constructor; [by rewrite H1|by rewrite H2].
    + exists outs, s', new. split; [exact Hrun|]. split; [exact Hfl|].
      rewrite Hnew. simpl. unfold split_resolved. rewrite H1, H2.
      rewrite filter_cons_True by done.
      rewrite filter_cons_True by done.
      reflexivity.
  - exists (pages_of "doc.pdf" [0; 1; 2; 3; 4]),
      (pages_of "doc.pdf" [2; 3; 4; 5; 6]).
    split; [vm_compute; reflexivity|].
    split; apply list_elem_of_In; simpl; auto.
Qed.

Lemma split_by_ranges_not_a_partition_witness :
  exists output_files s',
    PDFSplitter.split_by_ranges demo_world "doc.pdf" ["1-5"; "3-7"] "out"
      (PDFSplitter.init false)
    = (Ok output_files, s')
    /\ map snd (PDFSplitter.files s')
       = [pages_of "doc.pdf" [0; 1; 2; 3; 4];
          pages_of "doc.pdf" [2; 3; 4; 5; 6]].
Proof.
  destruct (proj1 split_by_ranges_not_a_partition demo_world "doc.pdf" "out"
              (PDFSplitter.init false) 10%nat "1-5" "3-7"
              [0; 1; 2; 3; 4] [2; 3; 4; 5; 6])
    as (outs & s' & new & Hrun & Hfl & Hnew).
  - reflexivity.
  - reflexivity.
  - reflexivity.
  - vm_compute. reflexivity.
  - vm_compute. reflexivity.
  - discriminate.
  - discriminate.
  - exists outs, s'. split; [exact Hrun|].
    simpl in Hfl. rewrite Hfl. exact Hnew.
Defined.

(** ** More about the parsers *)

Lemma parse_part_agree (N : Z) (pages : list Z) (part : string) :
  PDFSplitter.parse_part N pages part
  = map_raise modifier_as_splitter (PDFModifier.parse_part N pages part).
Proof.
  rewrite splitter_parse_part, modifier_parse_part.
  destruct (shape_of (Py.strip part)) as [v|a b|]; simpl; try reflexivity.
  - by destruct ((v <? 1) || (N <? v)).
  - by destruct ((a <? 1) || (N <? a) || (b <? 1) || (N <? b) || (b <? a)).
Qed.

Lemma parse_parts_agree (N : Z) (parts : list string) :
  forall pages,
  PDFSplitter.parse_parts N pages parts
  = map_raise modifier_as_splitter (PDFModifier.parse_parts N pages parts).
Proof.
  induction parts as [|p parts IH]; intros pages; simpl; [done|].
  rewrite parse_part_agree.
  destruct (PDFModifier.parse_part N pages p) as [pages'|e]; simpl; [|done].
  apply IH.
Qed.

Lemma parse_page_range_agree (e : string) (N : Z) :
  PDFSplitter.parse_page_range e N
  = map_raise modifier_as_splitter (PDFModifier.parse_page_range e N).
Proof.
  unfold PDFSplitter.parse_page_range, PDFModifier.parse_page_range.
  destruct (Py.is_empty e || String.eqb (Py.lower (Py.strip e)) "all");
    [done|].
  cbv zeta. rewrite parse_parts_agree.
  by destruct (PDFModifier.parse_parts N [] (Py.split "," e))
    as [pages|[[]|[]]].
Qed.

Lemma modifier_parse_ok_splitter (e : string) (N : Z) (l : list Z) :
  PDFModifier.parse_page_range e N = Ok l ->
  PDFSplitter.parse_page_range e N = Ok l.
Proof. intros H. by rewrite parse_page_range_agree, H. Qed.

Lemma splitter_parse_ok_merger (e : string) (N : Z) (l : list Z) :
  PDFSplitter.parse_page_range e N = Ok l ->
  PDFMerger.parse_page_range e N = Ok l.
Proof.
  intros H. destruct (selects_all e) eqn:Hall.
  - unfold PDFSplitter.parse_page_range in H.
    unfold PDFMerger.parse_page_range. unfold selects_all in Hall.
    rewrite Hall in H |- *. by injection H as <-.
  - pose proof (splitter_ok_valid e N l Hall H) as Hvalid.
    rewrite splitter_all_valid in H by done. injection H as <-.
    by rewrite merger_all_valid.
Qed.

Lemma sorted_in_range_length (l : list Z) :
  StronglySorted Z.lt l ->
  forall a b, Forall (fun x => a <= x < b) l -> len l <= Z.max 0 (b - a).
Proof.
  induction 1 as [|x l Hl IH Hx]; intros a b Hab.
  - unfold len. simpl. lia.
  - apply Forall_cons in Hab as [Hxab Hab]. rewrite len_cons.
    assert (Htl : Forall (fun y => x + 1 <= y < b) l).
    { rewrite Forall_forall in Hx, Hab |- *. intros y Hy.
      specialize (Hx y Hy). specialize (Hab y Hy). lia. }
    specialize (IH (x + 1) b Htl). lia.
Qed.

Lemma split_not_nil (sep : ascii) (s : string) : Py.split sep s <> [].
Proof.
  destruct s as [|c s]; simpl; [done|].
  destruct (Ascii.eqb c sep); [done|]. by destruct (Py.split sep s).
Qed.

Lemma valid_indices_not_nil (N : Z) (sh : shape) :
  valid N sh = true -> 0 < N /\ indices_of sh <> [].
Proof.
  unfold valid. destruct sh as [v|a b|]; simpl; intros Hv; [| |discriminate].
  - destruct (v <? 1) eqn:E1, (N <? v) eqn:E2; simpl in Hv; try discriminate.
    split; [lia|done].
  - destruct (a <? 1) eqn:E1, (N <? a) eqn:E2, (b <? 1) eqn:E3,
      (N <? b) eqn:E4, (b <? a) eqn:E5; simpl in Hv; try discriminate.
    split; [lia|]. rewrite (range_cons (a - 1) b) by lia. done.
Qed.

Lemma splitter_parse_nil_iff (e : string) (N : Z) (l : list Z) :
  PDFSplitter.parse_page_range e N = Ok l ->
  (l = [] <-> N <= 0) /\ (N <= 0 -> selects_all e = true).
Proof.
  intros H. destruct (selects_all e) eqn:Hall.
  - unfold PDFSplitter.parse_page_range in H. unfold selects_all in Hall.
    rewrite Hall in H. injection H as <-. split; [|done]. split.
    + intros Hnil. destruct (Z_le_gt_dec N 0) as [|Hpos]; [done|].
      rewrite (range_cons 0 N) in Hnil by lia. discriminate.
    + intros HN. by apply range_nil.
  - pose proof (splitter_ok_valid e N l Hall H) as Hvalid.
    rewrite splitter_all_valid in H by done. injection H as <-.
    destruct (Py.split "," e) as [|p parts] eqn:Hsplit;
      [by apply split_not_nil in Hsplit|].
    apply Forall_cons in Hvalid as [Hp _].
    apply valid_indices_not_nil in Hp as [HN Hne].
    assert (Hl : Py.sorted_set (indices_of_parts (p :: parts)) <> []).
    { destruct (indices_of (shape_of (Py.strip p))) as [|x xs] eqn:Hx;
        [done|].
      intros Hnil.
      assert (Hin : x ∈ Py.sorted_set (indices_of_parts (p :: parts))).
      { apply elem_of_sorted_set. unfold indices_of_parts. simpl.
        rewrite Hx. set_solver. }
      rewrite Hnil in Hin. by apply not_elem_of_nil in Hin. }
    split; [|lia]. split; [done|lia].
Qed.

Lemma merger_ok_wellformed (e : string) (N : Z) (l : list Z) :
  selects_all e = false ->
  PDFMerger.parse_page_range e N = Ok l ->
  Forall (fun t => malformed (shape_of t) = false) (terms e).
Proof.
  intros Hall H.
  destruct (Forall_Exists_dec
              (fun t => negb (malformed (shape_of t)) = true)
              (fun t => negb (malformed (shape_of t)) = false)
              (fun t => sumbool_of_bool _) (terms e)) as [Hf|Hex].
  - eapply Forall_impl; [exact Hf|]. intros t Ht. by apply negb_true_iff.
  - exfalso. rewrite (merger_malformed_raises e N Hall) in H; [discriminate|].
    eapply Exists_impl; [exact Hex|]. intros t Ht. by apply negb_false_iff.
Qed.

(** X1.  A list returned by the splitter's or the modifier's parser for
    a document of [N] pages only holds indices of pages of the document,
    and no more indices than the document has pages. *)
Theorem strict_parse_within_document (e : string) (N : Z) (l : list Z) :
  PDFSplitter.parse_page_range e N = Ok l
  \/ PDFModifier.parse_page_range e N = Ok l ->
  Forall (fun i => 0 <= i < N) l /\ len l <= Z.max 0 N.
Proof.
  intros H.
  assert (Hs : PDFSplitter.parse_page_range e N = Ok l).
  { destruct H as [H|H]; [done|by apply modifier_parse_ok_splitter]. }
  pose proof (splitter_parse_in_range e N l Hs) as Hr. split; [done|].
  replace N with (N - 0) at 1 by lia.
  apply sorted_in_range_length; [|done].
  apply (parsers_sorted e N). by right; left.
Qed.

Lemma strict_parse_within_document_witness :
  Forall (fun i => 0 <= i < 5) [0; 1; 3] /\ len [0; 1; 3] <= Z.max 0 5.
Proof.
  apply (strict_parse_within_document "4, 1-2" 5).
  left. vm_compute. reflexivity.
Defined.

(** X2.  The splitter's and the modifier's parser are one function: on
    every expression and page count they return the same list, or raise
    the same message about the same data. *)
Theorem strict_parsers_agree (e : string) (N : Z) :
  PDFSplitter.parse_page_range e N
  = map_raise modifier_as_splitter (PDFModifier.parse_page_range e N)
  /\ raised_kind splitter_kind (PDFSplitter.parse_page_range e N)
     = raised_kind modifier_kind (PDFModifier.parse_page_range e N).
Proof.
  rewrite parse_page_range_agree. split; [done|].
  by destruct (PDFModifier.parse_page_range e N) as [l|[b|[]]].
Qed.

(** X3.  The merger's parser accepts whatever the strict parsers accept,
    with the same list; and where it returns a list that the strict
    parsers refuse, their refusal is a bounds error: the three parsers
    differ on out-of-range and inverted terms only. *)
Theorem merger_parser_relaxes_bounds_only (e : string) (N : Z) (l : list Z) :
  (PDFSplitter.parse_page_range e N = Ok l ->
   PDFMerger.parse_page_range e N = Ok l)
  /\ (PDFMerger.parse_page_range e N = Ok l ->
      PDFSplitter.parse_page_range e N = Ok l
      \/ raised_kind splitter_kind (PDFSplitter.parse_page_range e N)
         = Some RangeBoundsError).
Proof.
  split; [apply splitter_parse_ok_merger|].
  intros H. destruct (selects_all e) eqn:Hall.
  - left. unfold PDFMerger.parse_page_range in H.
    unfold PDFSplitter.parse_page_range. unfold selects_all in Hall.
    rewrite Hall in H |- *. by injection H as <-.
  - pose proof (merger_ok_wellformed e N l Hall H) as Hwf.
    destruct (Forall_Exists_dec (fun t => valid N (shape_of t) = true)
                (fun t => valid N (shape_of t) = false)
                (fun t => sumbool_of_bool _) (terms e)) as [Hv|Hex].
    + left. apply valid_terms_parts in Hv.
      rewrite merger_all_valid in H by done. injection H as <-.
      by apply splitter_all_valid.
    + right.
      apply (first_failing (fun t => valid N (shape_of t))) in Hex
        as (pre' & t' & post' & Hterms & Hpre & Ht).
      assert (Hm : malformed (shape_of t') = false).
      { rewrite Forall_forall in Hwf. apply Hwf. rewrite Hterms. set_solver. }
      apply terms_decompose in Hterms as (pre & t & post & Hsplit & -> & ->).
      apply valid_terms_parts in Hpre.
      apply (splitter_first_invalid e N pre t post Hall Hsplit Hpre).
      unfold valid in Ht. rewrite Hm in Ht. simpl in Ht.
      by apply negb_false_iff in Ht.
Qed.

Lemma merger_parser_relaxes_bounds_only_witness :
  PDFMerger.parse_page_range "2-3" 5 = Ok [1; 2]
  /\ (PDFSplitter.parse_page_range "0,7" 5 = Ok [-1; 6]
      \/ raised_kind splitter_kind (PDFSplitter.parse_page_range "0,7" 5)
         = Some RangeBoundsError).
Proof.
  split.
  - apply (proj1 (merger_parser_relaxes_bounds_only "2-3" 5 [1; 2])).
    vm_compute. reflexivity.
  - apply (proj2 (merger_parser_relaxes_bounds_only "0,7" 5 [-1; 6])).
    vm_compute. reflexivity.
Defined.

(** X4.  A strict parse that succeeds returns the empty list exactly
    when the document has no page; and over a document without pages
    only the [all] form parses. *)
Theorem strict_parse_empty_only_without_pages (e : string) (N : Z)
    (l : list Z) :
  PDFSplitter.parse_page_range e N = Ok l
  \/ PDFModifier.parse_page_range e N = Ok l ->
  (l = [] <-> N <= 0) /\ (N <= 0 -> selects_all e = true).
Proof.
  intros H. apply splitter_parse_nil_iff.
  destruct H as [H|H]; [done|by apply modifier_parse_ok_splitter].
Qed.

Lemma strict_parse_empty_only_without_pages_witness :
  (([] : list Z) = [] <-> 0 <= 0) /\ (0 <= 0 -> selects_all " ALL" = true).
Proof.
  apply (strict_parse_empty_only_without_pages " ALL" 0 []).
  right. vm_compute. reflexivity.
Defined.

(** ** Examples of the other operations *)

Example ex_extract :
  let run := ExtractPages.extract_pages demo_world "doc.pdf" "3, 1-2" "o.pdf"
               (ExtractPages.init true) in
  fst run = Ok true
  /\ ExtractPages.files (snd run)
     = [("o.pdf", [("doc.pdf", 0); ("doc.pdf", 1); ("doc.pdf", 2)])]
  /\ map counts (ExtractPages.calls (snd run))
     = [(0, 3); (1, 3); (2, 3); (3, 3); (3, 3)].
Proof. vm_compute. repeat split. Qed.

Example ex_rotate :
  let run := RotatePages.rotate_pages demo_world "a.pdf" "2" 90 "o.pdf"
               (RotatePages.init true) in
  fst run = Ok true
  /\ RotatePages.files (snd run)
     = [("o.pdf", [(("a.pdf", 0), 0); (("a.pdf", 1), 90); (("a.pdf", 2), 0)])]
  /\ map counts (RotatePages.calls (snd run))
     = [(0, 3); (1, 3); (2, 3); (3, 3); (3, 3)].
Proof. vm_compute. repeat split. Qed.

Example ex_cli_simple :
  Cli.merge_page_ranges (Some "1-5, ,3") ["a.pdf"; "b.pdf"; "c.pdf"; "d.pdf"]
  = {[ "a.pdf" := "1-5"; "b.pdf" := EmptyString; "c.pdf" := "3";
       "d.pdf" := "all" ]}.
Proof. vm_compute. reflexivity. Qed.

Example ex_cli_specific :
  Cli.merge_page_ranges (Some "b.pdf:1-5,7,x.pdf:2,dir/a.pdf:all")
    ["dir/a.pdf"; "b.pdf"]
  = {[ "b.pdf" := "1-5"; "dir/a.pdf" := "all" ]}.
Proof. vm_compute. reflexivity. Qed.

(** ** More about [range] and the chunks *)

Lemma range_app (a b c : Z) :
  a <= b <= c -> Py.range a b ++ Py.range b c = Py.range a c.
Proof.
  intros Habc. remember (Z.to_nat (b - a)) as k eqn:Hk.
  revert a Habc Hk. induction k as [|k IH]; intros a Habc Hk.
  - assert (a = b) as -> by lia. by rewrite (range_nil b b) by lia.
  - rewrite (range_cons a b), (range_cons a c) by lia. simpl.
    f_equal. apply IH; lia.
Qed.

Lemma len_range (a b : Z) : len (Py.range a b) = Z.max 0 (b - a).
Proof. unfold len, Py.range. rewrite length_map, length_seq. lia. Qed.

Lemma len_pages_of (f : string) (l : list Z) : len (pages_of f l) = len l.
Proof. unfold len, pages_of. by rewrite length_map. Qed.

Lemma range_snoc (n : Z) : 0 <= n -> Py.range 0 (n + 1) = Py.range 0 n ++ [n].
Proof.
  intros Hn. rewrite <- (range_app 0 n (n + 1)) by lia.
  by rewrite (range_cons n (n + 1)), (range_nil (n + 1)) by lia.
Qed.

Lemma chunks_concat (p N : Z) (j : nat) :
  1 <= p -> 0 <= N ->
  concat (map (chunk p N) (Py.range 0 (Z.of_nat j)))
  = Py.range 0 (Z.min (Z.of_nat j * p) N).
Proof.
  intros Hp HN. induction j as [|j IH].
  - simpl. by rewrite range_nil by lia.
  - replace (Z.of_nat (S j)) with (Z.of_nat j + 1) by lia.
    rewrite range_snoc by lia. rewrite map_app, concat_app, IH. simpl.
    rewrite app_nil_r. unfold chunk.
    destruct (Z_le_gt_dec (Z.of_nat j * p) N) as [Hle|Hgt].
    + rewrite (Z.min_l (Z.of_nat j * p) N) by lia. apply range_app. nia.
    + rewrite (range_nil (Z.of_nat j * p)) by lia. rewrite app_nil_r.
      f_equal. nia.
Qed.

Lemma pages_of_concat (f : string) (ls : list (list Z)) :
  concat (map (pages_of f) ls) = pages_of f (concat ls).
Proof.
  unfold pages_of. induction ls as [|l ls IH]; simpl; [done|].
  by rewrite IH, map_app.
Qed.

Lemma nth_error_range (k : Z) (i : nat) (f : Z) :
  nth_error (Py.range 0 k) i = Some f -> f = Z.of_nat i /\ Z.of_nat i < k.
Proof.
  unfold Py.range. intros H. rewrite nth_error_map in H.
  destruct (nth_error (seq 0 (Z.to_nat (k - 0))) i) as [j|] eqn:Hj;
    [|discriminate]. simpl in H. injection H as <-.
  assert (Hlt : (i < length (seq 0 (Z.to_nat (k - 0))))%nat).
  { apply nth_error_Some. by rewrite Hj. }
  rewrite length_seq in Hlt.
  apply nth_error_nth with (d := 0%nat) in Hj. rewrite seq_nth in Hj by done.
  subst j. lia.
Qed.

(** ** More about the split by page count *)

(** X5.  The files written by [split_by_page_count] hold, put end to
    end, every page of the source exactly once and in order. *)
Theorem split_by_count_covers_every_page_once (w : World)
    (input_file : string) (pages_per_file : Z) (output_dir : string)
    (N : nat) (s : PDFSplitter.state) :
  path_exists w input_file = true ->
  pdf_pages w input_file = Some N ->
  1 <= pages_per_file ->
  (forall p, writable w p = true) ->
  exists output_files s' new,
    PDFSplitter.split_by_page_count w input_file pages_per_file output_dir s
    = (Ok output_files, s')
    /\ PDFSplitter.files s' = PDFSplitter.files s ++ new
    /\ concat (map snd new) = pages_of input_file (upto (Z.of_nat N)).
Proof.
  intros Hex Hpages Hp Hwr.
  destruct (split_by_page_count_run w input_file output_dir Hwr
              pages_per_file N s Hex Hpages Hp)
    as (outs & s' & new & Hrun & Hfl & Hnew & _).
  exists outs, s', new. split; [done|]. split; [done|].
  rewrite Hnew.
  destruct (ceil_div (Z.of_nat N) pages_per_file ltac:(lia) Hp) as [Hk Hk0].
  set (k := (Z.of_nat N + pages_per_file - 1) / pages_per_file) in *.
  rewrite <- (map_map (chunk pages_per_file (Z.of_nat N))
                (pages_of input_file)).
  rewrite pages_of_concat. f_equal.
  rewrite <- (Z2Nat.id k) by done.
  rewrite chunks_concat by lia. rewrite Z2Nat.id by done.
  rewrite Z.min_r by lia. apply range_0_upto.
Qed.

Lemma split_by_count_covers_every_page_once_witness :
  exists output_files s',
    PDFSplitter.split_by_page_count demo7 "doc.pdf" 3 "out"
      (PDFSplitter.init false)
    = (Ok output_files, s')
    /\ concat (map snd (PDFSplitter.files s'))
       = pages_of "doc.pdf" [0; 1; 2; 3; 4; 5; 6].
Proof.
  destruct (split_by_count_covers_every_page_once demo7 "doc.pdf" 3 "out" 7
              (PDFSplitter.init false))
    as (outs & s' & new & Hrun & Hfl & Hcat).
  - reflexivity.
  - reflexivity.
  - lia.
  - reflexivity.
  - exists outs, s'. split; [exact Hrun|].
    simpl in Hfl. rewrite Hfl. exact Hcat.
Defined.

(** X6.  File [i] written by [split_by_page_count], counting from 0,
    holds [min pages_per_file (N - i * pages_per_file)] pages: never
    none, never more than [pages_per_file], and fewer only in the last
    file. *)
Theorem split_by_count_file_sizes (w : World) (input_file : string)
    (pages_per_file : Z) (output_dir : string) (N : nat)
    (s : PDFSplitter.state) :
  path_exists w input_file = true ->
  pdf_pages w input_file = Some N ->
  1 <= pages_per_file ->
  (forall p, writable w p = true) ->
  exists output_files s' new,
    PDFSplitter.split_by_page_count w input_file pages_per_file output_dir s
    = (Ok output_files, s')
    /\ PDFSplitter.files s' = PDFSplitter.files s ++ new
    /\ forall (i : nat) file,
         nth_error new i = Some file ->
         len (snd file)
         = Z.min pages_per_file (Z.of_nat N - Z.of_nat i * pages_per_file)
         /\ 1 <= len (snd file) <= pages_per_file.
Proof.
  intros Hex Hpages Hp Hwr.
  destruct (split_by_page_count_run w input_file output_dir Hwr
              pages_per_file N s Hex Hpages Hp)
    as (outs & s' & new & Hrun & Hfl & Hnew & _).
  exists outs, s', new. split; [done|]. split; [done|].
  intros i file Hi.
  destruct (ceil_div (Z.of_nat N) pages_per_file ltac:(lia) Hp) as [Hk Hk0].
  set (k := (Z.of_nat N + pages_per_file - 1) / pages_per_file) in *.
  assert (Hplan : nth_error (map snd new) i = Some (snd file))
    by (by rewrite nth_error_map, Hi).
  rewrite Hnew, nth_error_map in Hplan.
  destruct (nth_error (Py.range 0 k) i) as [f|] eqn:Hf; [|discriminate].
  simpl in Hplan. injection Hplan as <-.
  apply nth_error_range in Hf as [-> Hik].
  rewrite len_pages_of. unfold chunk. rewrite len_range. nia.
Qed.

Lemma split_by_count_file_sizes_witness :
  exists output_files s',
    PDFSplitter.split_by_page_count demo7 "doc.pdf" 3 "out"
      (PDFSplitter.init false)
    = (Ok output_files, s')
    /\ forall (i : nat) file,
         nth_error (PDFSplitter.files s') i = Some file ->
         len (snd file) = Z.min 3 (7 - Z.of_nat i * 3)
         /\ 1 <= len (snd file) <= 3.
Proof.
  destruct (split_by_count_file_sizes demo7 "doc.pdf" 3 "out" 7
              (PDFSplitter.init false))
    as (outs & s' & new & Hrun & Hfl & Hsizes).
  - reflexivity.
  - reflexivity.
  - lia.
  - reflexivity.
  - exists outs, s'. split; [exact Hrun|].
    simpl in Hfl. rewrite Hfl. exact Hsizes.
Defined.

(** X7.  With every output path writable, [split_by_page_count] ends
    well exactly when the source exists, [pages_per_file] is at least 1
    and the source opens; when it does not, it leaves the state as it
    was, and a source that exists with [pages_per_file < 1] gives the
    invalid-chunk-size error. *)
Theorem split_by_count_outcome (w : World) (input_file : string)
    (pages_per_file : Z) (output_dir : string) (s : PDFSplitter.state) :
  (forall p, writable w p = true) ->
  let run := PDFSplitter.split_by_page_count w input_file pages_per_file
               output_dir s in
  is_ok (fst run)
  = path_exists w input_file && (1 <=? pages_per_file)
    && bool_decide (is_Some (pdf_pages w input_file))
  /\ (is_ok (fst run) = false -> snd run = s)
  /\ (path_exists w input_file = true -> pages_per_file < 1 ->
      raised_kind splitter_kind (fst run) = Some InvalidChunkSizeError).
Proof.
  intros Hwr run. unfold run.
  destruct (path_exists w input_file) eqn:Hex.
  - destruct (Z_le_gt_dec 1 pages_per_file) as [Hp|Hp].
    + destruct (pdf_pages w input_file) as [N|] eqn:Hpages.
      * destruct (split_by_page_count_run w input_file output_dir Hwr
                    pages_per_file N s Hex Hpages Hp)
          as (outs & s' & new & Hrun & _).
        rewrite Hrun. simpl.
        destruct (1 <=? pages_per_file) eqn:E; [|lia].
        split; [done|]. split; [discriminate|lia].
      * unfold PDFSplitter.split_by_page_count. rewrite Hex. simpl.
        destruct (pages_per_file <? 1) eqn:E; [lia|].
        unfold try_except, bind, PDFSplitter.PdfReader. rewrite Hpages.
        simpl. destruct (1 <=? pages_per_file) eqn:E'; [|lia].
        split; [done|]. split; [done|lia].
    + unfold PDFSplitter.split_by_page_count. rewrite Hex. simpl.
      destruct (pages_per_file <? 1) eqn:E; [|lia]. simpl.
      destruct (1 <=? pages_per_file) eqn:E'; [lia|]. done.
  - unfold PDFSplitter.split_by_page_count. rewrite Hex. simpl. done.
Qed.

Lemma split_by_count_outcome_witness :
  raised_kind splitter_kind
    (fst (PDFSplitter.split_by_page_count demo7 "doc.pdf" 0 "out"
            (PDFSplitter.init true)))
  = Some InvalidChunkSizeError.
Proof.
  apply (split_by_count_outcome demo7 "doc.pdf" 0 "out"
           (PDFSplitter.init true)).
  - reflexivity.
  - reflexivity.
  - lia.
Defined.

(** ** More about the split by ranges *)

Section SplitByRangesMore.
Import PDFSplitter.
Variable w : World.
Variable input_file output_dir : string.
Hypothesis all_writable : forall p, writable w p = true.

(** The loop up to an expression that does not parse. *)
Lemma ranges_loop_stops (N n : Z) (base_name : string) (pre : list string)
    (r : string) (post : list string) (e : exn) :
  Forall (fun r => is_ok (parse_page_range r N) = true) pre ->
  parse_page_range r N = Raise e ->
  forall output_files i s, exists s' new,
    ranges_loop w input_file output_dir N n base_name output_files i
      (pre ++ r :: post) s
    = (Raise e, s')
    /\ files s' = files s ++ new
    /\ map snd new
       = map (pages_of input_file)
           (filter (fun l => l <> []) (map (split_resolved N) pre)).
Proof.
  intros Hpre Hr. induction Hpre as [|q pre Hq Hpre IH];
    intros output_files i s.
  - exists s, []. simpl. unfold bind, lift. rewrite Hr.
    by rewrite app_nil_r.
  - simpl. unfold bind at 1, lift.
    destruct (parse_page_range q N) as [pages|] eqn:Hparse; [|discriminate].
    assert (Hres : split_resolved N q = pages)
      by (unfold split_resolved; by rewrite Hparse).
    rewrite Hres.
    destruct (bool_decide (pages = [])) eqn:Hempty.
    + apply bool_decide_eq_true in Hempty.
      destruct (IH output_files (i + 1) s) as (s' & new & Hrun & Hfl & Hnew).
      exists s', new. rewrite filter_cons_False by (intros ?; done). done.
    + apply bool_decide_eq_false in Hempty.
      rewrite filter_cons_True by done.
      unfold bind at 1, lift.
      rewrite (splitter_add_pages_ok input_file N pages)
        by (by apply (splitter_parse_in_range q)).
      unfold bind at 1. rewrite (write_output_run w all_writable).
      match goal with
      | |- context [bind (_update_progress ?c ?t ?m) _ ?st] =>
          destruct (splitter_progress_run c t m st) as (s2 & Hup & _ & Hf2)
      end.
      match goal with
      | |- context [ranges_loop _ _ _ _ _ _ ?outs _ (pre ++ r :: post)] =>
          destruct (IH outs (i + 1) s2) as (s' & new & Hrun & Hfl & Hnew)
      end.
      eexists s', (_ :: new).
      split; [erewrite bind_run; [exact Hrun|exact Hup]|].
      rewrite Hfl, Hf2. simpl. split; [by rewrite <- app_assoc|].
      by rewrite Hnew.
Qed.

Lemma split_by_ranges_stops (N : nat) (pre : list string) (r : string)
    (post : list string) (e : exn) (s : state) :
  path_exists w input_file = true ->
  pdf_pages w input_file = Some N ->
  Forall (fun r => is_ok (parse_page_range r (Z.of_nat N)) = true) pre ->
  parse_page_range r (Z.of_nat N) = Raise e ->
  exists s' new,
    split_by_ranges w input_file (pre ++ r :: post) output_dir s
    = (Raise (Custom (Failed_to_split e)), s')
    /\ files s' = files s ++ new
    /\ map snd new
       = map (pages_of input_file)
           (filter (fun l => l <> [])
              (map (split_resolved (Z.of_nat N)) pre)).
Proof.
  intros Hex Hpages Hpre Hr.
  set (ranges := pre ++ r :: post).
  destruct (splitter_progress_run 0 (len ranges) Splitting_PDF_by_ranges s)
    as (s1 & Hup1 & _ & Hf1).
  destruct (ranges_loop_stops (Z.of_nat N) (len ranges)
              (Py.splitext_root (Py.basename input_file)) pre r post e
              Hpre Hr [] 0 s1)
    as (s2 & new & Hloop & Hf2 & Hnew).
  exists s2, new. split; [|split].
  - unfold split_by_ranges. rewrite Hex. simpl.
    destruct (bool_decide (ranges = [])) eqn:E.
    { apply bool_decide_eq_true in E. unfold ranges in E.
      by destruct pre. }
    unfold try_except. unfold bind at 1, PdfReader. rewrite Hpages.
    unfold ret.
    unfold bind at 1. rewrite (makedirs_run w output_dir all_writable).
    cbv zeta. unfold bind at 1. rewrite Hup1.
    unfold bind at 1. unfold ranges in *. rewrite Hloop. reflexivity.
  - by rewrite Hf2, Hf1.
  - exact Hnew.
Qed.

End SplitByRangesMore.

(** X8.  Over a source that has pages, [split_by_ranges] passes over no
    expression: given expressions that all parse, it writes one file per
    expression, in order, each holding the pages the expression resolves
    to. *)
Theorem split_by_ranges_one_file_per_expression (w : World)
    (input_file output_dir : string) (N : nat) (ranges : list string)
    (s : PDFSplitter.state) :
  path_exists w input_file = true ->
  pdf_pages w input_file = Some N ->
  (0 < N)%nat ->
  ranges <> [] ->
  (forall p, writable w p = true) ->
  Forall (fun r => is_ok (PDFSplitter.parse_page_range r (Z.of_nat N)) = true)
    ranges ->
  exists output_files s' new,
    PDFSplitter.split_by_ranges w input_file ranges output_dir s
    = (Ok output_files, s')
    /\ PDFSplitter.files s' = PDFSplitter.files s ++ new
    /\ map snd new
       = map (fun r => pages_of input_file (split_resolved (Z.of_nat N) r))
           ranges
    /\ len output_files = len ranges.
Proof.
  intros Hex Hpages HN Hne Hwr Hok.
  destruct (split_by_ranges_run w input_file output_dir Hwr N ranges s
              Hex Hpages Hne Hok)
    as (outs & s' & new & Hrun & Hfl & Hnew & Hlen).
  assert (Hfilter : filter (fun l => l <> [])
                      (map (split_resolved (Z.of_nat N)) ranges)
                    = map (split_resolved (Z.of_nat N)) ranges).
  { clear -HN Hok. induction Hok as [|r rs Hr Hrs IH]; [done|]. simpl.
    rewrite filter_cons_True, IH; [done|].
    unfold split_resolved.
    destruct (PDFSplitter.parse_page_range r (Z.of_nat N)) as [l|] eqn:Hp;
      [|discriminate].
    intros ->. apply splitter_parse_nil_iff in Hp as [[Hp _] _].
    specialize (Hp eq_refl). lia. }
  rewrite Hfilter in Hnew.
  exists outs, s', new. split; [done|]. split; [done|]. split.
  - by rewrite Hnew, map_map.
  - rewrite Hlen. unfold len.
    rewrite <- (length_map snd new), Hnew, !length_map. done.
Qed.

Lemma split_by_ranges_one_file_per_expression_witness :
  exists output_files s',
    PDFSplitter.split_by_ranges demo_world "doc.pdf" ["9"; "all"; "9"] "out"
      (PDFSplitter.init false)
    = (Ok output_files, s')
    /\ map snd (PDFSplitter.files s')
       = [pages_of "doc.pdf" [8]; pages_of "doc.pdf" (upto 10);
          pages_of "doc.pdf" [8]]
    /\ len output_files = 3.
Proof.
  destruct (split_by_ranges_one_file_per_expression demo_world "doc.pdf"
              "out" 10 ["9"; "all"; "9"] (PDFSplitter.init false))
    as (outs & s' & new & Hrun & Hfl & Hnew & Hlen).
  - reflexivity.
  - reflexivity.
  - lia.
  - discriminate.
  - reflexivity.
  - repeat constructor.
  - exists outs, s'. split; [exact Hrun|].
    simpl in Hfl. rewrite Hfl. split; [exact Hnew|exact Hlen].
Defined.

(** X9.  [split_by_ranges] stops at the first expression that does not
    parse, with that expression's error wrapped in a failed-to-split
    error; the files of the expressions before it have been written and
    stay, and nothing is written for the ones after it. *)
Theorem split_by_ranges_keeps_earlier_files (w : World)
    (input_file output_dir : string) (N : nat) (pre : list string)
    (r : string) (post : list string) (e : PDFSplitter.exn)
    (s : PDFSplitter.state) :
  path_exists w input_file = true ->
  pdf_pages w input_file = Some N ->
  (forall p, writable w p = true) ->
  Forall (fun r => is_ok (PDFSplitter.parse_page_range r (Z.of_nat N)) = true)
    pre ->
  PDFSplitter.parse_page_range r (Z.of_nat N) = Raise e ->
  exists s' new,
    PDFSplitter.split_by_ranges w input_file (pre ++ r :: post) output_dir s
    = (Raise (PDFSplitter.Custom (PDFSplitter.Failed_to_split e)), s')
    /\ PDFSplitter.files s' = PDFSplitter.files s ++ new
    /\ map snd new
       = map (pages_of input_file)
           (filter (fun l => l <> [])
              (map (split_resolved (Z.of_nat N)) pre)).
Proof.
  intros Hex Hpages Hwr Hpre Hr.
  by apply (split_by_ranges_stops w input_file output_dir Hwr N pre r post e).
Qed.

Lemma split_by_ranges_keeps_earlier_files_witness :
  exists s',
    PDFSplitter.split_by_ranges demo_world "doc.pdf" ["1-5"; "99"; "6-10"]
      "out" (PDFSplitter.init false)
    = (Raise (PDFSplitter.Custom
                (PDFSplitter.Failed_to_split
                   (PDFSplitter.Custom
                      (PDFSplitter.Invalid_page_number 99 10)))), s')
    /\ map snd (PDFSplitter.files s')
       = [pages_of "doc.pdf" [0; 1; 2; 3; 4]].
Proof.
  destruct (split_by_ranges_keeps_earlier_files demo_world "doc.pdf" "out"
              10 ["1-5"] "99" ["6-10"]
              (PDFSplitter.Custom (PDFSplitter.Invalid_page_number 99 10))
              (PDFSplitter.init false))
    as (s' & new & Hrun & Hfl & Hnew).
  - reflexivity.
  - reflexivity.
  - reflexivity.
  - repeat constructor.
  - vm_compute. reflexivity.
  - exists s'. split; [exact Hrun|]. simpl in Hfl. rewrite Hfl. exact Hnew.
Defined.

(** ** Computations that keep a relation between states *)

Section Preserves.
Context {S E : Type} (P : S -> S -> Prop).
Hypothesis P_refl : forall s, P s s.
Hypothesis P_trans : forall s1 s2 s3, P s1 s2 -> P s2 s3 -> P s1 s3.

Lemma preserves_ret {A} (a : A) : preserves P (ret a : M S E A).
Proof. intros s r s' [= _ <-]. apply P_refl. Qed.

Lemma preserves_raise {A} (e : E) : preserves P (raise e : M S E A).
Proof. intros s r s' [= _ <-]. apply P_refl. Qed.

Lemma preserves_lift {A} (x : result E A) : preserves P (lift x : M S E A).
Proof. intros s r s' [= _ <-]. apply P_refl. Qed.

Lemma preserves_bind {A B} (m : M S E A) (k : A -> M S E B) :
  preserves P m -> (forall a, preserves P (k a)) -> preserves P (bind m k).
Proof.
  intros Hm Hk s r s'. unfold bind.
  destruct (m s) as [[a|e] s1] eqn:Hrun.
  - intros Hrest. eapply P_trans; [by eapply Hm|by eapply Hk].
  - intros [= _ <-]. by eapply Hm.
Qed.

Lemma preserves_try_except {A} (m : M S E A) (h : E -> M S E A) :
  preserves P m -> (forall e, preserves P (h e)) ->
  preserves P (try_except m h).
Proof.
  intros Hm Hh s r s'. unfold try_except.
  destruct (m s) as [[a|e] s1] eqn:Hrun.
  - intros [= _ <-]. by eapply Hm.
  - intros Hrest. eapply P_trans; [by eapply Hm|by eapply Hh].
Qed.

Lemma preserves_for_enumerate {A} (body : Z -> A -> M S E unit)
    (l : list A) :
  (forall i x, preserves P (body i x)) ->
  forall i, preserves P (for_enumerate i l body).
Proof.
  intros Hbody. induction l as [|x l IH]; intros i; simpl.
  - apply preserves_ret.
  - apply preserves_bind; [apply Hbody|]. intros _. apply IH.
Qed.

End Preserves.

(** ** More about the merge *)

Section MergerMore.
Import PDFMerger.
Variable w : World.
Variable page_ranges : option (gmap string string).

Lemma validate_pdf_run (f : string) (s : state) :
  exists r,
    validate_pdf w f s = (r, s)
    /\ (passes_validation w f = true -> r = Ok true)
    /\ (passes_validation w f = false ->
        exists m, r = Raise (Custom m) /\ validation_message f m).
Proof.
  unfold validate_pdf, passes_validation, validation_message,
    try_except, bind, PdfReader, raise, ret.
  destruct (path_exists w f); simpl.
  2: { eexists. split; [reflexivity|]. split; [discriminate|]. eauto. }
  destruct (Py.endswith (Py.lower f) ".pdf"); simpl.
  2: { eexists. split; [reflexivity|]. split; [discriminate|]. eauto. }
  destruct (pdf_pages w f) as [[|n]|]; simpl.
  - eexists. split; [reflexivity|]. split; [discriminate|]. eauto 6.
  - eexists. split; [reflexivity|]. split; [done|discriminate].
  - eexists. split; [reflexivity|]. split; [discriminate|]. eauto 6.
Qed.

Lemma merger_frame_refl (s : state) : merger_frame s s.
Proof. by repeat split. Qed.

Lemma merger_frame_trans (s1 s2 s3 : state) :
  merger_frame s1 s2 -> merger_frame s2 s3 -> merger_frame s1 s3.
Proof.
  intros (Hf1 & Hc1 & Hw1) (Hf2 & Hc2 & Hw2).
  split; [congruence|]. split; [congruence|auto].
Qed.

Lemma frame_update_progress (c t : Z) (m : Message) :
  preserves merger_frame (_update_progress c t m).
Proof.
  intros s r s' H.
  destruct (merger_progress_run c t m s) as (s2 & Hrun & Hcb & _ & Hw & Hf).
  rewrite Hrun in H. injection H as _ <-.
  split; [done|]. split; [done|]. by rewrite Hw.
Qed.

Lemma frame_validate_pdf (f : string) :
  preserves merger_frame (validate_pdf w f).
Proof.
  intros s r s' H. apply validate_pdf_frame in H as ->.
  apply merger_frame_refl.
Qed.

Lemma frame_add_pages (f : string) (n : Z) (l : list Z) :
  forall tp, preserves merger_frame (add_pages f n tp l).
Proof.
  induction l as [|i l IH]; intros tp; simpl.
  - apply preserves_ret, merger_frame_refl.
  - apply (preserves_bind _ merger_frame_trans).
    + apply preserves_lift, merger_frame_refl.
    + intros p. apply (preserves_bind _ merger_frame_trans); [|by intros].
      intros s r s' [= _ <-]. repeat split; simpl.
      intros [ps Hps]. rewrite Hps. by eexists.
Qed.

Lemma frame_merge_loop (n : Z) (fs : list string) :
  forall i tp, preserves merger_frame (merge_loop w page_ranges n i tp fs).
Proof.
  induction fs as [|f fs IH]; intros i tp; simpl.
  - apply preserves_ret, merger_frame_refl.
  - apply (preserves_bind _ merger_frame_trans).
    { unfold PdfReader. destruct (pdf_pages w f).
      - apply preserves_ret, merger_frame_refl.
      - apply preserves_raise, merger_frame_refl. }
    intros num_pages. apply (preserves_bind _ merger_frame_trans).
    { intros s r s' H. rewrite pages_for_run in H. injection H as _ <-.
      apply merger_frame_refl. }
    intros pages. apply (preserves_bind _ merger_frame_trans).
    { apply frame_add_pages. }
    intros tp'. apply (preserves_bind _ merger_frame_trans).
    { apply frame_update_progress. }
    intros _. apply IH.
Qed.

Lemma attempts_none_refl (s : state) : merger_attempts_none s s.
Proof. done. Qed.

Lemma attempts_none_trans (s1 s2 s3 : state) :
  merger_attempts_none s1 s2 -> merger_attempts_none s2 s3 ->
  merger_attempts_none s1 s3.
Proof. unfold merger_attempts_none. congruence. Qed.

Lemma attempts_update_progress (c t : Z) (m : Message) :
  preserves merger_attempts_none (_update_progress c t m).
Proof.
  intros s r s' [= _ <-]. unfold merger_attempts_none.
  by destruct (progress_callback s).
Qed.

Lemma attempts_validate_pdf (f : string) :
  preserves merger_attempts_none (validate_pdf w f).
Proof. intros s r s' H. by apply validate_pdf_frame in H as ->. Qed.

Lemma attempts_add_pages (f : string) (n : Z) (l : list Z) :
  forall tp, preserves merger_attempts_none (add_pages f n tp l).
Proof.
  induction l as [|i l IH]; intros tp; simpl.
  - apply preserves_ret, attempts_none_refl.
  - apply (preserves_bind _ attempts_none_trans).
    + apply preserves_lift, attempts_none_refl.
    + intros p. apply (preserves_bind _ attempts_none_trans); [|by intros].
      by intros s r s' [= _ <-].
Qed.

Lemma attempts_merge_loop (n : Z) (fs : list string) :
  forall i tp,
  preserves merger_attempts_none (merge_loop w page_ranges n i tp fs).
Proof.
  induction fs as [|f fs IH]; intros i tp; simpl.
  - apply preserves_ret, attempts_none_refl.
  - apply (preserves_bind _ attempts_none_trans).
    { unfold PdfReader. destruct (pdf_pages w f).
      - apply preserves_ret, attempts_none_refl.
      - apply preserves_raise, attempts_none_refl. }
    intros num_pages. apply (preserves_bind _ attempts_none_trans).
    { intros s r s' H. rewrite pages_for_run in H. by injection H as _ <-. }
    intros pages. apply (preserves_bind _ attempts_none_trans).
    { apply attempts_add_pages. }
    intros tp'. apply (preserves_bind _ attempts_none_trans).
    { apply attempts_update_progress. }
    intros _. apply IH.
Qed.

Lemma attempts_validate_loop (n : Z) (fs : list string) (i : Z) :
  preserves merger_attempts_none
    (for_enumerate i fs (fun i file_path =>
       validate_pdf w file_path ;;
       _update_progress (i + 1) n (Validated (Py.basename file_path)))).
Proof.
  apply (preserves_for_enumerate _ attempts_none_refl attempts_none_trans).
  intros j f. apply (preserves_bind _ attempts_none_trans).
  - apply attempts_validate_pdf.
  - intros _. apply attempts_update_progress.
Qed.

(** What is inside the [try] of [merge_pdfs], from a state with a
    writer. *)
Lemma merge_body_outcome (n : Z) (input_files : list string)
    (output_file : string) (s : state) r s' :
  is_Some (writer s) ->
  (let* total_pages := merge_loop w page_ranges n 0 0 input_files in
   _update_progress n n Writing_merged_PDF ;;
   write_output w output_file ;;
   _update_progress n n (Successfully_merged n total_pages) ;;
   ret true) s = (r, s') ->
  match r with
  | Ok b =>
      b = true
      /\ (exists plan, writer s' = Some plan
                       /\ files s' = files s ++ [(output_file, plan)])
      /\ failed_writes s' = failed_writes s
  | Raise _ =>
      files s' = files s
      /\ (failed_writes s' = failed_writes s
          \/ (writable w output_file = false
              /\ failed_writes s' = failed_writes s ++ [output_file]))
  end.
Proof.
  intros Hw H. unfold bind at 1 in H.
  destruct (merge_loop w page_ranges n 0 0 input_files s) as [[tp|e] s1]
    eqn:Hloop;
    pose proof (attempts_merge_loop n input_files 0 0 _ _ _ Hloop) as Ha1;
    apply frame_merge_loop in Hloop as (Hf1 & _ & Hw1);
    unfold merger_attempts_none in Ha1.
  2: { injection H as <- <-. auto. }
  destruct (Hw1 Hw) as [plan Hplan].
  destruct (merger_progress_run n n Writing_merged_PDF s1)
    as (s2 & Hup2 & _ & _ & Hw2 & Hf2).
  pose proof (attempts_update_progress _ _ _ _ _ _ Hup2) as Ha2.
  unfold merger_attempts_none in Ha2.
  unfold bind at 1 in H. rewrite Hup2 in H.
  unfold bind at 1, write_output in H.
  destruct (writable w output_file).
  2: { unfold bind, modify, raise in H. injection H as <- <-. simpl.
       split; [congruence|]. right. split; [done|]. congruence. }
  unfold modify in H.
  match type of H with context [bind (_update_progress ?c ?t ?m) _ ?st] =>
    destruct (merger_progress_run c t m st) as (s4 & Hup4 & _ & _ & Hw4 & Hf4);
    pose proof (attempts_update_progress _ _ _ _ _ _ Hup4) as Ha4
  end.
  unfold merger_attempts_none in Ha4.
  unfold bind at 1 in H. rewrite Hup4 in H. injection H as <- <-.
  simpl in *. split; [done|]. split; [|congruence].
  exists plan. rewrite Hw4, Hf4, Hw2, Hf2, Hplan, Hf1. done.
Qed.

(** The validation loop up to a source that does not pass. *)
Lemma validate_loop_stops (n : Z) (pre : list string) (f : string)
    (post : list string) :
  Forall (fun g => passes_validation w g = true) pre ->
  passes_validation w f = false ->
  forall i s, exists m s' evs,
    for_enumerate i (pre ++ f :: post) (fun i file_path =>
      validate_pdf w file_path ;;
      _update_progress (i + 1) n (Validated (Py.basename file_path))) s
    = (Raise (Custom m), s')
    /\ validation_message f m
    /\ writer s' = writer s /\ files s' = files s
    /\ calls s' = calls s ++ evs
    /\ map counts evs
       = if progress_callback s then one_per_source n i pre else [].
Proof.
  intros Hpre Hf. induction Hpre as [|g pre Hg Hpre IH]; intros i s.
  - destruct (validate_pdf_run f s) as (r & Hrun & _ & Hbad).
    destruct (Hbad Hf) as (m & -> & Hm).
    exists m, s, []. simpl. unfold bind at 1. unfold bind at 1.
    rewrite Hrun. rewrite app_nil_r, one_per_source_nil.
    repeat split; try done. by destruct (progress_callback s).
  - destruct (validate_pdf_run g s) as (r & Hrun & Hgood & _).
    rewrite (Hgood Hg) in Hrun.
    destruct (merger_progress_run (i + 1) n (Validated (Py.basename g)) s)
      as (s2 & Hup & Hcb2 & Hc2 & Hw2 & Hf2).
    destruct (IH (i + 1) s2) as (m & s' & evs & Hloop & Hm & Hw & Hfl & Hc & Hev).
    exists m, s'. eexists (_ ++ evs). split.
    { simpl. erewrite bind_run; [exact Hloop|].
      erewrite bind_run; [exact Hup|exact Hrun]. }
    split; [done|]. split; [congruence|]. split; [congruence|].
    split; [by rewrite Hc, Hc2, <- app_assoc|].
    rewrite map_app, Hev, Hcb2, one_per_source_cons.
    by destruct (progress_callback s).
Qed.

End MergerMore.

Section MergerOutcome.
Import PDFMerger.
Variable w : World.
Variable page_ranges : option (gmap string string).

Lemma frame_validate_loop (n : Z) (fs : list string) (i : Z) :
  preserves merger_frame
    (for_enumerate i fs (fun i file_path =>
       validate_pdf w file_path ;;
       _update_progress (i + 1) n (Validated (Py.basename file_path)))).
Proof.
  apply (preserves_for_enumerate _ merger_frame_refl merger_frame_trans).
  intros j f. apply (preserves_bind _ merger_frame_trans).
  - apply frame_validate_pdf.
  - intros _. apply frame_update_progress.
Qed.

Lemma validate_loop_raises_custom (n : Z) (fs : list string) :
  forall i s e s',
  for_enumerate i fs (fun i file_path =>
    validate_pdf w file_path ;;
    _update_progress (i + 1) n (Validated (Py.basename file_path))) s
  = (Raise e, s') ->
  exists m, e = Custom m.
Proof.
  induction fs as [|f fs IH]; intros i s e s' H; simpl in H;
    [discriminate|].
  unfold bind at 1 in H. unfold bind at 1 in H.
  destruct (validate_pdf_run w f s) as (r & Hrun & Hgood & Hbad).
  rewrite Hrun in H. destruct (passes_validation w f).
  - rewrite (Hgood eq_refl) in H.
    destruct (merger_progress_run (i + 1) n (Validated (Py.basename f)) s)
      as (s2 & Hup & _).
    rewrite Hup in H. by apply IH in H.
  - destruct (Hbad eq_refl) as (m & -> & _). injection H as <- _. by exists m.
Qed.

Lemma merge_pdfs_outcome (input_files : list string) (output_file : string)
    (s : state) r s' :
  merge_pdfs w input_files output_file page_ranges s = (r, s') ->
  match r with
  | Ok b =>
      b = true
      /\ (exists plan, writer s' = Some plan
                       /\ files s' = files s ++ [(output_file, plan)])
      /\ failed_writes s' = failed_writes s
  | Raise e =>
      files s' = files s
      /\ (exists m, e = Custom m)
      /\ (failed_writes s' = failed_writes s
          \/ (writable w output_file = false
              /\ (exists cause, e = Custom (Failed_to_merge cause))
              /\ failed_writes s' = failed_writes s ++ [output_file]))
  end.
Proof.
  intros H. unfold merge_pdfs in H. set (n := len input_files) in *.
  destruct (bool_decide (input_files = []));
    [injection H as <- <-; eauto|].
  destruct (n <? 2); [injection H as <- <-; eauto|].
  destruct (merger_progress_run 0 n Validating_PDF_files s)
    as (s1 & Hup1 & _ & _ & _ & Hf1).
  pose proof (attempts_update_progress _ _ _ _ _ _ Hup1) as Ha1.
  unfold bind at 1 in H. rewrite Hup1 in H.
  unfold bind at 1 in H.
  match type of H with context [for_enumerate 0 input_files ?body s1] =>
    destruct (for_enumerate 0 input_files body s1) as [[[]|e] s2] eqn:Hval
  end;
    pose proof (attempts_validate_loop w n input_files 0 _ _ _ Hval) as Ha2;
    unfold merger_attempts_none in Ha1, Ha2.
  2: { injection H as <- <-.
       pose proof (frame_validate_loop n input_files 0 _ _ _ Hval)
         as (Hf2 & _).
       split; [congruence|].
       split; [by apply validate_loop_raises_custom in Hval|].
       left. congruence. }
  apply frame_validate_loop in Hval as (Hf2 & _).
  unfold bind at 1, new_writer, modify in H.
  match type of H with context [bind (_update_progress ?c ?t ?m) _ ?st] =>
    destruct (merger_progress_run c t m st) as (s4 & Hup4 & _ & _ & Hw4 & Hf4);
    pose proof (attempts_update_progress _ _ _ _ _ _ Hup4) as Ha4
  end.
  unfold merger_attempts_none in Ha4.
  unfold bind at 1 in H. rewrite Hup4 in H. simpl in Hw4, Hf4, Ha4.
  unfold try_except in H.
  match type of H with context [match ?body s4 with _ => _ end] =>
    destruct (body s4) as [[b|e] s5] eqn:Hbody
  end.
  - injection H as <- <-.
    apply merge_body_outcome in Hbody
      as (-> & (plan & Hplan & Hfiles) & Ha5);
      [|rewrite Hw4; by eexists].
    split; [done|]. split; [|congruence].
    exists plan. split; [done|]. congruence.
  - injection H as <- <-.
    apply merge_body_outcome in Hbody as (Hfiles & Ha5);
      [|rewrite Hw4; by eexists].
    split; [congruence|]. split; [eauto|].
    destruct Ha5 as [Ha5|(Hwr & Ha5)].
    + left. congruence.
    + right. split; [done|]. split; [eauto|]. congruence.
Qed.

End MergerOutcome.

(** X10.  [validate_pdf] never returns [False]: it returns [True] for
    a file that exists, whose name ends in [.pdf] whatever the case, and
    that opens with at least one page, and raises for any other; what it
    raises is one of its three messages about that file, an empty
    document being reported as invalid or corrupted.  It changes
    nothing. *)
Theorem validate_pdf_passes_or_raises (w : World) (file_path : string)
    (s : PDFMerger.state) :
  let run := PDFMerger.validate_pdf w file_path s in
  snd run = s
  /\ (passes_validation w file_path = true -> fst run = Ok true)
  /\ (passes_validation w file_path = false ->
      exists m, fst run = Raise (PDFMerger.Custom m)
                /\ validation_message file_path m)
  /\ (pdf_pages w file_path = Some 0%nat ->
      path_exists w file_path = true ->
      Py.endswith (Py.lower file_path) ".pdf" = true ->
      fst run
      = Raise (PDFMerger.Custom
                 (PDFMerger.Invalid_or_corrupted file_path
                    (PDFMerger.Custom
                       (PDFMerger.PDF_file_is_empty file_path))))).
Proof.
  cbv zeta. destruct (validate_pdf_run w file_path s) as (r & Hrun & Hok & Hbad).
  rewrite Hrun. simpl. split; [done|]. split; [done|]. split; [done|].
  intros H0 Hex Hpdf. clear Hok Hbad.
  unfold PDFMerger.validate_pdf, try_except, bind, PDFMerger.PdfReader,
    raise, ret in Hrun.
  rewrite Hex, Hpdf, H0 in Hrun. simpl in Hrun. by injection Hrun as <-.
Qed.

Lemma validate_pdf_passes_or_raises_witness :
  fst (PDFMerger.validate_pdf demo_world "Report.PDF" (PDFMerger.init true))
  = Ok true
  /\ fst (PDFMerger.validate_pdf demo_blank "a.pdf" (PDFMerger.init true))
     = Raise (PDFMerger.Custom
                (PDFMerger.Invalid_or_corrupted "a.pdf"
                   (PDFMerger.Custom (PDFMerger.PDF_file_is_empty "a.pdf")))).
Proof.
  split.
  - apply (validate_pdf_passes_or_raises demo_world "Report.PDF"
             (PDFMerger.init true)).
    reflexivity.
  - apply (validate_pdf_passes_or_raises demo_blank "a.pdf"
             (PDFMerger.init true)); reflexivity.
Defined.

(** X11.  [merge_pdfs] validates every source before it reads a page:
    when a source does not pass validation and those before it do, the
    merge ends with that source's validation error, the writer and the
    files are as they were, and the callback has received the opening
    notification and one notification per source validated. *)
Theorem merge_stops_at_first_invalid_source (w : World)
    (pre : list string) (f : string) (post : list string)
    (output_file : string) (page_ranges : option (gmap string string))
    (s : PDFMerger.state) :
  2 <= len (pre ++ f :: post) ->
  Forall (fun g => passes_validation w g = true) pre ->
  passes_validation w f = false ->
  let n := len (pre ++ f :: post) in
  exists m s' evs,
    PDFMerger.merge_pdfs w (pre ++ f :: post) output_file page_ranges s
    = (Raise (PDFMerger.Custom m), s')
    /\ validation_message f m
    /\ PDFMerger.writer s' = PDFMerger.writer s
    /\ PDFMerger.files s' = PDFMerger.files s
    /\ PDFMerger.calls s' = PDFMerger.calls s ++ evs
    /\ map counts evs
       = if PDFMerger.progress_callback s
         then (0, n) :: one_per_source n 0 pre else [].
Proof.
  intros Hlen Hpre Hf n.
  destruct (merger_progress_run 0 n PDFMerger.Validating_PDF_files s)
    as (s1 & Hup1 & Hcb1 & Hc1 & Hw1 & Hf1).
  destruct (validate_loop_stops w n pre f post Hpre Hf 0 s1)
    as (m & s' & evs & Hloop & Hm & Hw & Hfl & Hc & Hev).
  exists m, s'. eexists (_ ++ evs). split.
  { unfold PDFMerger.merge_pdfs. fold n.
    destruct (bool_decide (pre ++ f :: post = [])) eqn:E.
    { apply bool_decide_eq_true in E. by destruct pre. }
    destruct (n <? 2) eqn:E2; [lia|].
    erewrite bind_run; [|exact Hup1].
    unfold bind at 1. by rewrite Hloop. }
  split; [done|]. split; [congruence|]. split; [congruence|].
  split; [by rewrite Hc, Hc1, <- app_assoc|].
  rewrite map_app, Hev, Hcb1. by destruct (PDFMerger.progress_callback s).
Qed.

Lemma merge_stops_at_first_invalid_source_witness :
  exists m s',
    PDFMerger.merge_pdfs demo_world ["a.pdf"; "notes.txt"; "b.pdf"] "out.pdf"
      None (PDFMerger.init true)
    = (Raise (PDFMerger.Custom m), s')
    /\ validation_message "notes.txt" m
    /\ PDFMerger.writer s' = None
    /\ PDFMerger.files s' = []
    /\ map counts (PDFMerger.calls s') = [(0, 3); (1, 3)].
Proof.
  destruct (merge_stops_at_first_invalid_source demo_world ["a.pdf"]
              "notes.txt" ["b.pdf"] "out.pdf" None (PDFMerger.init true))
    as (m & s' & evs & Hrun & Hm & Hw & Hf & Hc & Hev).
  - unfold len. simpl. lia.
  - repeat constructor.
  - reflexivity.
  - exists m, s'. split; [exact Hrun|]. split; [exact Hm|].
    split; [exact Hw|]. split; [exact Hf|].
    simpl in Hc. rewrite Hc. exact Hev.
Defined.

(** X12.  [merge_pdfs] completes its output or none, and raises
    nothing but [PDFMergerError]: when it returns, it returns [True], it
    has written one file, the output file, holding the pages of its
    writer, and no write has failed; when it raises, no file has been
    completed.  The output path is opened only at the end: a merge that
    raises has not touched it, unless what failed is the write itself,
    which may leave the output file empty or partial. *)
Theorem merge_completes_output_or_none (w : World)
    (input_files : list string) (output_file : string)
    (page_ranges : option (gmap string string)) (s : PDFMerger.state) :
  let run := PDFMerger.merge_pdfs w input_files output_file page_ranges s in
  match fst run with
  | Ok b =>
      b = true
      /\ (exists plan,
            PDFMerger.writer (snd run) = Some plan
            /\ PDFMerger.files (snd run)
               = PDFMerger.files s ++ [(output_file, plan)])
      /\ PDFMerger.failed_writes (snd run) = PDFMerger.failed_writes s
  | Raise e =>
      PDFMerger.files (snd run) = PDFMerger.files s
      /\ (exists m, e = PDFMerger.Custom m)
      /\ (PDFMerger.failed_writes (snd run) = PDFMerger.failed_writes s
          \/ (writable w output_file = false
              /\ (exists cause,
                    e = PDFMerger.Custom (PDFMerger.Failed_to_merge cause))
              /\ PDFMerger.failed_writes (snd run)
                 = PDFMerger.failed_writes s ++ [output_file]))
  end.
Proof.
  cbv zeta.
  destruct (PDFMerger.merge_pdfs w input_files output_file page_ranges s)
    as [r s'] eqn:H.
  simpl. by apply (merge_pdfs_outcome w page_ranges) in H.
Qed.

(** A merge whose sources are fine and whose output cannot be written:
    nothing is completed, and the output path is the one path touched. *)
Example merge_to_read_only_output :
  let run := PDFMerger.merge_pdfs demo_read_only ["a.pdf"; "b.pdf"]
               "out.pdf" None (PDFMerger.init false) in
  fst run
  = Raise (PDFMerger.Custom
             (PDFMerger.Failed_to_merge (PDFMerger.Builtin OSError)))
  /\ PDFMerger.files (snd run) = []
  /\ PDFMerger.failed_writes (snd run) = ["out.pdf"].
Proof. vm_compute. repeat split. Qed.

(** ** The merge and the indices it does not check *)

Section MergerIndices.
Import PDFMerger.
Variable w : World.
Variable page_ranges : option (gmap string string).

Lemma pages_getitem_readable (f : string) (n i : Z) :
  readable_index n i = true -> pages_getitem f n i = Ok (f, i mod n).
Proof.
  unfold readable_index, pages_getitem. intros H.
  apply andb_true_iff in H as [H1 H2].
  destruct (i <? 0) eqn:E.
  - destruct ((n + i <? 0) || (n <=? n + i)) eqn:E2; [lia|].
    do 2 f_equal. apply (Z.mod_unique_pos i n (-1)); lia.
  - destruct ((i <? 0) || (n <=? i)) eqn:E2; [lia|].
    do 2 f_equal. symmetry. apply Z.mod_small. lia.
Qed.

Lemma pages_getitem_unreadable (f : string) (n i : Z) :
  readable_index n i = false -> pages_getitem f n i = Raise IndexError.
Proof.
  unfold readable_index, pages_getitem. intros H.
  apply andb_false_iff in H.
  destruct (i <? 0) eqn:E.
  - destruct ((n + i <? 0) || (n <=? n + i)) eqn:E2; [done|lia].
  - destruct ((i <? 0) || (n <=? i)) eqn:E2; [done|lia].
Qed.

Lemma add_pages_readable (f : string) (n : Z) (l : list Z) :
  Forall (fun i => readable_index n i = true) l ->
  forall tp s, exists s',
    add_pages f n tp l s = (Ok (tp + len l), s')
    /\ writer s' = (fun ps => ps ++ map (fun i => (f, i mod n)) l) <$> writer s
    /\ progress_callback s' = progress_callback s
    /\ calls s' = calls s /\ files s' = files s.
Proof.
  induction 1 as [|i l Hi Hl IH]; intros tp s.
  - exists s. simpl. unfold ret, len. simpl. rewrite Z.add_0_r.
    repeat split. destruct (writer s); simpl; by rewrite ?app_nil_r.
  - simpl. unfold bind, lift.
    rewrite pages_getitem_readable by done.
    unfold add_page, modify.
    destruct (IH (tp + 1)
      {| progress_callback := progress_callback s; calls := calls s;
         writer := (fun ps => ps ++ [(f, i mod n)]) <$> writer s;
         files := files s;
       failed_writes := failed_writes s |}) as (s' & Hrun & Hw & Hcb & Hc & Hf).
    exists s'. simpl in *. split.
    { rewrite len_cons.
      replace (tp + (1 + len l)) with (tp + 1 + len l) by lia. exact Hrun. }
    repeat split; try done.
    rewrite Hw. destruct (writer s); simpl; [|done].
    by rewrite <- app_assoc.
Qed.

Lemma add_pages_unreadable (f : string) (n : Z) (l : list Z) :
  Exists (fun i => readable_index n i = false) l ->
  forall tp s, exists s',
    add_pages f n tp l s = (Raise (Builtin IndexError), s')
    /\ files s' = files s.
Proof.
  induction l as [|i l IH]; intros Hex tp s;
    [by apply Exists_nil in Hex|].
  simpl. unfold bind, lift.
  destruct (readable_index n i) eqn:Hi.
  - apply Exists_cons in Hex as [Hex|Hex]; [congruence|].
    rewrite pages_getitem_readable by done.
    unfold add_page, modify.
    match goal with |- context [add_pages f n ?tp' l ?st] =>
      destruct (IH Hex tp' st) as (s' & Hrun & Hf)
    end.
    exists s'. by rewrite Hrun.
  - rewrite pages_getitem_unreadable by done. by exists s.
Qed.

Lemma validate_loop_passes (n : Z) (fs : list string) :
  Forall (fun g => passes_validation w g = true) fs ->
  forall i s, exists s',
    for_enumerate i fs (fun i file_path =>
      validate_pdf w file_path ;;
      _update_progress (i + 1) n (Validated (Py.basename file_path))) s
    = (Ok tt, s')
    /\ progress_callback s' = progress_callback s
    /\ writer s' = writer s /\ files s' = files s.
Proof.
  induction 1 as [|f fs Hf Hfs IH]; intros i s.
  - by exists s.
  - destruct (validate_pdf_run w f s) as (r & Hrun & Hgood & _).
    rewrite (Hgood Hf) in Hrun.
    destruct (merger_progress_run (i + 1) n (Validated (Py.basename f)) s)
      as (s2 & Hup & Hcb2 & _ & Hw2 & Hf2).
    destruct (IH (i + 1) s2) as (s' & Hloop & Hcb & Hw & Hfl).
    exists s'. split.
    + simpl. erewrite bind_run; [exact Hloop|].
      erewrite bind_run; [exact Hup|exact Hrun].
    + by rewrite Hcb, Hw, Hfl.
Qed.

Lemma pages_read_ok (f : string) (k : nat) (l : list Z) :
  pdf_pages w f = Some k ->
  parse_page_range (expression_of page_ranges f) (Z.of_nat k) = Ok l ->
  pages_read w page_ranges f = map (fun i => (f, i mod Z.of_nat k)) l.
Proof.
  intros Hk Hp. unfold pages_read.
  by rewrite (resolved_ok w page_ranges f k l Hk Hp), Hk.
Qed.

Lemma merge_loop_reads (n : Z) (fs : list string) :
  Forall (source_reads w page_ranges) fs ->
  forall i tp s, exists tp' s',
    merge_loop w page_ranges n i tp fs s = (Ok tp', s')
    /\ writer s' = (fun ps => ps ++ merge_reads w page_ranges fs) <$> writer s
    /\ progress_callback s' = progress_callback s
    /\ files s' = files s.
Proof.
  induction 1 as [|f fs Hf Hfs IH]; intros i tp s.
  - exists tp, s. simpl. unfold ret. repeat split.
    unfold merge_reads. simpl. destruct (writer s); simpl; by rewrite ?app_nil_r.
  - destruct Hf as (_ & k & l & Hk & Hparse & Hrange).
    destruct (add_pages_readable f (Z.of_nat k) l Hrange tp s)
      as (s1 & Hadd & Hw1 & Hcb1 & _ & Hf1).
    destruct (merger_progress_run (i + 1) n
                (Added_pages (len l) (Py.basename f)) s1)
      as (s2 & Hup & Hcb2 & _ & Hw2 & Hf2).
    destruct (IH (i + 1) (tp + len l) s2) as (tp' & s' & Hrun & Hw & Hcb & Hfl).
    exists tp', s'. split.
    + simpl. unfold bind at 1, PdfReader. rewrite Hk. unfold ret.
      unfold bind at 1. rewrite pages_for_run, Hparse.
      erewrite bind_run; [|exact Hadd].
      erewrite bind_run; [|exact Hup]. exact Hrun.
    + rewrite Hw, Hw2, Hw1, Hcb, Hcb2, Hcb1, Hfl, Hf2, Hf1.
      repeat split. unfold merge_reads. simpl.
      rewrite (pages_read_ok f k l Hk Hparse).
      destruct (writer s); simpl; [|done]. by rewrite <- app_assoc.
Qed.

Lemma merge_loop_index_error (n : Z) (pre : list string) (f : string)
    (post : list string) (k : nat) (l : list Z) :
  Forall (source_reads w page_ranges) pre ->
  pdf_pages w f = Some k ->
  parse_page_range (expression_of page_ranges f) (Z.of_nat k) = Ok l ->
  Exists (fun i => readable_index (Z.of_nat k) i = false) l ->
  forall i tp s, exists s',
    merge_loop w page_ranges n i tp (pre ++ f :: post) s
    = (Raise (Builtin IndexError), s')
    /\ files s' = files s.
Proof.
  intros Hpre Hk Hparse Hbad.
  induction Hpre as [|g pre Hg Hpre IH]; intros i tp s.
  - destruct (add_pages_unreadable f (Z.of_nat k) l Hbad tp s)
      as (s' & Hadd & Hf).
    exists s'. split; [|done].
    simpl. unfold bind at 1, PdfReader. rewrite Hk. unfold ret.
    unfold bind at 1. rewrite pages_for_run, Hparse.
    unfold bind at 1. by rewrite Hadd.
  - destruct Hg as (_ & kg & lg & Hkg & Hpg & Hrg).
    destruct (add_pages_readable g (Z.of_nat kg) lg Hrg tp s)
      as (s1 & Hadd & _ & _ & _ & Hf1).
    destruct (merger_progress_run (i + 1) n
                (Added_pages (len lg) (Py.basename g)) s1)
      as (s2 & Hup & _ & _ & _ & Hf2).
    destruct (IH (i + 1) (tp + len lg) s2) as (s' & Hrun & Hfl).
    exists s'. split; [|congruence].
    simpl. unfold bind at 1, PdfReader. rewrite Hkg. unfold ret.
    unfold bind at 1. rewrite pages_for_run, Hpg.
    erewrite bind_run; [|exact Hadd].
    erewrite bind_run; [|exact Hup]. exact Hrun.
Qed.

End MergerIndices.

(** X13.  [merge_pdfs] does not check the indices its parser returns:
    for sources that pass validation and whose indices [reader.pages]
    accepts, it ends well and index [i] of a source of [n] pages adds
    page [i mod n], so that a negative index, as page number 0 gives,
    adds a page counted from the end of the source. *)
Theorem merge_reads_negative_indices_from_the_end (w : World)
    (input_files : list string) (output_file : string)
    (page_ranges : option (gmap string string)) (s : PDFMerger.state) :
  2 <= len input_files ->
  Forall (source_reads w page_ranges) input_files ->
  writable w output_file = true ->
  exists s',
    PDFMerger.merge_pdfs w input_files output_file page_ranges s
    = (Ok true, s')
    /\ PDFMerger.writer s' = Some (merge_reads w page_ranges input_files)
    /\ PDFMerger.files s'
       = PDFMerger.files s
         ++ [(output_file, merge_reads w page_ranges input_files)].
Proof.
  intros Hlen Hok Hwr. set (n := len input_files).
  assert (Hval : Forall (fun g => passes_validation w g = true) input_files).
  { eapply Forall_impl; [exact Hok|]. by intros f [? _]. }
  destruct (merger_progress_run 0 n PDFMerger.Validating_PDF_files s)
    as (s1 & Hup1 & _ & _ & _ & Hf1).
  destruct (validate_loop_passes w n input_files Hval 0 s1)
    as (s2 & Hvl & _ & _ & Hf2).
  set (s3 := {| PDFMerger.progress_callback := PDFMerger.progress_callback s2;
                PDFMerger.calls := PDFMerger.calls s2;
                PDFMerger.writer := Some [];
                PDFMerger.files := PDFMerger.files s2;
       PDFMerger.failed_writes := PDFMerger.failed_writes s2 |}).
  destruct (merger_progress_run 0 n PDFMerger.Merging_PDF_files s3)
    as (s4 & Hup4 & _ & _ & Hw4 & Hf4).
  destruct (merge_loop_reads w page_ranges n input_files Hok 0 0 s4)
    as (tp & s5 & Hloop & Hw5 & _ & Hf5).
  destruct (merger_progress_run n n PDFMerger.Writing_merged_PDF s5)
    as (s6 & Hup6 & _ & _ & Hw6 & Hf6).
  set (s7 := {| PDFMerger.progress_callback := PDFMerger.progress_callback s6;
                PDFMerger.calls := PDFMerger.calls s6;
                PDFMerger.writer := PDFMerger.writer s6;
                PDFMerger.files :=
                  PDFMerger.files s6
                  ++ [(output_file, default [] (PDFMerger.writer s6))];
       PDFMerger.failed_writes := PDFMerger.failed_writes s6 |}).
  destruct (merger_progress_run n n (PDFMerger.Successfully_merged n tp) s7)
    as (s8 & Hup8 & _ & _ & Hw8 & Hf8).
  assert (Hw : PDFMerger.writer s6
               = Some (merge_reads w page_ranges input_files)).
  { rewrite Hw6, Hw5, Hw4. reflexivity. }
  exists s8. split; [|split].
  - unfold PDFMerger.merge_pdfs. fold n.
    destruct (bool_decide (input_files = [])) eqn:E.
    { apply bool_decide_eq_true in E. subst input_files.
      unfold n, len in Hlen. simpl in Hlen. lia. }
    destruct (n <? 2) eqn:E2; [lia|].
    erewrite bind_run; [|exact Hup1].
    erewrite bind_run; [|exact Hvl].
    erewrite bind_run; [|reflexivity].
    erewrite bind_run; [|exact Hup4].
    apply try_except_run.
    erewrite bind_run; [|exact Hloop].
    erewrite bind_run; [|exact Hup6].
    erewrite bind_run;
      [|unfold PDFMerger.write_output; rewrite Hwr; reflexivity].
    erewrite bind_run; [|exact Hup8]. reflexivity.
  - rewrite Hw8. exact Hw.
  - rewrite Hf8. unfold s7. simpl. rewrite Hw. simpl.
    rewrite Hf6, Hf5, Hf4. unfold s3. simpl. by rewrite Hf2, Hf1.
Qed.

Lemma merge_reads_negative_indices_from_the_end_witness :
  exists s',
    PDFMerger.merge_pdfs demo_world ["a.pdf"; "b.pdf"] "out.pdf"
      (Some {[ "a.pdf" := "0-1"; "b.pdf" := "2" ]}) (PDFMerger.init false)
    = (Ok true, s')
    /\ PDFMerger.writer s'
       = Some [("a.pdf", 2); ("a.pdf", 0); ("b.pdf", 1)].
Proof.
  destruct (merge_reads_negative_indices_from_the_end demo_world
              ["a.pdf"; "b.pdf"] "out.pdf"
              (Some {[ "a.pdf" := "0-1"; "b.pdf" := "2" ]})
              (PDFMerger.init false))
    as (s' & Hrun & Hw & _).
  - unfold len. simpl. lia.
  - constructor; [|constructor; [|constructor]].
    + split; [reflexivity|]. exists 3%nat, [-1; 0].
      split; [reflexivity|]. split; [vm_compute; reflexivity|].
      repeat constructor.
    + split; [reflexivity|]. exists 2%nat, [1].
      split; [reflexivity|]. split; [vm_compute; reflexivity|].
      repeat constructor.
  - reflexivity.
  - exists s'. split; [exact Hrun | exact Hw].
Defined.

(** X14.  A page number beyond a source is not refused by the merger's
    parser, and it is not passed over either: when every source passes
    validation, the sources before some source read well, and that
    source resolves to an index that [reader.pages] does not accept,
    [merge_pdfs] ends with a failed-to-merge error, completes no file
    and does not touch the output path. *)
Theorem merge_fails_on_index_beyond_source (w : World) (pre : list string)
    (f : string) (post : list string) (output_file : string)
    (page_ranges : option (gmap string string)) (k : nat) (l : list Z)
    (s : PDFMerger.state) :
  2 <= len (pre ++ f :: post) ->
  Forall (fun g => passes_validation w g = true) (pre ++ f :: post) ->
  Forall (source_reads w page_ranges) pre ->
  pdf_pages w f = Some k ->
  PDFMerger.parse_page_range (expression_of page_ranges f) (Z.of_nat k)
  = Ok l ->
  Exists (fun i => readable_index (Z.of_nat k) i = false) l ->
  exists cause s',
    PDFMerger.merge_pdfs w (pre ++ f :: post) output_file page_ranges s
    = (Raise (PDFMerger.Custom (PDFMerger.Failed_to_merge cause)), s')
    /\ PDFMerger.files s' = PDFMerger.files s
    /\ PDFMerger.failed_writes s' = PDFMerger.failed_writes s.
Proof.
  intros Hlen Hval Hpre Hk Hparse Hbad. set (n := len (pre ++ f :: post)).
  destruct (merger_progress_run 0 n PDFMerger.Validating_PDF_files s)
    as (s1 & Hup1 & _ & _ & _ & Hf1).
  pose proof (attempts_update_progress _ _ _ _ _ _ Hup1) as Ha1.
  destruct (validate_loop_passes w n (pre ++ f :: post) Hval 0 s1)
    as (s2 & Hvl & _ & _ & Hf2).
  pose proof (attempts_validate_loop w n _ 0 _ _ _ Hvl) as Ha2.
  set (s3 := {| PDFMerger.progress_callback := PDFMerger.progress_callback s2;
                PDFMerger.calls := PDFMerger.calls s2;
                PDFMerger.writer := Some [];
                PDFMerger.files := PDFMerger.files s2;
                PDFMerger.failed_writes := PDFMerger.failed_writes s2 |}).
  destruct (merger_progress_run 0 n PDFMerger.Merging_PDF_files s3)
    as (s4 & Hup4 & _ & _ & _ & Hf4).
  pose proof (attempts_update_progress _ _ _ _ _ _ Hup4) as Ha4.
  destruct (merge_loop_index_error w page_ranges n pre f post k l
              Hpre Hk Hparse Hbad 0 0 s4)
    as (s5 & Hloop & Hf5).
  pose proof (attempts_merge_loop w page_ranges n _ 0 0 _ _ _ Hloop) as Ha5.
  unfold merger_attempts_none in Ha1, Ha2, Ha4, Ha5.
  exists (PDFMerger.Builtin IndexError), s5. split; [|split].
  - unfold PDFMerger.merge_pdfs. fold n.
    destruct (bool_decide (pre ++ f :: post = [])) eqn:E.
    { apply bool_decide_eq_true in E. by destruct pre. }
    destruct (n <? 2) eqn:E2; [lia|].
    erewrite bind_run; [|exact Hup1].
    erewrite bind_run; [|exact Hvl].
    erewrite bind_run; [|reflexivity].
    erewrite bind_run; [|exact Hup4].
    unfold try_except. unfold bind at 1. by rewrite Hloop.
  - rewrite Hf5, Hf4. unfold s3. simpl. by rewrite Hf2, Hf1.
  - rewrite Ha5, Ha4. unfold s3. simpl. by rewrite Ha2, Ha1.
Qed.

Lemma merge_fails_on_index_beyond_source_witness :
  exists cause s',
    PDFMerger.merge_pdfs demo_world ["a.pdf"; "b.pdf"] "out.pdf"
      (Some {[ "b.pdf" := "1,9" ]}) (PDFMerger.init false)
    = (Raise (PDFMerger.Custom (PDFMerger.Failed_to_merge cause)), s')
    /\ PDFMerger.files s' = []
    /\ PDFMerger.failed_writes s' = [].
Proof.
  apply (merge_fails_on_index_beyond_source demo_world ["a.pdf"] "b.pdf"
           [] "out.pdf" (Some {[ "b.pdf" := "1,9" ]}) 2 [0; 8]
           (PDFMerger.init false)).
  - unfold len. simpl. lia.
  - repeat constructor.
  - constructor; [|constructor].
    split; [reflexivity|]. exists 3%nat, [0; 1; 2].
    split; [reflexivity|]. split; [vm_compute; reflexivity|].
    repeat constructor.
  - reflexivity.
  - vm_compute. reflexivity.
  - apply Exists_cons_tl, Exists_cons_hd. reflexivity.
Defined.

(** Page 9 of a source of two pages: the error wrapped is the
    [IndexError] of [reader.pages]. *)
Example merge_of_page_beyond_source :
  fst (PDFMerger.merge_pdfs demo_world ["a.pdf"; "b.pdf"] "out.pdf"
         (Some {[ "b.pdf" := "1,9" ]}) (PDFMerger.init false))
  = Raise (PDFMerger.Custom
             (PDFMerger.Failed_to_merge (PDFMerger.Builtin IndexError))).
Proof. vm_compute. reflexivity. Qed.

(** ** The extraction, step by step *)

Section ExtractFacts.
Import ExtractPages.
Variable w : World.
Variable input_file : string.

Lemma extract_progress_run (c t : Z) (m : Message) (s : state) :
  exists s',
    _update_progress c t m s = (Ok tt, s')
    /\ progress_callback s' = progress_callback s
    /\ calls s' = calls s ++ (if progress_callback s
                              then [Build_ProgressEvent c t m] else [])
    /\ files s' = files s.
Proof.
  eexists. split; [reflexivity|].
  destruct s as [[] cs fs]; simpl; rewrite ?app_nil_r; done.
Qed.

Lemma extract_loop_ok (N n : Z) (pages : list Z) :
  Forall (fun i => 0 <= i < N) pages ->
  forall i writer s, exists s' evs,
    extract_loop input_file N n i writer pages s
    = (Ok (writer ++ pages_of input_file pages), s')
    /\ files s' = files s
    /\ progress_callback s' = progress_callback s
    /\ calls s' = calls s ++ evs
    /\ map counts evs
       = if progress_callback s
         then map (fun k => (k, n)) (Py.range (i + 1) (i + 1 + len pages))
         else [].
Proof.
  induction 1 as [|p pages Hp Hpages IH]; intros i writer s.
  - exists s, []. simpl. unfold ret. rewrite !app_nil_r.
    rewrite range_nil by (unfold len; simpl; lia).
    repeat split. by destruct (progress_callback s).
  - simpl. unfold bind at 1, lift.
    rewrite pages_getitem_in_range by done.
    destruct (extract_progress_run (i + 1) n (Extracted_page (p + 1)) s)
      as (s2 & Hup & Hcb2 & Hc2 & Hf2).
    destruct (IH (i + 1) (writer ++ [(input_file, p)]) s2)
      as (s' & evs & Hrun & Hf & Hcb & Hc & Hev).
    exists s'. eexists (_ ++ evs). split.
    { erewrite bind_run; [|exact Hup].
      etransitivity; [exact Hrun|]. by rewrite <- app_assoc. }
    split; [congruence|]. split; [congruence|].
    split; [by rewrite Hc, Hc2, <- app_assoc|].
    rewrite map_app, Hev, Hcb2, len_cons.
    destruct (progress_callback s); [|done]. simpl.
    rewrite (range_cons (i + 1)) by (pose proof (len_nonneg pages); lia).
    simpl. do 3 f_equal. lia.
Qed.

Lemma extract_progress_attempts (c t : Z) (m : Message) :
  preserves (fun s s' => failed_writes s' = failed_writes s)
    (_update_progress c t m).
Proof. intros s r s' [= _ <-]. by destruct (progress_callback s). Qed.

Lemma extract_loop_attempts (N n : Z) (pages : list Z) :
  forall i writer,
  preserves (fun s s' => failed_writes s' = failed_writes s)
    (extract_loop input_file N n i writer pages).
Proof.
  induction pages as [|p pages IH]; intros i writer; simpl.
  - by apply preserves_ret.
  - apply preserves_bind; [congruence|by apply preserves_lift|].
    intros q. apply preserves_bind; [congruence| |by intros].
    apply extract_progress_attempts.
Qed.

(** Every way [extract_pages] can go, by what it meets. *)
Lemma extract_pages_cases (page_range output_file : string) (s : state) :
  let run := extract_pages w input_file page_range output_file s in
  if negb (path_exists w input_file)
  then run = (Raise (Custom (File_not_found input_file)), s)
  else
    match pdf_pages w input_file with
    | None => run = (Raise (Custom (Failed_to_extract
                                      (Builtin PdfReadError))), s)
    | Some N =>
        match PDFSplitter.parse_page_range page_range (Z.of_nat N) with
        | Raise e =>
            run = (Raise (Custom (Failed_to_extract (of_parser e))), s)
        | Ok [] =>
            run = (Raise (Custom (Failed_to_extract
                                    (Custom No_pages_to_extract))), s)
        | Ok l =>
            exists s' evs,
              calls s' = calls s ++ evs
              /\ progress_callback s' = progress_callback s
              /\ if writable w output_file
                 then run = (Ok true, s')
                      /\ files s' = files s
                                    ++ [(output_file, pages_of input_file l)]
                      /\ map counts evs
                         = (if progress_callback s
                            then [(0, len l)]
                                 ++ map (fun k => (k, len l))
                                      (Py.range 1 (1 + len l))
                                 ++ [(len l, len l)]
                            else [])
                      /\ failed_writes s' = failed_writes s
                 else run = (Raise (Custom (Failed_to_extract
                                              (Builtin OSError))), s')
                      /\ files s' = files s
                      /\ failed_writes s'
                         = failed_writes s ++ [output_file]
        end
    end.
Proof.
  cbv zeta. unfold extract_pages.
  destruct (negb (path_exists w input_file)); [done|].
  destruct (pdf_pages w input_file) as [N|] eqn:Hpages.
  2: { unfold try_except, bind, PdfReader. by rewrite Hpages. }
  assert (Hreader : forall s0, PdfReader w input_file s0
                               = (Ok (Z.of_nat N), s0)).
  { intros s0. unfold PdfReader. by rewrite Hpages. }
  unfold try_except. erewrite bind_run; [|apply Hreader].
  destruct (PDFSplitter.parse_page_range page_range (Z.of_nat N))
    as [l|e] eqn:Hparse.
  2: { unfold bind, parse_page_range, lift. by rewrite Hparse. }
  assert (Hp : forall s0, parse_page_range page_range (Z.of_nat N) s0
                          = (Ok l, s0)).
  { intros s0. unfold parse_page_range, lift. by rewrite Hparse. }
  erewrite bind_run; [|apply Hp].
  destruct l as [|p l]; [reflexivity|].
  destruct (bool_decide (p :: l = [])) eqn:E;
    [by apply bool_decide_eq_true in E|].
  set (n := len (p :: l)).
  destruct (extract_progress_run 0 n Extracting_pages s)
    as (s1 & Hup1 & Hcb1 & Hc1 & Hf1).
  destruct (extract_loop_ok (Z.of_nat N) n (p :: l)
              (splitter_parse_in_range _ _ _ Hparse) 0 [] s1)
    as (s2 & evs2 & Hloop & Hf2 & Hcb2 & Hc2 & Hev2).
  pose proof (extract_progress_attempts _ _ _ _ _ _ Hup1) as Ha1.
  pose proof (extract_loop_attempts _ _ _ _ _ _ _ _ Hloop) as Ha2.
  simpl in Ha1, Ha2.
  destruct (writable w output_file) eqn:Hwr.
  - set (s3 := {| progress_callback := progress_callback s2;
                  calls := calls s2;
                  files := files s2
                           ++ [(output_file,
                                [] ++ pages_of input_file (p :: l))];
                  failed_writes := failed_writes s2 |}).
    destruct (extract_progress_run n n (Successfully_extracted n) s3)
      as (s4 & Hup4 & Hcb4 & Hc4 & Hf4).
    pose proof (extract_progress_attempts _ _ _ _ _ _ Hup4) as Ha4.
    simpl in Hcb4, Hc4, Hf4, Ha4.
    exists s4. eexists.
    split; [rewrite Hc4, Hc2, Hc1, <- !app_assoc; reflexivity|].
    split; [congruence|]. split.
    { erewrite bind_run; [|exact Hup1].
      erewrite bind_run; [|exact Hloop].
      erewrite bind_run; [|unfold write_output; rewrite Hwr; reflexivity].
      erewrite bind_run; [|exact Hup4]. reflexivity. }
    split; [by rewrite Hf4, Hf2, Hf1|]. split; [|congruence].
    rewrite !map_app, Hev2. rewrite Hcb2, Hcb1.
    destruct (progress_callback s); reflexivity.
  - exists {| progress_callback := progress_callback s2;
              calls := calls s2; files := files s2;
              failed_writes := failed_writes s2 ++ [output_file] |}.
    eexists. simpl.
    split; [rewrite Hc2, Hc1, <- app_assoc; reflexivity|].
    split; [congruence|]. split; [|split; congruence].
    erewrite bind_run; [|exact Hup1].
    erewrite bind_run; [|exact Hloop].
    unfold bind, write_output. rewrite Hwr. reflexivity.
Qed.

End ExtractFacts.

(** ** What the extraction does *)

(** X15.  For a source that exists and opens, an expression that the
    strict parser resolves to a list that is not empty, and an output
    path that can be written, [extract_pages] ends well and writes one
    file holding the resolved pages in ascending order; with a callback
    registered it sends, for [n] pages, a notification [(0, n)], one per
    page [(1, n)] to [(n, n)], and a last [(n, n)]. *)
Theorem extract_pages_writes_the_selection (w : World)
    (input_file page_range output_file : string) (N : nat) (l : list Z)
    (s : ExtractPages.state) :
  path_exists w input_file = true ->
  pdf_pages w input_file = Some N ->
  PDFSplitter.parse_page_range page_range (Z.of_nat N) = Ok l ->
  l <> [] ->
  writable w output_file = true ->
  exists s' evs,
    ExtractPages.extract_pages w input_file page_range output_file s
    = (Ok true, s')
    /\ ExtractPages.files s'
       = ExtractPages.files s ++ [(output_file, pages_of input_file l)]
    /\ ExtractPages.calls s' = ExtractPages.calls s ++ evs
    /\ map counts evs
       = if ExtractPages.progress_callback s
         then [(0, len l)]
              ++ map (fun k => (k, len l)) (Py.range 1 (1 + len l))
              ++ [(len l, len l)]
         else [].
Proof.
  intros Hex Hpages Hparse Hne Hwr.
  pose proof (extract_pages_cases w input_file page_range output_file s)
    as H.
  cbv zeta in H. rewrite Hex, Hpages, Hparse in H. simpl in H.
  destruct l as [|p l]; [done|].
  destruct H as (s' & evs & Hc & _ & H). rewrite Hwr in H.
  destruct H as (Hrun & Hf & Hev & _).
  exists s', evs. done.
Qed.

Lemma extract_pages_writes_the_selection_witness :
  exists s' evs,
    ExtractPages.extract_pages demo_world "doc.pdf" "3, 1-2" "o.pdf"
      (ExtractPages.init true)
    = (Ok true, s')
    /\ ExtractPages.files s' = [("o.pdf", pages_of "doc.pdf" [0; 1; 2])]
    /\ ExtractPages.calls s' = evs
    /\ map counts evs = [(0, 3); (1, 3); (2, 3); (3, 3); (3, 3)].
Proof.
  apply (extract_pages_writes_the_selection demo_world "doc.pdf" "3, 1-2"
           "o.pdf" 10 [0; 1; 2] (ExtractPages.init true)).
  - reflexivity.
  - reflexivity.
  - vm_compute. reflexivity.
  - discriminate.
  - reflexivity.
Defined.

(** X16.  Whatever it is given, [extract_pages] completes a file only
    when it returns, and then one file, never empty: the pages the
    strict parser resolved.  When it raises, no file has been completed,
    and the error is the file-not-found error or a failed-to-extract
    error; the output path is opened only after the last page is read,
    so that a run that raises has not touched it unless what failed is
    the write itself.  A selection that resolves to no page is refused
    before anything is done. *)
Theorem extract_completes_output_or_none (w : World)
    (input_file page_range output_file : string) (s : ExtractPages.state) :
  let run :=
    ExtractPages.extract_pages w input_file page_range output_file s in
  match fst run with
  | Ok b =>
      b = true
      /\ (exists N l,
            pdf_pages w input_file = Some N
            /\ PDFSplitter.parse_page_range page_range (Z.of_nat N) = Ok l
            /\ l <> []
            /\ ExtractPages.files (snd run)
               = ExtractPages.files s
                 ++ [(output_file, pages_of input_file l)])
      /\ ExtractPages.failed_writes (snd run) = ExtractPages.failed_writes s
  | Raise e =>
      ExtractPages.files (snd run) = ExtractPages.files s
      /\ (e = ExtractPages.Custom (ExtractPages.File_not_found input_file)
          \/ exists cause,
               e = ExtractPages.Custom (ExtractPages.Failed_to_extract cause))
      /\ (ExtractPages.failed_writes (snd run)
          = ExtractPages.failed_writes s
          \/ (writable w output_file = false
              /\ ExtractPages.failed_writes (snd run)
                 = ExtractPages.failed_writes s ++ [output_file]))
  end
  /\ (forall N,
        path_exists w input_file = true ->
        pdf_pages w input_file = Some N ->
        PDFSplitter.parse_page_range page_range (Z.of_nat N) = Ok [] ->
        run
        = (Raise (ExtractPages.Custom
                    (ExtractPages.Failed_to_extract
                       (ExtractPages.Custom
                          ExtractPages.No_pages_to_extract))), s)).
Proof.
  pose proof (extract_pages_cases w input_file page_range output_file s)
    as H.
  cbv zeta in H |- *. split.
  - destruct (path_exists w input_file); simpl in H.
    2: { rewrite H. simpl. split; [done|]. split; [by left|by left]. }
    destruct (pdf_pages w input_file) as [N|].
    2: { rewrite H. simpl. split; [done|]. split; [eauto|by left]. }
    destruct (PDFSplitter.parse_page_range page_range (Z.of_nat N))
      as [[|p l]|e] eqn:Hparse.
    + rewrite H. simpl. split; [done|]. split; [eauto|by left].
    + destruct H as (s' & evs & _ & _ & H).
      destruct (writable w output_file).
      * destruct H as (-> & Hf & _ & Ha). simpl. split; [done|].
        split; [|done]. exists N, (p :: l). done.
      * destruct H as (-> & Hf & Ha). simpl.
        split; [done|]. split; [eauto|by right].
    + rewrite H. simpl. split; [done|]. split; [eauto|by left].
  - intros N Hex Hpages Hparse.
    rewrite Hex, Hpages, Hparse in H. simpl in H. exact H.
Qed.

Lemma extract_completes_output_or_none_witness :
  ExtractPages.extract_pages demo_blank "doc.pdf" "all" "o.pdf"
    (ExtractPages.init true)
  = (Raise (ExtractPages.Custom
              (ExtractPages.Failed_to_extract
                 (ExtractPages.Custom ExtractPages.No_pages_to_extract))),
     ExtractPages.init true).
Proof.
  apply (proj2 (extract_completes_output_or_none demo_blank "doc.pdf"
                  "all" "o.pdf" (ExtractPages.init true)) 0%nat).
  - reflexivity.
  - reflexivity.
  - vm_compute. reflexivity.
Defined.

(** An extraction whose output cannot be written: nothing is completed,
    the notifications of the pages have been sent, and the output path
    is the one path touched. *)
Example extract_to_read_only_output :
  let run := ExtractPages.extract_pages demo_read_only "a.pdf" "2-3" "o.pdf"
               (ExtractPages.init true) in
  fst run
  = Raise (ExtractPages.Custom
             (ExtractPages.Failed_to_extract (ExtractPages.Builtin OSError)))
  /\ ExtractPages.files (snd run) = []
  /\ ExtractPages.failed_writes (snd run) = ["o.pdf"]
  /\ map counts (ExtractPages.calls (snd run)) = [(0, 2); (1, 2); (2, 2)].
Proof. vm_compute. repeat split. Qed.

(** ** The rotation, step by step *)

Section RotateFacts.
Import RotatePages.
Variable w : World.
Variable input_file : string.

Lemma rotate_progress_run (c t : Z) (m : Message) (s : state) :
  exists s',
    _update_progress c t m s = (Ok tt, s')
    /\ progress_callback s' = progress_callback s
    /\ calls s' = calls s ++ (if progress_callback s
                              then [Build_ProgressEvent c t m] else [])
    /\ files s' = files s.
Proof.
  eexists. split; [reflexivity|].
  destruct s as [[] cs fs]; simpl; rewrite ?app_nil_r; done.
Qed.

Lemma rotate_loop_ok (N rotation : Z) (selection : list Z)
    (page_nums : list Z) :
  Forall (fun i => 0 <= i < N) page_nums ->
  forall writer s, exists s' evs,
    rotate_loop input_file N rotation (list_to_set selection) writer
      page_nums s
    = (Ok (writer
           ++ rotated_pages input_file N rotation selection page_nums), s')
    /\ files s' = files s
    /\ progress_callback s' = progress_callback s
    /\ calls s' = calls s ++ evs
    /\ map counts evs
       = if progress_callback s
         then map (fun i => (i + 1, N)) page_nums else [].
Proof.
  induction 1 as [|p page_nums Hp Hpages IH]; intros writer s.
  - exists s, []. simpl. unfold ret, rotated_pages. simpl.
    rewrite !app_nil_r. repeat split. by destruct (progress_callback s).
  - simpl. unfold bind at 1, lift.
    rewrite pages_getitem_in_range by done.
    destruct (bool_decide (p ∈ (list_to_set selection : gset Z))) eqn:Hin.
    + apply bool_decide_eq_true, elem_of_list_to_set in Hin.
      destruct (rotate_progress_run (p + 1) N (Rotated_page (p + 1) rotation) s)
        as (s2 & Hup & Hcb2 & Hc2 & Hf2).
      destruct (IH (writer ++ [((input_file, p), rotation)]) s2)
        as (s' & evs & Hrun & Hf & Hcb & Hc & Hev).
      exists s'. eexists. split.
      { erewrite bind_run; [|erewrite bind_run; [reflexivity|exact Hup]].
        etransitivity; [exact Hrun|]. unfold rotated_pages. simpl.
        rewrite bool_decide_eq_true_2 by done. by rewrite <- app_assoc. }
      split; [congruence|]. split; [congruence|].
      split; [rewrite Hc, Hc2, <- app_assoc; reflexivity|].
      rewrite map_app, Hev, Hcb2.
      by destruct (progress_callback s).
    + apply bool_decide_eq_false in Hin.
      rewrite elem_of_list_to_set in Hin.
      destruct (rotate_progress_run (p + 1) N (Kept_page (p + 1)) s)
        as (s2 & Hup & Hcb2 & Hc2 & Hf2).
      destruct (IH (writer ++ [((input_file, p), 0)]) s2)
        as (s' & evs & Hrun & Hf & Hcb & Hc & Hev).
      exists s'. eexists. split.
      { erewrite bind_run; [|erewrite bind_run; [reflexivity|exact Hup]].
        etransitivity; [exact Hrun|]. unfold rotated_pages. simpl.
        rewrite bool_decide_eq_false_2 by done. by rewrite <- app_assoc. }
      split; [congruence|]. split; [congruence|].
      split; [rewrite Hc, Hc2, <- app_assoc; reflexivity|].
      rewrite map_app, Hev, Hcb2.
      by destruct (progress_callback s).
Qed.

Lemma upto_in_range (N : Z) : Forall (fun i => 0 <= i < N) (Py.range 0 N).
Proof. apply Forall_forall. intros x Hx. by apply elem_of_range in Hx. Qed.

Lemma size_list_to_set_sorted (l : list Z) :
  StronglySorted Z.lt l -> Z.of_nat (size (list_to_set l : gset Z)) = len l.
Proof.
  intros Hs. unfold len. f_equal.
  apply size_list_to_set. by apply lt_sorted_NoDup.
Qed.

Lemma rotate_progress_attempts (c t : Z) (m : Message) :
  preserves (fun s s' => failed_writes s' = failed_writes s)
    (_update_progress c t m).
Proof. intros s r s' [= _ <-]. by destruct (progress_callback s). Qed.

Lemma rotate_loop_attempts (N rotation : Z) (selection : gset Z)
    (page_nums : list Z) :
  forall writer,
  preserves (fun s s' => failed_writes s' = failed_writes s)
    (rotate_loop input_file N rotation selection writer page_nums).
Proof.
  induction page_nums as [|p page_nums IH]; intros writer; simpl.
  - by apply preserves_ret.
  - apply preserves_bind; [congruence|by apply preserves_lift|].
    intros q. apply preserves_bind; [congruence| |by intros].
    destruct (bool_decide (p ∈ selection));
      (apply preserves_bind;
       [congruence|apply rotate_progress_attempts|
        intros _; by apply preserves_ret]).
Qed.

(** Every way [rotate_pages] can go, by what it meets. *)
Lemma rotate_pages_cases (page_range : string) (rotation : Z)
    (output_file : string) (s : state) :
  let run := rotate_pages w input_file page_range rotation output_file s in
  if negb (allowed_rotation rotation)
  then run = (Raise (Custom Rotation_must_be_90_180_270), s)
  else if negb (path_exists w input_file)
  then run = (Raise (Custom (File_not_found input_file)), s)
  else
    match pdf_pages w input_file with
    | None => run = (Raise (Custom (Failed_to_rotate
                                      (Builtin PdfReadError))), s)
    | Some N =>
        match PDFModifier.parse_page_range page_range (Z.of_nat N) with
        | Raise e =>
            run = (Raise (Custom (Failed_to_rotate (of_parser e))), s)
        | Ok l =>
            exists s' evs,
              calls s' = calls s ++ evs
              /\ progress_callback s' = progress_callback s
              /\ if writable w output_file
                 then run = (Ok true, s')
                      /\ files s'
                         = files s
                           ++ [(output_file,
                                rotated_pages input_file (Z.of_nat N)
                                  rotation l (Py.range 0 (Z.of_nat N)))]
                      /\ evs
                         = (if progress_callback s
                            then removelast evs
                                 ++ [Build_ProgressEvent (Z.of_nat N)
                                       (Z.of_nat N)
                                       (Successfully_rotated (len l))]
                            else [])
                      /\ map counts evs
                         = (if progress_callback s
                            then [(0, Z.of_nat N)]
                                 ++ map (fun i => (i + 1, Z.of_nat N))
                                      (Py.range 0 (Z.of_nat N))
                                 ++ [(Z.of_nat N, Z.of_nat N)]
                            else [])
                      /\ failed_writes s' = failed_writes s
                 else run = (Raise (Custom (Failed_to_rotate
                                              (Builtin OSError))), s')
                      /\ files s' = files s
                      /\ failed_writes s'
                         = failed_writes s ++ [output_file]
        end
    end.
Proof.
  cbv zeta. unfold rotate_pages, allowed_rotation.
  destruct (negb (bool_decide (rotation ∈ [90; 180; 270; -90; -180; -270])));
    [done|].
  destruct (negb (path_exists w input_file)); [done|].
  destruct (pdf_pages w input_file) as [N|] eqn:Hpages.
  2: { unfold try_except, bind, PdfReader. by rewrite Hpages. }
  assert (Hreader : forall s0, PdfReader w input_file s0
                               = (Ok (Z.of_nat N), s0)).
  { intros s0. unfold PdfReader. by rewrite Hpages. }
  unfold try_except. erewrite bind_run; [|apply Hreader].
  destruct (PDFModifier.parse_page_range page_range (Z.of_nat N))
    as [l|e] eqn:Hparse.
  2: { unfold bind, parse_page_range, lift. by rewrite Hparse. }
  assert (Hp : forall s0, parse_page_range page_range (Z.of_nat N) s0
                          = (Ok l, s0)).
  { intros s0. unfold parse_page_range, lift. by rewrite Hparse. }
  erewrite bind_run; [|apply Hp]. cbv zeta.
  assert (Hsize : Z.of_nat (size (list_to_set l : gset Z)) = len l).
  { apply size_list_to_set_sorted.
    apply (parsers_sorted page_range (Z.of_nat N)). by right; right. }
  rewrite Hsize.
  set (n := Z.of_nat N).
  destruct (rotate_progress_run 0 n Rotating_pages s)
    as (s1 & Hup1 & Hcb1 & Hc1 & Hf1).
  destruct (rotate_loop_ok n rotation l (Py.range 0 n) (upto_in_range n) [] s1)
    as (s2 & evs2 & Hloop & Hf2 & Hcb2 & Hc2 & Hev2).
  pose proof (rotate_progress_attempts _ _ _ _ _ _ Hup1) as Ha1.
  pose proof (rotate_loop_attempts _ _ _ _ _ _ _ _ Hloop) as Ha2.
  simpl in Ha1, Ha2.
  destruct (writable w output_file) eqn:Hwr.
  - set (plan := [] ++ rotated_pages input_file n rotation l (Py.range 0 n)).
    set (s3 := {| progress_callback := progress_callback s2;
                  calls := calls s2;
                  files := files s2 ++ [(output_file, plan)];
                  failed_writes := failed_writes s2 |}).
    destruct (rotate_progress_run n n (Successfully_rotated (len l)) s3)
      as (s4 & Hup4 & Hcb4 & Hc4 & Hf4).
    pose proof (rotate_progress_attempts _ _ _ _ _ _ Hup4) as Ha4.
    simpl in Hcb4, Hc4, Hf4, Ha4.
    exists s4. eexists.
    split; [rewrite Hc4, Hc2, Hc1, <- !app_assoc; reflexivity|].
    split; [congruence|]. split.
    { erewrite bind_run; [|exact Hup1].
      erewrite bind_run; [|exact Hloop].
      erewrite bind_run; [|unfold write_output; rewrite Hwr; reflexivity].
      erewrite bind_run; [|exact Hup4]. reflexivity. }
    split; [by rewrite Hf4, Hf2, Hf1|].
    rewrite Hcb2, Hcb1. rewrite Hcb1 in Hev2.
    destruct (progress_callback s) eqn:Hcb.
    + split; [|split; [|congruence]].
      * rewrite app_assoc. by rewrite removelast_last.
      * rewrite !map_app, Hev2. reflexivity.
    + apply map_eq_nil in Hev2. subst evs2.
      split; [done|]. split; [done|congruence].
  - exists {| progress_callback := progress_callback s2;
              calls := calls s2; files := files s2;
              failed_writes := failed_writes s2 ++ [output_file] |}.
    eexists. simpl.
    split; [rewrite Hc2, Hc1, <- app_assoc; reflexivity|].
    split; [congruence|]. split; [|split; congruence].
    erewrite bind_run; [|exact Hup1].
    erewrite bind_run; [|exact Hloop].
    unfold bind, write_output. rewrite Hwr. reflexivity.
Qed.

End RotateFacts.

(** ** What the rotation does *)

Lemma rotated_pages_sources (input_file : string) (N rotation : Z)
    (selection page_nums : list Z) :
  map fst (rotated_pages input_file N rotation selection page_nums)
  = pages_of input_file page_nums.
Proof. unfold rotated_pages, pages_of. rewrite map_map. done. Qed.

Lemma rotated_pages_angles (input_file : string) (N rotation : Z)
    (selection page_nums : list Z) :
  Forall (fun p => snd p = 0 \/ snd p = rotation)
    (rotated_pages input_file N rotation selection page_nums).
Proof.
  unfold rotated_pages. apply Forall_forall. intros p Hp.
  apply list_elem_of_In, in_map_iff in Hp as (i & <- & _). simpl.
  destruct (bool_decide (i ∈ selection)); auto.
Qed.

(** X17.  For an accepted angle, a source that exists and opens with
    [N] pages, an expression that the modifier's parser resolves to a
    list [l], and an output path that can be written, [rotate_pages]
    ends well and writes one file holding every page of the source in
    order, the pages of [l] with the angle added to their rotation and
    the others as they were; with a callback registered it sends
    [(0, N)], one notification per page [(1, N)] to [(N, N)], and a last
    [(N, N)] that says how many pages were rotated, the length of
    [l]. *)
Theorem rotate_pages_rotates_the_selection (w : World)
    (input_file page_range : string) (rotation : Z) (output_file : string)
    (N : nat) (l : list Z) (s : RotatePages.state) :
  allowed_rotation rotation = true ->
  path_exists w input_file = true ->
  pdf_pages w input_file = Some N ->
  PDFModifier.parse_page_range page_range (Z.of_nat N) = Ok l ->
  writable w output_file = true ->
  exists s' evs,
    RotatePages.rotate_pages w input_file page_range rotation output_file s
    = (Ok true, s')
    /\ RotatePages.files s'
       = RotatePages.files s
         ++ [(output_file,
              rotated_pages input_file (Z.of_nat N) rotation l
                (upto (Z.of_nat N)))]
    /\ RotatePages.calls s' = RotatePages.calls s ++ evs
    /\ map counts evs
       = (if RotatePages.progress_callback s
          then [(0, Z.of_nat N)]
               ++ map (fun i => (i + 1, Z.of_nat N)) (upto (Z.of_nat N))
               ++ [(Z.of_nat N, Z.of_nat N)]
          else [])
    /\ (RotatePages.progress_callback s = true ->
        last evs
        = Some (Build_ProgressEvent (Z.of_nat N) (Z.of_nat N)
                  (RotatePages.Successfully_rotated (len l)))).
Proof.
  intros Hrot Hex Hpages Hparse Hwr.
  pose proof (rotate_pages_cases w input_file page_range rotation
                output_file s) as H.
  cbv zeta in H. rewrite Hrot, Hex, Hpages, Hparse in H. simpl in H.
  destruct H as (s' & evs & Hc & _ & H). rewrite Hwr in H.
  destruct H as (Hrun & Hf & Hlast & Hev & _).
  rewrite range_0_upto in Hf, Hev.
  exists s', evs. split; [done|]. split; [done|]. split; [done|].
  split; [done|]. intros Hcb. rewrite Hcb in Hlast.
  rewrite Hlast. apply last_snoc.
Qed.

Lemma rotate_pages_rotates_the_selection_witness :
  exists s' evs,
    RotatePages.rotate_pages demo_world "a.pdf" "3,1" 90 "o.pdf"
      (RotatePages.init true)
    = (Ok true, s')
    /\ RotatePages.files s'
       = [("o.pdf",
           [(("a.pdf", 0), 90); (("a.pdf", 1), 0); (("a.pdf", 2), 90)])]
    /\ RotatePages.calls s' = evs
    /\ map counts evs = [(0, 3); (1, 3); (2, 3); (3, 3); (3, 3)]
    /\ (true = true ->
        last evs
        = Some (Build_ProgressEvent 3 3
                  (RotatePages.Successfully_rotated 2))).
Proof.
  apply (rotate_pages_rotates_the_selection demo_world "a.pdf" "3,1" 90
           "o.pdf" 3 [0; 2] (RotatePages.init true)).
  - reflexivity.
  - reflexivity.
  - reflexivity.
  - vm_compute. reflexivity.
  - reflexivity.
Defined.

(** X18.  An angle other than 90, 180, 270 and their opposites is
    refused before the source is looked at.  Whatever it is given,
    [rotate_pages] completes a file only when it returns, and then one
    file holding every page of the source once and in order, each with
    the angle or nothing added to its rotation; when it raises, no file
    has been completed, the error is one of its three messages, and the
    output path has not been touched unless what failed is the write
    itself. *)
Theorem rotate_completes_output_or_none (w : World)
    (input_file page_range : string) (rotation : Z) (output_file : string)
    (s : RotatePages.state) :
  let run :=
    RotatePages.rotate_pages w input_file page_range rotation output_file s
  in
  (allowed_rotation rotation = false ->
   run = (Raise (RotatePages.Custom RotatePages.Rotation_must_be_90_180_270),
          s))
  /\ match fst run with
     | Ok b =>
         b = true
         /\ (exists N plan,
               pdf_pages w input_file = Some N
               /\ RotatePages.files (snd run)
                  = RotatePages.files s ++ [(output_file, plan)]
               /\ map fst plan = pages_of input_file (upto (Z.of_nat N))
               /\ Forall (fun p => snd p = 0 \/ snd p = rotation) plan)
         /\ RotatePages.failed_writes (snd run) = RotatePages.failed_writes s
     | Raise e =>
         RotatePages.files (snd run) = RotatePages.files s
         /\ (e = RotatePages.Custom RotatePages.Rotation_must_be_90_180_270
             \/ e = RotatePages.Custom (RotatePages.File_not_found input_file)
             \/ exists cause,
                  e = RotatePages.Custom (RotatePages.Failed_to_rotate cause))
         /\ (RotatePages.failed_writes (snd run)
             = RotatePages.failed_writes s
             \/ (writable w output_file = false
                 /\ RotatePages.failed_writes (snd run)
                    = RotatePages.failed_writes s ++ [output_file]))
     end.
Proof.
  pose proof (rotate_pages_cases w input_file page_range rotation
                output_file s) as H.
  cbv zeta in H |- *. split.
  - intros Hrot. by rewrite Hrot in H.
  - destruct (allowed_rotation rotation); simpl in H.
    2: { rewrite H. simpl. split; [done|]. split; [by left|by left]. }
    destruct (path_exists w input_file); simpl in H.
    2: { rewrite H. simpl. split; [done|]. split; [by right; left|by left]. }
    destruct (pdf_pages w input_file) as [N|].
    2: { rewrite H. simpl. split; [done|]. split; [eauto|by left]. }
    destruct (PDFModifier.parse_page_range page_range (Z.of_nat N))
      as [l|e] eqn:Hparse.
    2: { rewrite H. simpl. split; [done|]. split; [eauto|by left]. }
    destruct H as (s' & evs & _ & _ & H).
    destruct (writable w output_file).
    + destruct H as (-> & Hf & _ & _ & Ha). simpl. split; [done|].
      split; [|done].
      exists N. eexists. split; [done|]. split; [exact Hf|].
      rewrite range_0_upto. split.
      * apply rotated_pages_sources.
      * apply rotated_pages_angles.
    + destruct H as (-> & Hf & Ha). simpl.
      split; [done|]. split; [eauto|by right].
Qed.

Lemma rotate_completes_output_or_none_witness :
  RotatePages.rotate_pages demo_world "missing.pdf" "all" 45 "o.pdf"
    (RotatePages.init true)
  = (Raise (RotatePages.Custom RotatePages.Rotation_must_be_90_180_270),
     RotatePages.init true).
Proof.
  apply (proj1 (rotate_completes_output_or_none demo_world "missing.pdf"
                  "all" 45 "o.pdf" (RotatePages.init true))).
  reflexivity.
Defined.

(** A rotation whose output cannot be written: nothing is completed,
    and the output path is the one path touched. *)
Example rotate_to_read_only_output :
  let run := RotatePages.rotate_pages demo_read_only "b.pdf" "1" 90 "o.pdf"
               (RotatePages.init false) in
  fst run
  = Raise (RotatePages.Custom
             (RotatePages.Failed_to_rotate (RotatePages.Builtin OSError)))
  /\ RotatePages.files (snd run) = []
  /\ RotatePages.failed_writes (snd run) = ["o.pdf"].
Proof. vm_compute. repeat split. Qed.

(** ** The page ranges of the command line *)

Lemma split_pieces_no_sep (sep : ascii) (s : string) :
  Forall (fun x => Py.contains sep x = false) (Py.split sep s).
Proof.
  induction s as [|c s IH]; simpl; [by repeat constructor|].
  destruct (Ascii.eqb c sep) eqn:E.
  - by constructor.
  - destruct (Py.split sep s) as [|x xs].
    + constructor; [|constructor]. simpl. by rewrite E.
    + apply Forall_cons in IH as [Hx Hxs]. constructor; [|done].
      simpl. by rewrite E, Hx.
Qed.

Lemma split1_contains (sep c : ascii) (s a b : string) :
  Cli.split1 sep s = Some (a, b) ->
  Py.contains c s = false -> Py.contains c b = false.
Proof.
  revert a. induction s as [|d s IH]; intros a; simpl; [discriminate|].
  destruct (Ascii.eqb d sep).
  - intros [= _ <-] H. by apply orb_false_iff in H as [_ ?].
  - destruct (Cli.split1 sep s) as [[a' b']|]; [|discriminate].
    intros [= _ <-] H. apply orb_false_iff in H as [_ H]. by eapply IH.
Qed.

Lemma le_sorted_of_lt (l : list Z) :
  StronglySorted Z.lt l -> StronglySorted Z.le l.
Proof.
  induction 1 as [|x l Hl IH Hx]; constructor; [done|].
  eapply Forall_impl; [exact Hx|]. intros y Hy. simpl in Hy. lia.
Qed.

Lemma sorted_set_id (l : list Z) :
  StronglySorted Z.lt l -> Py.sorted_set l = l.
Proof.
  intros Hl. unfold Py.sorted_set.
  apply (StronglySorted_unique Z.le).
  - apply StronglySorted_merge_sort; apply _.
  - by apply le_sorted_of_lt.
  - rewrite merge_sort_Permutation. apply elements_list_to_set.
    by apply lt_sorted_NoDup.
Qed.

(** A strict parse of an expression without comma gives a run of
    consecutive indices. *)
Lemma single_term_contiguous (r : string) (N : Z) (l : list Z) :
  Py.contains "," r = false ->
  PDFSplitter.parse_page_range r N = Ok l ->
  exists a b, l = Py.range a b.
Proof.
  intros Hcomma H. destruct (selects_all r) eqn:Hall.
  - unfold PDFSplitter.parse_page_range in H. unfold selects_all in Hall.
    rewrite Hall in H. injection H as <-. by exists 0, N.
  - pose proof (splitter_ok_valid r N l Hall H) as Hvalid.
    rewrite splitter_all_valid in H by done. injection H as <-.
    rewrite (split_without_sep _ _ Hcomma) in Hvalid |- *.
    apply Forall_cons in Hvalid as [Hv _]. unfold valid_part in Hv.
    unfold indices_of_parts. simpl. rewrite app_nil_r.
    destruct (shape_of (Py.strip r)) as [v|a b|]; simpl.
    + exists (v - 1), v. rewrite (range_cons (v - 1) v) by lia.
      rewrite (range_nil (v - 1 + 1) v) by lia.
      apply sorted_set_id. repeat constructor.
    + exists (a - 1), b. apply sorted_set_id, range_sorted.
    + discriminate.
Qed.

Section CliFacts.
Variable files : list string.

Lemma cli_entries_ok_insert (d : gmap string string) (f r : string) :
  cli_entries_ok files d -> f ∈ files -> Py.contains "," r = false ->
  cli_entries_ok files (<[f := r]> d).
Proof.
  intros Hd Hf Hr g x Hg. destruct (decide (f = g)) as [->|Hne].
  - rewrite lookup_insert_eq in Hg. by injection Hg as <-.
  - rewrite lookup_insert_ne in Hg by done. by apply Hd.
Qed.

Lemma specific_ranges_ok (specs : list string) :
  Forall (fun x => Py.contains "," x = false) specs ->
  forall d, cli_entries_ok files d ->
  cli_entries_ok files (Cli.specific_ranges files specs d).
Proof.
  induction 1 as [|spec specs Hspec Hspecs IH]; intros d Hd; simpl; [done|].
  apply IH. destruct (Py.contains ":" spec); [|done].
  destruct (Cli.split1 ":" spec) as [[name r]|] eqn:Hsplit; [|done].
  destruct (Cli.matching_file files name) as [f|] eqn:Hm; [|done].
  apply cli_entries_ok_insert; [done| |].
  - unfold Cli.matching_file in Hm. apply find_some in Hm as [Hin _].
    by apply list_elem_of_In.
  - by apply (split1_contains ":" "," spec name r).
Qed.

End CliFacts.

Lemma simple_ranges_ok (ranges : list string) (all_files rest : list string) :
  Forall (fun x => Py.contains "," x = false) ranges ->
  (forall f, f ∈ rest -> f ∈ all_files) ->
  forall i d, cli_entries_ok all_files d ->
  cli_entries_ok all_files (Cli.simple_ranges ranges i rest d).
Proof.
  intros Hr. induction rest as [|f rest IH]; intros Hsub i d Hd; simpl;
    [done|].
  apply IH; [intros g Hg; apply Hsub; set_solver|].
  destruct (nth_error ranges i) as [r|] eqn:Hi.
  - apply cli_entries_ok_insert; [done|apply Hsub; set_solver|].
    rewrite contains_strip by done.
    rewrite Forall_forall in Hr. apply Hr.
    apply list_elem_of_In. by eapply nth_error_In.
  - apply cli_entries_ok_insert; [done|apply Hsub; set_solver|done].
Qed.

(** The simple form gives each file the piece at its position. *)
Lemma simple_ranges_lookup (ranges : list string) (rest : list string) :
  NoDup rest ->
  forall i d j f,
  nth_error rest j = Some f ->
  Cli.simple_ranges ranges i rest d !! f
  = Some (match nth_error ranges (i + j) with
          | Some r => Py.strip r
          | None => "all"
          end).
Proof.
  induction 1 as [|g rest Hg Hnd IH]; intros i d j f Hj;
    [by destruct j|].
  assert (Hkeep : forall d' k, g ∉ rest ->
            Cli.simple_ranges ranges k rest d' !! g = d' !! g).
  { clear. induction rest as [|h rest IH]; intros d' k Hnot; simpl; [done|].
    rewrite IH by set_solver.
    destruct (nth_error ranges k); apply lookup_insert_ne; set_solver. }
  destruct j as [|j]; simpl in Hj |- *.
  - injection Hj as <-. rewrite Hkeep by done. rewrite Nat.add_0_r.
    destruct (nth_error ranges i); apply lookup_insert_eq.
  - rewrite (IH (S i) _ j f Hj).
    by replace (i + S j)%nat with (S i + j)%nat by lia.
Qed.

Lemma specific_ranges_named (files pieces : list string)
    (specs : list string) :
  (forall spec, spec ∈ specs -> spec ∈ pieces) ->
  forall d, cli_entries_named files pieces d ->
  cli_entries_named files pieces (Cli.specific_ranges files specs d).
Proof.
  induction specs as [|spec specs IH]; intros Hsub d Hd; simpl; [done|].
  apply IH; [intros x Hx; apply Hsub; set_solver|].
  destruct (Py.contains ":" spec); [|done].
  destruct (Cli.split1 ":" spec) as [[name r]|] eqn:Hsplit; [|done].
  destruct (Cli.matching_file files name) as [f|] eqn:Hm; [|done].
  intros g x Hg. destruct (decide (f = g)) as [->|Hne].
  - rewrite lookup_insert_eq in Hg. injection Hg as <-.
    exists spec, name. split; [apply Hsub; set_solver|done].
  - rewrite lookup_insert_ne in Hg by done. by apply Hd.
Qed.

Lemma merge_page_ranges_ok (pages : option string) (files : list string) :
  cli_entries_ok files (Cli.merge_page_ranges pages files).
Proof.
  assert (Hempty : cli_entries_ok files ∅).
  { intros f r Hf. by rewrite lookup_empty in Hf. }
  unfold Cli.merge_page_ranges. destruct pages as [p|]; [|done].
  destruct (Py.is_empty p); [done|].
  destruct (Py.contains ":" p).
  - apply specific_ranges_ok; [apply split_pieces_no_sep|done].
  - apply simple_ranges_ok; [apply split_pieces_no_sep|done|done].
Qed.

(** X19.  Whatever [--pages] holds, every entry of the dictionary that
    [merge_command] builds is for one of the files of the command, and
    its expression holds no comma: through the command line a file is
    given one term at most. *)
Theorem cli_gives_each_file_one_term (pages : option string)
    (files : list string) (f r : string) :
  Cli.merge_page_ranges pages files !! f = Some r ->
  f ∈ files /\ Py.contains "," r = false /\ terms r = [Py.strip r].
Proof.
  intros H. destruct (merge_page_ranges_ok pages files f r H) as [Hf Hr].
  split; [done|]. split; [done|].
  unfold terms. by rewrite (split_without_sep _ _ Hr).
Qed.

Lemma cli_gives_each_file_one_term_witness :
  "b.pdf" ∈ ["a.pdf"; "b.pdf"] /\ Py.contains "," "1-5" = false
  /\ terms "1-5" = [Py.strip "1-5"].
Proof.
  apply (cli_gives_each_file_one_term (Some "b.pdf:1-5,7,a.pdf:2")
           ["a.pdf"; "b.pdf"] "b.pdf" "1-5").
  vm_compute. reflexivity.
Defined.

(** X20.  In the simple form of [--pages] (no colon), with files that
    are all different, the merge resolves the file at position [i] with
    the piece at position [i], trimmed, and with [all] when there are
    fewer pieces; a piece that is blank selects every page. *)
Theorem cli_simple_form_assigns_by_position (p : string)
    (files : list string) (i : nat) (f : string) :
  Py.is_empty p = false ->
  Py.contains ":" p = false ->
  NoDup files ->
  nth_error files i = Some f ->
  let d := Cli.page_ranges_argument (Cli.merge_page_ranges (Some p) files) in
  expression_of d f
  = match nth_error (Py.split "," p) i with
    | Some r => Py.strip r
    | None => "all"
    end
  /\ (forall r N,
        nth_error (Py.split "," p) i = Some r ->
        Py.strip r = EmptyString ->
        PDFMerger.parse_page_range (expression_of d f) N = Ok (upto N)).
Proof.
  intros Hp Hcolon Hnd Hi.
  assert (Hlook : Cli.merge_page_ranges (Some p) files !! f
                  = Some (match nth_error (Py.split "," p) i with
                          | Some r => Py.strip r
                          | None => "all"
                          end)).
  { unfold Cli.merge_page_ranges. rewrite Hp, Hcolon.
    by rewrite (simple_ranges_lookup _ files Hnd 0 ∅ i f Hi). }
  assert (Hexpr : expression_of
                    (Cli.page_ranges_argument
                       (Cli.merge_page_ranges (Some p) files)) f
                  = match nth_error (Py.split "," p) i with
                    | Some r => Py.strip r
                    | None => "all"
                    end).
  { unfold Cli.page_ranges_argument.
    destruct (bool_decide (Cli.merge_page_ranges (Some p) files = ∅)) eqn:E.
    - apply bool_decide_eq_true in E. rewrite E, lookup_empty in Hlook.
      discriminate.
    - unfold expression_of. by rewrite Hlook. }
  cbv zeta. split; [done|].
  intros r N Hr Hblank. rewrite Hexpr, Hr, Hblank.
  unfold PDFMerger.parse_page_range. simpl. by rewrite range_0_upto.
Qed.

Lemma cli_simple_form_assigns_by_position_witness :
  expression_of
    (Cli.page_ranges_argument
       (Cli.merge_page_ranges (Some "1-5, ,3") ["a.pdf"; "b.pdf"; "c.pdf"]))
    "b.pdf"
  = EmptyString
  /\ PDFMerger.parse_page_range
       (expression_of
          (Cli.page_ranges_argument
             (Cli.merge_page_ranges (Some "1-5, ,3")
                ["a.pdf"; "b.pdf"; "c.pdf"]))
          "b.pdf") 4
     = Ok [0; 1; 2; 3].
Proof.
  destruct (cli_simple_form_assigns_by_position "1-5, ,3"
              ["a.pdf"; "b.pdf"; "c.pdf"] 1 "b.pdf")
    as [Hexpr Hall].
  - reflexivity.
  - reflexivity.
  - apply (bool_decide_unpack _). vm_compute. reflexivity.
  - reflexivity.
  - split; [exact Hexpr|]. apply (Hall " " 4); reflexivity.
Defined.

(** X21.  In the file-specific form of [--pages] (a colon somewhere),
    every entry comes from a piece [name:range] whose name is the base
    name or the whole path of the file, the range being what follows
    the first colon of the piece: a piece without colon, or whose name
    stands for no file, leaves nothing. *)
Theorem cli_specific_form_entries (p : string) (files : list string)
    (f r : string) :
  Py.contains ":" p = true ->
  Cli.merge_page_ranges (Some p) files !! f = Some r ->
  exists spec name,
    spec ∈ Py.split "," p
    /\ Cli.split1 ":" spec = Some (name, r)
    /\ Cli.matching_file files name = Some f
    /\ (Py.basename f = name \/ f = name).
Proof.
  intros Hcolon H. unfold Cli.merge_page_ranges in H.
  destruct (Py.is_empty p) eqn:Hp; [by destruct p|].
  rewrite Hcolon in H.
  assert (Hnamed : cli_entries_named files (Py.split "," p)
                     (Cli.specific_ranges files (Py.split "," p) ∅)).
  { apply specific_ranges_named; [done|].
    intros g x Hg. by rewrite lookup_empty in Hg. }
  destruct (Hnamed f r H) as (spec & name & Hspec & Hsplit & Hm).
  exists spec, name. repeat split; try done.
  unfold Cli.matching_file in Hm. apply find_some in Hm as [_ Hm].
  apply orb_true_iff in Hm as [Hm|Hm]; apply String.eqb_eq in Hm; auto.
Qed.

Lemma cli_specific_form_entries_witness :
  exists spec name,
    spec ∈ Py.split "," "1-3,b.pdf:2-4,zz.pdf:1"
    /\ Cli.split1 ":" spec = Some (name, "2-4")
    /\ Cli.matching_file ["dir/a.pdf"; "dir/b.pdf"] name = Some "dir/b.pdf"
    /\ (Py.basename "dir/b.pdf" = name \/ "dir/b.pdf" = name).
Proof.
  apply (cli_specific_form_entries "1-3,b.pdf:2-4,zz.pdf:1"
           ["dir/a.pdf"; "dir/b.pdf"] "dir/b.pdf" "2-4").
  - reflexivity.
  - vm_compute. reflexivity.
Defined.

(** X22.  [split_command] passes to [split_by_ranges] the pieces of
    [--by-ranges], trimmed: whatever the option holds, a list that is
    never empty, of expressions without comma, each a single term.  So,
    when the source exists and opens, every output path can be written
    and the pieces all parse, the split ends well and every file written
    holds a run of consecutive pages of the source. *)
Theorem cli_split_files_are_contiguous (by_ranges : string) :
  Cli.split_ranges by_ranges <> []
  /\ Forall (fun r => Py.contains "," r = false /\ terms r = [r])
       (Cli.split_ranges by_ranges)
  /\ forall (w : World) (input_file output_dir : string) (N : nat)
       (s : PDFSplitter.state),
       path_exists w input_file = true ->
       pdf_pages w input_file = Some N ->
       (forall p, writable w p = true) ->
       Forall (fun r =>
                 is_ok (PDFSplitter.parse_page_range r (Z.of_nat N)) = true)
         (Cli.split_ranges by_ranges) ->
       exists output_files s' new,
         PDFSplitter.split_by_ranges w input_file
           (Cli.split_ranges by_ranges) output_dir s
         = (Ok output_files, s')
         /\ PDFSplitter.files s' = PDFSplitter.files s ++ new
         /\ Forall (fun file =>
                      exists a b,
                        snd file = pages_of input_file (Py.range a b))
              new.
Proof.
  assert (Hne : Cli.split_ranges by_ranges <> []).
  { unfold Cli.split_ranges. intros Hnil. apply map_eq_nil in Hnil.
    by apply split_not_nil in Hnil. }
  assert (Hcomma : Forall (fun r => Py.contains "," r = false)
                     (Cli.split_ranges by_ranges)).
  { unfold Cli.split_ranges. apply Forall_map.
    eapply Forall_impl; [apply (split_pieces_no_sep "," by_ranges)|].
    intros piece Hp. simpl in *. by rewrite contains_strip. }
  split; [done|]. split.
  { unfold Cli.split_ranges in *. apply Forall_map. apply Forall_map in Hcomma.
    eapply Forall_impl; [exact Hcomma|]. intros piece Hp. simpl in *.
    split; [done|]. unfold terms.
    by rewrite (split_without_sep _ _ Hp); simpl; rewrite strip_strip. }
  intros w input_file output_dir N s Hex Hpages Hwr Hok.
  destruct (split_by_ranges_run w input_file output_dir Hwr N
              (Cli.split_ranges by_ranges) s Hex Hpages Hne Hok)
    as (outs & s' & new & Hrun & Hfl & Hnew & _).
  exists outs, s', new. split; [done|]. split; [done|].
  apply Forall_forall. intros file Hfile.
  assert (Hin : snd file ∈ map snd new).
  { apply list_elem_of_In, in_map, list_elem_of_In, Hfile. }
  rewrite Hnew in Hin.
  apply list_elem_of_In, in_map_iff in Hin as (l & <- & Hl).
  apply list_elem_of_In, list_elem_of_filter in Hl as [_ Hl].
  apply list_elem_of_In, in_map_iff in Hl as (r & <- & Hr).
  rewrite Forall_forall in Hcomma, Hok.
  apply list_elem_of_In in Hr.
  specialize (Hcomma r Hr). specialize (Hok r Hr). simpl in Hok.
  unfold split_resolved.
  destruct (PDFSplitter.parse_page_range r (Z.of_nat N))
    as [l|] eqn:Hl; [|discriminate].
  destruct (single_term_contiguous _ _ _ Hcomma Hl) as (a & b & ->).
  by exists a, b.
Qed.

Lemma cli_split_files_are_contiguous_witness :
  exists output_files s',
    PDFSplitter.split_by_ranges demo_world "doc.pdf"
      (Cli.split_ranges "1-3, 5 ,all") "out" (PDFSplitter.init false)
    = (Ok output_files, s')
    /\ Forall (fun file =>
                 exists a b, snd file = pages_of "doc.pdf" (Py.range a b))
         (PDFSplitter.files s').
Proof.
  destruct (proj2 (proj2 (cli_split_files_are_contiguous "1-3, 5 ,all"))
              demo_world "doc.pdf" "out" 10%nat (PDFSplitter.init false))
    as (outs & s' & new & Hrun & Hfl & Hnew).
  - reflexivity.
  - reflexivity.
  - reflexivity.
  - repeat constructor.
  - exists outs, s'. split; [exact Hrun|].
    simpl in Hfl. rewrite Hfl. exact Hnew.
Defined.
